(** * gestion_turnos: the appointment ("turnos") service

    A shallow embedding of [src/lib/validaciones.ts], [src/lib/turnos.ts],
    [src/lib/email.ts], [src/lib/tools.ts], [scripts/setup-db.ts] and of the
    table declared in [scripts/setup-db.sql], with the properties of the
    reservation protocol proved over it.

    Conventions.
    - A JavaScript string is a [string] (a sequence of 8-bit characters); the
      regular expressions of the source only look at ASCII characters.
    - A time value (the number a [Date] holds) is a [Z] of milliseconds since
      the epoch; [None] stands for [NaN] (an invalid [Date]).
    - An [async] function is a tree of [await]s ([Prog]); the answers of the
      database and of the mail transport are supplied from outside the tree.
    - [console.log] output is not part of the model. *)

From Stdlib Require Import String Ascii List ZArith NArith Bool Lia.
From Stdlib Require Import Sorting.Sorted Sorting.Permutation.
From Stdlib Require Import DecimalString.
From ExtLib Require Import Structures.Monad Structures.MonadExc.
Import ListNotations.
Open Scope string_scope.


(* ===================================================================== *)
(** ** Regular expressions, as [RegExp.prototype.test] sees them          *)
(* ===================================================================== *)

Module RegExp.

(** The fragment the source uses: character classes (a literal is a class
    of one character), concatenation, alternation and [?].  Both source
    patterns are anchored with [^] and [$], so [test] is a match of the
    whole string. *)
Inductive regex : Type :=
| Empty : regex
| Eps : regex
| Class : list (ascii * ascii) -> regex
| Seq : regex -> regex -> regex
| Alt : regex -> regex -> regex
| Opt : regex -> regex.

Definition in_range (c : ascii) (r : ascii * ascii) : bool :=
  (N_of_ascii (fst r) <=? N_of_ascii c)%N && (N_of_ascii c <=? N_of_ascii (snd r))%N.

Definition in_class (rs : list (ascii * ascii)) (c : ascii) : bool :=
  existsb (in_range c) rs.

(** [\d], a literal character, and [r{n}]. *)
Definition digit : regex := Class [("0", "9")%char].
Definition chr (c : ascii) : regex := Class [(c, c)].
Fixpoint rep (n : nat) (r : regex) : regex :=
  match n with
  | O => Eps
  | S n' => Seq r (rep n' r)
  end.

(** The language of a pattern. *)
Fixpoint lang (r : regex) (s : string) : Prop :=
  match r with
  | Empty => False
  | Eps => s = ""
  | Class rs => exists c, s = String c "" /\ in_class rs c = true
  | Seq r1 r2 => exists s1 s2, s = s1 ++ s2 /\ lang r1 s1 /\ lang r2 s2
  | Alt r1 r2 => lang r1 s \/ lang r2 s
  | Opt r1 => s = "" \/ lang r1 s
  end.

(** The matcher: Brzozowski derivatives, with the dead branches pruned. *)
Fixpoint nullable (r : regex) : bool :=
  match r with
  | Empty => false
  | Eps => true
  | Class _ => false
  | Seq r1 r2 => nullable r1 && nullable r2
  | Alt r1 r2 => nullable r1 || nullable r2
  | Opt _ => true
  end.

Definition seq' (r1 r2 : regex) : regex :=
  match r1, r2 with
  | Empty, _ => Empty
  | _, Empty => Empty
  | Eps, _ => r2
  | _, _ => Seq r1 r2
  end.

Definition alt' (r1 r2 : regex) : regex :=
  match r1, r2 with
  | Empty, _ => r2
  | _, Empty => r1
  | _, _ => Alt r1 r2
  end.

Fixpoint deriv (c : ascii) (r : regex) : regex :=
  match r with
  | Empty => Empty
  | Eps => Empty
  | Class rs => if in_class rs c then Eps else Empty
  | Seq r1 r2 =>
      alt' (seq' (deriv c r1) r2) (if nullable r1 then deriv c r2 else Empty)
  | Alt r1 r2 => alt' (deriv c r1) (deriv c r2)
  | Opt r1 => deriv c r1
  end.

Fixpoint test (r : regex) (s : string) : bool :=
  match s with
  | EmptyString => nullable r
  | String c s' => test (deriv c r) s'
  end.

End RegExp.


(* ===================================================================== *)
(** ** [Date], as the Node.js runtime (V8) evaluates it                   *)
(* ===================================================================== *)

Module JSDate.
Import RegExp.

Definition msPerMinute : Z := 60000.
Definition msPerDay : Z := 86400000.

(** ECMAScript's [DayFromYear], [InLeapYear] and [MakeDay] (month 0..11). *)
Definition DayFromYear (y : Z) : Z :=
  (365 * (y - 1970) + (y - 1969) / 4 - (y - 1901) / 100 + (y - 1601) / 400)%Z.

Definition InLeapYear (y : Z) : bool :=
  ((y mod 4 =? 0) && (negb (y mod 100 =? 0) || (y mod 400 =? 0)))%Z.

Definition DaysBeforeMonth (leap : bool) (month : Z) : Z :=
  let l := if leap then 1%Z else 0%Z in
  match month with
  | 0 => 0
  | 1 => 31
  | 2 => 59 + l
  | 3 => 90 + l
  | 4 => 120 + l
  | 5 => 151 + l
  | 6 => 181 + l
  | 7 => 212 + l
  | 8 => 243 + l
  | 9 => 273 + l
  | 10 => 304 + l
  | _ => 334 + l
  end%Z.

Definition MakeDay (year month date : Z) : Z :=
  (DayFromYear year + DaysBeforeMonth (InLeapYear year) month + date - 1)%Z.

(** The number a run of decimal digits denotes. *)
Definition digit_value (c : ascii) : Z := (Z.of_N (N_of_ascii c) - 48)%Z.

Fixpoint number_from (acc : Z) (s : string) : Z :=
  match s with
  | EmptyString => acc
  | String c s' => number_from (10 * acc + digit_value c)%Z s'
  end.

Definition number (s : string) : Z := number_from 0 s.

(** The two ISO forms the service builds: [YYYY-MM-DD] and
    [YYYY-MM-DDTHH:MM]. *)
Definition iso_date : regex :=
  Seq (rep 4 digit) (Seq (chr "-") (Seq (rep 2 digit) (Seq (chr "-") (rep 2 digit)))).

Definition iso_date_time : regex :=
  Seq iso_date (Seq (chr "T") (Seq (rep 2 digit) (Seq (chr ":") (rep 2 digit)))).

(** V8's date composer: the month must lie in 1..12 and the day in 1..31,
    whatever the month; [MakeDay] then carries a day past the end of the
    month into the next one. *)
Definition day_of (s : string) : option Z :=
  let y := number (substring 0 4 s) in
  let m := number (substring 5 2 s) in
  let d := number (substring 8 2 s) in
  if ((1 <=? m) && (m <=? 12) && (1 <=? d) && (d <=? 31))%Z
  then Some (MakeDay y (m - 1) d)
  else None.

(** V8's time composer: [00:00] to [23:59], and [24:00]. *)
Definition time_of (s : string) : option Z :=
  let h := number (substring 11 2 s) in
  let n := number (substring 14 2 s) in
  if (((h <=? 23) && (n <=? 59)) || ((h =? 24) && (n =? 0)))%Z
  then Some ((h * 60 + n) * msPerMinute)%Z
  else None.

(** V8's legacy reader, which takes over where the ISO reader stops: at a
    month outside 1..12 or a day outside 1..31 of a text [NNNN-NN-NN].  It
    has then the three numbers of the text.  When the first is a day number
    (1..31) they are month, day and year; otherwise year, month and day.  A
    year up to 49 is of the 2000s, a year from 50 to 99 of the 1900s.  A
    letter after a number (the [T] of a date-time form) is refused. *)
Definition IsMonth (n : Z) : bool := ((1 <=? n) && (n <=? 12))%Z.
Definition IsDay (n : Z) : bool := ((1 <=? n) && (n <=? 31))%Z.

Definition legacy_day_of (s : string) : option Z :=
  let a := number (substring 0 4 s) in
  let b := number (substring 5 2 s) in
  let c := number (substring 8 2 s) in
  let '(year, month, day) := if IsDay a then (c, a, b) else (a, b, c) in
  let year := (if year <=? 49 then year + 2000
               else if year <=? 99 then year + 1900 else year)%Z in
  if IsMonth month && IsDay day then Some (MakeDay year (month - 1) day) else None.

(** [new Date(s).getTime()].  [zona] is the number of minutes the local
    clock of the process is ahead of UTC (a fixed offset).  A date-only form
    the ISO reader takes is read as UTC; a date the legacy reader takes, and
    a date-time form without offset, as local time.  The function is the
    runtime's on every text [NNNN-NN-NN] of digits, and on such a text
    followed by [T] and a time [HH:MM] or [H:MM] (the second no date for the
    runtime): the texts the tools build once [validarFormatoFecha] and
    [validarFormatoHora] have passed.  The other texts the runtime reads
    (other separators, month names, seconds, offsets) are not modelled; the
    function gives them [NaN], and nothing is stated on them. *)
Definition parse (zona : Z) (s : string) : option Z :=
  if test iso_date s then
    match day_of s with
    | Some d => Some (d * msPerDay)%Z
    | None =>
        match legacy_day_of s with
        | Some d => Some (d * msPerDay - zona * msPerMinute)%Z
        | None => None
        end
    end
  else if test iso_date_time s then
    match day_of s, time_of s with
    | Some d, Some t => Some (d * msPerDay + t - zona * msPerMinute)%Z
    | _, _ => None
    end
  else None.

(** [d.setHours(0, 0, 0, 0)]: the start of the local day of [t]. *)
Definition setHours0 (zona : Z) (t : Z) : Z :=
  ((t + zona * msPerMinute) / msPerDay * msPerDay - zona * msPerMinute)%Z.

(** The civil date of a day number (year, month 1..12, day 1..31). *)
Definition civil_from_days (z : Z) : Z * Z * Z :=
  let z := (z + 719468)%Z in
  let era := (z / 146097)%Z in
  let doe := (z - era * 146097)%Z in
  let yoe := ((doe - doe / 1460 + doe / 36524 - doe / 146096) / 365)%Z in
  let doy := (doe - (365 * yoe + yoe / 4 - yoe / 100))%Z in
  let mp := ((5 * doy + 2) / 153)%Z in
  let d := (doy - (153 * mp + 2) / 5 + 1)%Z in
  let m := (if mp <? 10 then mp + 3 else mp - 9)%Z in
  let y := (yoe + era * 400 + (if m <=? 2 then 1 else 0))%Z in
  (y, m, d).

Definition dec_digit (z : Z) : ascii := ascii_of_N (48 + Z.to_N (z mod 10)).

(** [String(z).padStart(n, "0")] for [0 <= z < 10^n]. *)
Fixpoint pad (n : nat) (z : Z) : string :=
  match n with
  | O => ""
  | S n' => pad n' (z / 10) ++ String (dec_digit z) ""
  end.

(** [new Date(t).toISOString().split("T")[0]]: the UTC date of [t]. *)
Definition toISODate (t : Z) : string :=
  let '(y, m, d) := civil_from_days (t / msPerDay) in
  (if ((0 <=? y) && (y <=? 9999))%Z then pad 4 y
   else (if (y <? 0)%Z then "-" else "+") ++ pad 6 (Z.abs y))
  ++ "-" ++ pad 2 m ++ "-" ++ pad 2 d.

End JSDate.


(* ===================================================================== *)
(** ** [src/lib/validaciones.ts]                                          *)
(* ===================================================================== *)

Module Validaciones.
Import RegExp.

(** [/^\d{4}-\d{2}-\d{2}$/] *)
Definition regex_fecha : regex :=
  Seq (rep 4 digit) (Seq (chr "-") (Seq (rep 2 digit) (Seq (chr "-") (rep 2 digit)))).

(** [/^([01]?[0-9]|2[0-3]):[0-5][0-9]$/] *)
Definition regex_hora : regex :=
  Seq (Alt (Seq (Opt (Class [("0", "0"); ("1", "1")]%char)) (Class [("0", "9")%char]))
           (Seq (chr "2") (Class [("0", "3")%char])))
      (Seq (chr ":") (Seq (Class [("0", "5")%char]) (Class [("0", "9")%char]))).

Section Reloj.

(** The time zone of the process and the instant [new Date()] reads.  Every
    read of the clock in one call happens before its first [await]; the
    model gives them one value. *)
Variable zona : Z.
Variable ahora : Z.

Definition validarFormatoFecha (fecha : string) : bool :=
  if negb (test regex_fecha fecha) then false
  else
    (* date instanceof Date && !isNaN(date.getTime()) *)
    match JSDate.parse zona fecha with
    | Some _ => true
    | None => false
    end.

Definition validarFormatoHora (hora : string) : bool :=
  test regex_hora hora.

Definition validarFechaFutura (fecha : string) : bool :=
  let fechaTurno := JSDate.parse zona fecha in
  let hoy := JSDate.setHours0 zona ahora in
  match option_map (JSDate.setHours0 zona) fechaTurno with
  | Some t => (hoy <=? t)%Z
  | None => false
  end.

Definition validarFechaHoraFutura (fecha hora : string) : bool :=
  match JSDate.parse zona (fecha ++ "T" ++ hora) with
  | Some fechaHoraTurno => (ahora <? fechaHoraTurno)%Z
  | None => false
  end.

End Reloj.

(** [s.split(":")] *)
Fixpoint split_colon (actual s : string) : list string :=
  match s with
  | EmptyString => [actual]
  | String c s' =>
      if (c =? ":")%char then actual :: split_colon "" s'
      else split_colon (actual ++ String c "") s'
  end.

(** A number of the runtime, as far as this function needs them: an integer
    or [NaN]. *)
Inductive Numero : Type :=
| num (z : Z)
| NaN.

Fixpoint solo_cifras (s : string) : bool :=
  match s with
  | EmptyString => true
  | String c s' => in_class [("0", "9")%char] c && solo_cifras s'
  end.

(** [Number(s)] on the empty text (0) and on a run of at most 15 decimal
    digits (which a double holds exactly).  The other texts [Number] reads
    (blanks, signs, fractions, exponents, other radixes, longer runs) and
    the texts it gives [NaN] for are not covered: [None]. *)
Definition Number (s : string) : option Numero :=
  if solo_cifras s && (String.length s <=? 15)%nat
  then Some (num (JSDate.number s))
  else None.

(** The integers a double holds exactly go up to 2^53: a product or a sum
    of such integers that stays within them is computed without rounding. *)
Definition entero_exacto (z : Z) : bool := (Z.abs z <=? 2 ^ 53)%Z.

(** [const [h, m] = hora.split(":").map(Number); h * 60 + m].  With no
    colon in [hora], [m] is [undefined] and the sum is [NaN].  Where the
    product or the sum would leave the integers a double holds exactly, the
    runtime rounds; that is not covered: [None]. *)
Definition minutos (hora : string) : option Numero :=
  match split_colon "" hora with
  | h :: m :: _ =>
      match Number h, Number m with
      | Some (num x), Some (num y) =>
          if entero_exacto (x * 60) && entero_exacto (x * 60 + y)
          then Some (num (x * 60 + y))
          else None
      | Some _, Some _ => Some NaN
      | _, _ => None
      end
  | _ => Some NaN
  end.

(** [a >= b] and [a <= b]: false when either side is [NaN]. *)
Definition mayor_o_igual (a b : Numero) : bool :=
  match a, b with
  | num x, num y => (y <=? x)%Z
  | _, _ => false
  end.

Definition menor_o_igual (a b : Numero) : bool :=
  match a, b with
  | num x, num y => (x <=? y)%Z
  | _, _ => false
  end.

(** [None] when one of the three texts has a part [Number] is not covered
    on. *)
Definition validarHorarioLaboral (hora horaInicio horaFin : string) : option bool :=
  match minutos hora, minutos horaInicio, minutos horaFin with
  | Some minutosTurno, Some minutosInicio, Some minutosFin =>
      Some (mayor_o_igual minutosTurno minutosInicio
            && menor_o_igual minutosTurno minutosFin)
  | _, _, _ => None
  end.

(** The default working hours of [validarHorarioLaboral]. *)
Definition horaInicio_por_defecto : string := "09:00".
Definition horaFin_por_defecto : string := "18:00".

End Validaciones.


(* ===================================================================== *)
(** ** Rows, queries and [async] functions                                *)
(* ===================================================================== *)

Module Async.

(** [interface Turno] and [interface NuevoTurno] of [turnos.ts]. *)
Inductive Estado : Type := confirmado | cancelado.

Definition texto_estado (e : Estado) : string :=
  match e with
  | confirmado => "confirmado"
  | cancelado => "cancelado"
  end.

Record Turno : Type := {
  id : string;
  fecha : string;
  hora : string;
  nombre_cliente : string;
  email : string;
  estado : Estado;
  created_at : string
}.

Record NuevoTurno : Type := {
  n_fecha : string;
  n_hora : string;
  n_nombre_cliente : string;
  n_email : string;
  n_estado : option Estado
}.

(** *** The request a supabase-js builder chain stands for *)

Inductive Operador : Type := op_eq | op_gte | op_lte.

Record Filtro : Type := {
  f_op : Operador;
  f_columna : string;
  f_valor : string
}.

Record Valores : Type := {
  v_fecha : string;
  v_hora : string;
  v_nombre_cliente : string;
  v_email : string;
  v_estado : Estado
}.

Inductive Verbo : Type :=
| v_select (columnas : string)
| v_insert (valores : Valores)
| v_update (nuevo_estado : Estado).

Record Consulta : Type := {
  c_tabla : string;
  c_verbo : Verbo;
  c_filtros : list Filtro;
  c_orden : list string;
  c_limite : option nat;
  c_representacion : bool;
  c_single : bool
}.

(** [supabase.from(t)] followed by [.select(cols)], [.insert(v)] or
    [.update({ estado })]. *)
Definition q_select (columnas : string) (tabla : string) : Consulta :=
  {| c_tabla := tabla; c_verbo := v_select columnas; c_filtros := [];
     c_orden := []; c_limite := None; c_representacion := true; c_single := false |}.

Definition q_insert (valores : Valores) (tabla : string) : Consulta :=
  {| c_tabla := tabla; c_verbo := v_insert valores; c_filtros := [];
     c_orden := []; c_limite := None; c_representacion := false; c_single := false |}.

Definition q_update (nuevo_estado : Estado) (tabla : string) : Consulta :=
  {| c_tabla := tabla; c_verbo := v_update nuevo_estado; c_filtros := [];
     c_orden := []; c_limite := None; c_representacion := false; c_single := false |}.

Definition con_filtro (f : Filtro) (q : Consulta) : Consulta :=
  {| c_tabla := c_tabla q; c_verbo := c_verbo q; c_filtros := c_filtros q ++ [f];
     c_orden := c_orden q; c_limite := c_limite q;
     c_representacion := c_representacion q; c_single := c_single q |}.

(** [.eq(col, v)], [.gte(col, v)], [.lte(col, v)] *)
Definition q_eq (col v : string) : Consulta -> Consulta :=
  con_filtro {| f_op := op_eq; f_columna := col; f_valor := v |}.
Definition q_gte (col v : string) : Consulta -> Consulta :=
  con_filtro {| f_op := op_gte; f_columna := col; f_valor := v |}.
Definition q_lte (col v : string) : Consulta -> Consulta :=
  con_filtro {| f_op := op_lte; f_columna := col; f_valor := v |}.

(** [.order(col, { ascending: true })] *)
Definition q_order (col : string) (q : Consulta) : Consulta :=
  {| c_tabla := c_tabla q; c_verbo := c_verbo q; c_filtros := c_filtros q;
     c_orden := c_orden q ++ [col]; c_limite := c_limite q;
     c_representacion := c_representacion q; c_single := c_single q |}.

(** [.limit(n)] *)
Definition q_limit (n : nat) (q : Consulta) : Consulta :=
  {| c_tabla := c_tabla q; c_verbo := c_verbo q; c_filtros := c_filtros q;
     c_orden := c_orden q; c_limite := Some n;
     c_representacion := c_representacion q; c_single := c_single q |}.

(** [.select()] after [.insert] or [.update]: send the rows back. *)
Definition q_returning (q : Consulta) : Consulta :=
  {| c_tabla := c_tabla q; c_verbo := c_verbo q; c_filtros := c_filtros q;
     c_orden := c_orden q; c_limite := c_limite q;
     c_representacion := true; c_single := c_single q |}.

(** [.single()] *)
Definition q_single (q : Consulta) : Consulta :=
  {| c_tabla := c_tabla q; c_verbo := c_verbo q; c_filtros := c_filtros q;
     c_orden := c_orden q; c_limite := c_limite q;
     c_representacion := c_representacion q; c_single := true |}.

(** *** The answer [{ data, error }] *)

Record PostgrestError : Type := {
  code : string;
  message : string
}.

Inductive Datos : Type :=
| d_null
| d_filas (filas : list Turno)
| d_fila (fila : Turno).

Record Respuesta : Type := {
  data : Datos;
  error : option PostgrestError
}.

(** [data] read as an object, as an array, and [data.length]. *)
Definition objeto (d : Datos) : option Turno :=
  match d with
  | d_fila t => Some t
  | _ => None
  end.

Definition arreglo (d : Datos) : option (list Turno) :=
  match d with
  | d_filas l => Some l
  | _ => None
  end.

(** *** The mail handed to [transporter.sendMail] *)

Record DatosEmail : Type := {
  de_email : string;
  de_nombre : string;
  de_fecha : string;
  de_hora : string;
  de_turnoId : string
}.

(** The [html] body is a fixed template filled with [datos]. *)
Record Correo : Type := {
  to : string;
  subject : string;
  html_datos : DatosEmail
}.

(** *** An [async] function: a tree of [await]s

    [Throw m] is [throw new Error(m)].  The database answers an [AwaitDb]
    with [{ data, error }]; the transport answers an [AwaitMail] with [None]
    when the promise resolves and with the error when it rejects. *)
Inductive Prog (R : Type) : Type :=
| Ret (r : R)
| Throw (mensaje : string)
| AwaitDb (q : Consulta) (k : Respuesta -> Prog R)
| AwaitMail (m : Correo) (k : option string -> Prog R).

Arguments Ret {R} r.
Arguments Throw {R} mensaje.
Arguments AwaitDb {R} q k.
Arguments AwaitMail {R} m k.

Fixpoint bind_prog {A B : Type} (p : Prog A) (f : A -> Prog B) : Prog B :=
  match p with
  | Ret a => f a
  | Throw m => Throw m
  | AwaitDb q k => AwaitDb q (fun r => bind_prog (k r) f)
  | AwaitMail m k => AwaitMail m (fun r => bind_prog (k r) f)
  end.

(** [try { p } catch (error) { h(error.message) }] *)
Fixpoint catch_prog {A : Type} (p : Prog A) (h : string -> Prog A) : Prog A :=
  match p with
  | Ret a => Ret a
  | Throw m => h m
  | AwaitDb q k => AwaitDb q (fun r => catch_prog (k r) h)
  | AwaitMail m k => AwaitMail m (fun r => catch_prog (k r) h)
  end.

#[export] Instance Monad_Prog : Monad Prog :=
  {| ret := @Ret; bind := @bind_prog |}.

#[export] Instance Exception_Prog : MonadExc string Prog :=
  {| raise := @Throw; catch := @catch_prog |}.

(** [await query] and [await transporter.sendMail(m)] *)
Definition await (q : Consulta) : Prog Respuesta := AwaitDb q Ret.

Definition sendMail (m : Correo) : Prog unit :=
  AwaitMail m (fun r =>
    match r with
    | None => Ret tt
    | Some e => Throw e
    end).

(** The double quote, [x || y] on an optional string, and [String(n)]. *)
Definition comillas : string := String (ascii_of_nat 34) "".

Definition truthy (o : option string) : bool :=
  match o with
  | Some s => negb (s =? "")
  | None => false
  end.

Definition o_bien (o : option string) (d : string) : string :=
  match o with
  | Some s => if s =? "" then d else s
  | None => d
  end.

Definition decimal (n : nat) : string := NilEmpty.string_of_uint (Nat.to_uint n).

End Async.


(* ===================================================================== *)
(** ** [src/lib/turnos.ts] and [src/lib/email.ts]                         *)
(* ===================================================================== *)

Module Turnos.
Import Async.
Import MonadNotation.
Local Open Scope monad_scope.

Notation "q |> f" := (f q) (at level 45, left associativity, only parsing).

Definition crearTurno (turno : NuevoTurno) : Prog (option Turno) :=
  r <- await ("turnos"
        |> q_insert {| v_fecha := n_fecha turno;
                       v_hora := n_hora turno;
                       v_nombre_cliente := n_nombre_cliente turno;
                       v_email := n_email turno;
                       (* turno.estado || "confirmado" *)
                       v_estado := match n_estado turno with
                                   | Some e => e
                                   | None => confirmado
                                   end |}
        |> q_returning
        |> q_single) ;;
  match error r with
  | Some e => raise ("Error al crear turno: " ++ message e)
  | None => ret (objeto (data r))
  end.

Definition listarTurnos (fechaDesde fechaHasta : option string)
    (soloConfirmados : bool) : Prog (list Turno) :=
  let query := "turnos" |> q_select "*" in
  (* if (fechaDesde) ...: an absent or empty text adds no filter *)
  let query := match fechaDesde with
               | Some f => if f =? "" then query else query |> q_gte "fecha" f
               | None => query
               end in
  let query := match fechaHasta with
               | Some f => if f =? "" then query else query |> q_lte "fecha" f
               | None => query
               end in
  let query := if soloConfirmados
               then query |> q_eq "estado" "confirmado"
               else query in
  let query := query |> q_order "fecha" |> q_order "hora" in
  r <- await query ;;
  match error r with
  | Some e => raise ("Error al listar turnos: " ++ message e)
  | None =>
      (* data || [] *)
      ret (match arreglo (data r) with
           | Some l => l
           | None => []
           end)
  end.

Definition verificarDisponibilidad (fecha hora : string) : Prog bool :=
  r <- await ("turnos"
        |> q_select "id"
        |> q_eq "fecha" fecha
        |> q_eq "hora" hora
        |> q_eq "estado" "confirmado"
        |> q_limit 1) ;;
  match error r with
  | Some e => raise ("Error al verificar disponibilidad: " ++ message e)
  | None =>
      (* !data || data.length === 0 *)
      ret (match arreglo (data r) with
           | Some l => Nat.eqb (List.length l) 0
           | None => true
           end)
  end.

Definition cancelarTurno (turnoId : string) : Prog Turno :=
  r <- await ("turnos"
        |> q_update cancelado
        |> q_eq "id" turnoId
        |> q_returning
        |> q_single) ;;
  match error r with
  | Some e => raise ("Error al cancelar turno: " ++ message e)
  | None =>
      match objeto (data r) with
      | None => raise ("No se encontró el turno con id: " ++ turnoId)
      | Some t => ret t
      end
  end.

Definition obtenerTurnoPorId (turnoId : string) : Prog (option Turno) :=
  r <- await ("turnos"
        |> q_select "*"
        |> q_eq "id" turnoId
        |> q_single) ;;
  match error r with
  | Some e =>
      if code e =? "PGRST116" then ret None
      else raise ("Error al obtener turno: " ++ message e)
  | None => ret (objeto (data r))
  end.

(** [email.ts]: whatever [sendMail] throws is caught; the result tells
    whether the mail went out. *)
Definition enviarEmailConfirmacion (datos : DatosEmail) : Prog bool :=
  catch
    (sendMail {| to := de_email datos;
                 subject := "✅ Turno confirmado - " ++ de_fecha datos
                            ++ " a las " ++ de_hora datos;
                 html_datos := datos |} ;;
     ret true)
    (fun _ => ret false).

End Turnos.


(* ===================================================================== *)
(** ** [src/lib/tools.ts]                                                 *)
(* ===================================================================== *)

Module Tools.
Import Async Turnos Validaciones.
Import MonadNotation.
Local Open Scope monad_scope.

(** The object a tool hands back.  [toolCancelarTurno] never sets
    [turno]. *)
Record TurnoReservado : Type := {
  tr_id : string;
  tr_fecha : string;
  tr_hora : string
}.

Record Resultado : Type := {
  exito : bool;
  mensaje : string;
  turno : option TurnoReservado
}.

Record Disponibilidad : Type := {
  disponible : bool;
  d_mensaje : string
}.

Record TurnoListado : Type := {
  tl_id : string;
  tl_fecha : string;
  tl_hora : string;
  tl_nombre_cliente : string;
  tl_email : string
}.

Record Listado : Type := {
  cantidad : nat;
  l_mensaje : string;
  turnos : list TurnoListado
}.

Record ArgsDisponibilidad : Type := {
  ad_fecha : string;
  ad_hora : string
}.

Record ArgsReserva : Type := {
  ar_fecha : string;
  ar_hora : string;
  ar_nombre_cliente : string;
  ar_email : string
}.

Record ArgsListado : Type := {
  fechaDesde : option string;
  fechaHasta : option string
}.

Record ArgsCancelacion : Type := {
  turnoId : string
}.

Section Reloj.

Variable zona : Z.
Variable ahora : Z.

(** The texts for a malformed date and a malformed time, the same in
    [toolVerificarDisponibilidad] and [toolReservarTurno]. *)
Definition mensaje_fecha_invalida (fecha : string) : string :=
  "La fecha " ++ comillas ++ fecha ++ comillas
  ++ " no tiene un formato válido. Por favor usa el formato YYYY-MM-DD (ejemplo: 2024-12-25).".

Definition mensaje_hora_invalida (hora : string) : string :=
  "La hora " ++ comillas ++ hora ++ comillas
  ++ " no tiene un formato válido. Por favor usa el formato HH:MM en 24 horas (ejemplo: 14:30).".

Definition toolVerificarDisponibilidad (args : ArgsDisponibilidad) : Prog Disponibilidad :=
  if negb (validarFormatoFecha zona (ad_fecha args)) then
    ret {| disponible := false; d_mensaje := mensaje_fecha_invalida (ad_fecha args) |}
  else if negb (validarFormatoHora (ad_hora args)) then
    ret {| disponible := false; d_mensaje := mensaje_hora_invalida (ad_hora args) |}
  else if negb (validarFechaFutura zona ahora (ad_fecha args)) then
    ret {| disponible := false;
           d_mensaje := "La fecha " ++ ad_fecha args
             ++ " está en el pasado. Por favor elige una fecha de hoy en adelante." |}
  else
    disponible <- verificarDisponibilidad (ad_fecha args) (ad_hora args) ;;
    ret {| disponible := disponible;
           d_mensaje :=
             if disponible
             then "Sí, hay disponibilidad el " ++ ad_fecha args ++ " a las " ++ ad_hora args
             else "No, no hay disponibilidad el " ++ ad_fecha args ++ " a las "
                  ++ ad_hora args ++ ". Ya hay un turno reservado." |}.

(** The other two texts [toolReservarTurno] answers a rejected input with. *)
Definition mensaje_fecha_pasada (fecha : string) : string :=
  "No se puede reservar un turno en el pasado. La fecha " ++ fecha
  ++ " ya pasó. Por favor elige una fecha de hoy en adelante.".

Definition mensaje_fecha_hora_pasada (fecha hora : string) : string :=
  "No se puede reservar un turno en el pasado. La fecha y hora " ++ fecha ++ " "
  ++ hora ++ " ya pasó.".

(** The texts it answers with after the database was asked. *)
Definition mensaje_no_disponible (fecha hora : string) : string :=
  "Lo siento, no hay disponibilidad el " ++ fecha ++ " a las " ++ hora
  ++ ". Por favor elige otra fecha u hora.".

Definition mensaje_reservado (fecha hora id mensajeEmail : string) : string :=
  "¡Turno reservado con éxito! Tu turno está confirmado para el " ++ fecha
  ++ " a las " ++ hora ++ ". Tu ID de turno es: " ++ id ++ "." ++ mensajeEmail.

Definition mensaje_error_reserva (error_message : string) : string :=
  "Hubo un error al reservar el turno: " ++ error_message.

Definition toolReservarTurno (args : ArgsReserva) : Prog Resultado :=
  if negb (validarFormatoFecha zona (ar_fecha args)) then
    ret {| exito := false; mensaje := mensaje_fecha_invalida (ar_fecha args); turno := None |}
  else if negb (validarFormatoHora (ar_hora args)) then
    ret {| exito := false; mensaje := mensaje_hora_invalida (ar_hora args); turno := None |}
  else if negb (validarFechaFutura zona ahora (ar_fecha args)) then
    ret {| exito := false; mensaje := mensaje_fecha_pasada (ar_fecha args); turno := None |}
  else if negb (validarFechaHoraFutura zona ahora (ar_fecha args) (ar_hora args)) then
    ret {| exito := false;
           mensaje := mensaje_fecha_hora_pasada (ar_fecha args) (ar_hora args);
           turno := None |}
  else
    (* the business-hours check only writes to the console *)
    disponible <- verificarDisponibilidad (ar_fecha args) (ar_hora args) ;;
    if negb disponible then
      ret {| exito := false;
             mensaje := mensaje_no_disponible (ar_fecha args) (ar_hora args);
             turno := None |}
    else
      catch
        (creado <- crearTurno {| n_fecha := ar_fecha args;
                                 n_hora := ar_hora args;
                                 n_nombre_cliente := ar_nombre_cliente args;
                                 n_email := ar_email args;
                                 n_estado := Some confirmado |} ;;
         match creado with
         | None =>
             (* turno.id on null *)
             raise "Cannot read properties of null (reading 'id')"
         | Some t =>
             emailEnviado <- enviarEmailConfirmacion
                               {| de_email := ar_email args;
                                  de_nombre := ar_nombre_cliente args;
                                  de_fecha := ar_fecha args;
                                  de_hora := ar_hora args;
                                  de_turnoId := id t |} ;;
             let mensajeEmail :=
               if emailEnviado : bool
               then " Se envió un email de confirmación a tu correo."
               else "" in
             ret {| exito := true;
                    mensaje := mensaje_reservado (ar_fecha args) (ar_hora args) (id t)
                                 mensajeEmail;
                    turno := Some {| tr_id := id t;
                                     tr_fecha := fecha t;
                                     tr_hora := hora t |} |}
         end)
        (fun error_message =>
           ret {| exito := false;
                  mensaje := mensaje_error_reserva error_message;
                  turno := None |}).

Definition resumen (t : Turno) : TurnoListado :=
  {| tl_id := id t; tl_fecha := fecha t; tl_hora := hora t;
     tl_nombre_cliente := nombre_cliente t; tl_email := email t |}.

Definition mensaje_lista_fecha_invalida (fecha : string) : string :=
  "La fecha " ++ comillas ++ fecha ++ comillas
  ++ " no tiene un formato válido. Por favor usa el formato YYYY-MM-DD.".

Definition toolListarTurnos (args : ArgsListado) : Prog Listado :=
  (* args.fechaDesde || new Date().toISOString().split("T")[0] *)
  let desde := o_bien (fechaDesde args) (JSDate.toISODate ahora) in
  let hasta := o_bien (fechaHasta args) desde in
  if truthy (fechaDesde args)
     && negb (validarFormatoFecha zona (o_bien (fechaDesde args) "")) then
    ret {| cantidad := 0;
           l_mensaje := mensaje_lista_fecha_invalida (o_bien (fechaDesde args) "");
           turnos := [] |}
  else if truthy (fechaHasta args)
          && negb (validarFormatoFecha zona (o_bien (fechaHasta args) "")) then
    ret {| cantidad := 0;
           l_mensaje := mensaje_lista_fecha_invalida (o_bien (fechaHasta args) "");
           turnos := [] |}
  else
    encontrados <- listarTurnos (Some desde) (Some hasta) true ;;
    if Nat.eqb (List.length encontrados) 0 then
      ret {| cantidad := 0;
             l_mensaje := "No hay turnos reservados entre el " ++ desde ++ " y el "
                          ++ hasta ++ ".";
             turnos := [] |}
    else
      ret {| cantidad := List.length encontrados;
             l_mensaje := "Hay " ++ decimal (List.length encontrados)
                          ++ " turno(s) reservado(s) entre el " ++ desde ++ " y el "
                          ++ hasta ++ ":";
             turnos := map resumen encontrados |}.

End Reloj.

Definition mensaje_cancelado (fecha hora : string) : string :=
  "Turno cancelado exitosamente. El turno del " ++ fecha ++ " a las " ++ hora
  ++ " ha sido cancelado.".

Definition mensaje_error_cancelacion (error_message : string) : string :=
  "No se pudo cancelar el turno: " ++ error_message
  ++ ". Verifica que el ID del turno sea correcto.".

Definition toolCancelarTurno (args : ArgsCancelacion) : Prog Resultado :=
  catch
    (t <- cancelarTurno (turnoId args) ;;
     ret {| exito := true;
            mensaje := mensaje_cancelado (fecha t) (hora t);
            turno := None |})
    (fun error_message =>
       ret {| exito := false;
              mensaje := mensaje_error_cancelacion error_message;
              turno := None |}).

(** The keys of the exported [tools] object: what the chat route offers. *)
Definition tools : list string :=
  ["verificarDisponibilidad"; "reservarTurno"; "listarTurnos"; "cancelarTurno"].

End Tools.


(* ===================================================================== *)
(** ** The table [turnos] of [scripts/setup-db.sql], behind PostgREST     *)
(* ===================================================================== *)

Module Postgres.
Import Async.

(** A row: [fecha DATE] is a day number, [hora TIME] a number of seconds
    since midnight; [id UUID] and [created_at] are kept in their canonical
    text. *)
Record Fila : Type := {
  f_id : string;
  f_fecha : Z;
  f_hora : Z;
  f_nombre_cliente : string;
  f_email : string;
  f_estado : Estado;
  f_created_at : string
}.

(** The input and output functions of the column types.  An input function
    gives the value a text literal denotes, or the error the server raises
    for it. *)
Record Tipos : Type := {
  date_in : string -> PostgrestError + Z;
  date_out : Z -> string;
  time_in : string -> PostgrestError + Z;
  time_out : Z -> string;
  uuid_in : string -> PostgrestError + string
}.

(** What the column defaults [gen_random_uuid()] and [NOW()] give to one
    statement. *)
Record Defaults : Type := {
  gen_random_uuid : string;
  now : string
}.

Inductive Columna : Type :=
| col_id | col_fecha | col_hora | col_nombre_cliente | col_email | col_estado
| col_created_at.

Definition columna_de (nombre : string) : option Columna :=
  if nombre =? "id" then Some col_id
  else if nombre =? "fecha" then Some col_fecha
  else if nombre =? "hora" then Some col_hora
  else if nombre =? "nombre_cliente" then Some col_nombre_cliente
  else if nombre =? "email" then Some col_email
  else if nombre =? "estado" then Some col_estado
  else if nombre =? "created_at" then Some col_created_at
  else None.

Inductive Valor : Type :=
| val_num (z : Z)
| val_texto (s : string).

Definition valor (c : Columna) (f : Fila) : Valor :=
  match c with
  | col_id => val_texto (f_id f)
  | col_fecha => val_num (f_fecha f)
  | col_hora => val_num (f_hora f)
  | col_nombre_cliente => val_texto (f_nombre_cliente f)
  | col_email => val_texto (f_email f)
  | col_estado => val_texto (texto_estado (f_estado f))
  | col_created_at => val_texto (f_created_at f)
  end.

Definition compara (a b : Valor) : comparison :=
  match a, b with
  | val_num x, val_num y => (x ?= y)%Z
  | val_texto x, val_texto y => String.compare x y
  | val_num _, val_texto _ => Lt
  | val_texto _, val_num _ => Gt
  end.

Definition satisface (op : Operador) (c : comparison) : bool :=
  match op, c with
  | op_eq, Eq => true
  | op_gte, Eq | op_gte, Gt => true
  | op_lte, Eq | op_lte, Lt => true
  | _, _ => false
  end.

Definition es_confirmado (e : Estado) : bool :=
  match e with
  | confirmado => true
  | cancelado => false
  end.

(** A confirmed row at the slot [(d, h)]: what the partial unique index
    [unique_turno_activo ON turnos(fecha, hora) WHERE estado = 'confirmado']
    allows one of. *)
Definition ocupa (d h : Z) (f : Fila) : bool :=
  (f_fecha f =? d)%Z && (f_hora f =? h)%Z && es_confirmado (f_estado f).

Fixpoint indice_unico (t : list Fila) : bool :=
  match t with
  | [] => true
  | f :: t' =>
      negb (es_confirmado (f_estado f) && existsb (ocupa (f_fecha f) (f_hora f)) t')
      && indice_unico t'
  end.

Definition con_estado (e : Estado) (f : Fila) : Fila :=
  {| f_id := f_id f; f_fecha := f_fecha f; f_hora := f_hora f;
     f_nombre_cliente := f_nombre_cliente f; f_email := f_email f;
     f_estado := e; f_created_at := f_created_at f |}.

(** The errors of the server and of PostgREST the service can meet. *)
Definition e_columna (nombre : string) : PostgrestError :=
  {| code := "42703"; message := "column turnos." ++ nombre ++ " does not exist" |}.

Definition e_tabla (nombre : string) : PostgrestError :=
  {| code := "42P01";
     message := "relation " ++ comillas ++ "public." ++ nombre ++ comillas
                ++ " does not exist" |}.

Definition e_unico (indice : string) : PostgrestError :=
  {| code := "23505";
     message := "duplicate key value violates unique constraint "
                ++ comillas ++ indice ++ comillas |}.

Definition e_single : PostgrestError :=
  {| code := "PGRST116";
     message := "JSON object requested, multiple (or no) rows returned" |}.

Definition resuelta (d : Datos) : Respuesta := {| data := d; error := None |}.
Definition fallida (e : PostgrestError) : Respuesta := {| data := d_null; error := Some e |}.

(** [ORDER BY]: a stable insertion sort on the listed columns. *)
Fixpoint columnas_de (nombres : list string) : PostgrestError + list Columna :=
  match nombres with
  | [] => inr []
  | n :: ns =>
      match columna_de n, columnas_de ns with
      | None, _ => inl (e_columna n)
      | _, inl e => inl e
      | Some c, inr cs => inr (c :: cs)
      end
  end.

Fixpoint compara_por (cs : list Columna) (a b : Fila) : comparison :=
  match cs with
  | [] => Eq
  | c :: cs' =>
      match compara (valor c a) (valor c b) with
      | Eq => compara_por cs' a b
      | o => o
      end
  end.

Definition antes (cs : list Columna) (a b : Fila) : bool :=
  match compara_por cs a b with
  | Gt => false
  | _ => true
  end.

Fixpoint inserta (cs : list Columna) (a : Fila) (l : list Fila) : list Fila :=
  match l with
  | [] => [a]
  | b :: l' => if antes cs a b then a :: l else b :: inserta cs a l'
  end.

Fixpoint ordena (cs : list Columna) (l : list Fila) : list Fila :=
  match l with
  | [] => []
  | a :: l' => inserta cs a (ordena cs l')
  end.

Section Servidor.

Variable pg : Tipos.

(** The row as JSON. *)
Definition a_json (f : Fila) : Turno :=
  {| id := f_id f;
     fecha := date_out pg (f_fecha f);
     hora := time_out pg (f_hora f);
     nombre_cliente := f_nombre_cliente f;
     email := f_email f;
     estado := f_estado f;
     created_at := f_created_at f |}.

(** A text literal compared with a column is read at the column's type. *)
Definition literal (c : Columna) (s : string) : PostgrestError + Valor :=
  match c with
  | col_id =>
      match uuid_in pg s with
      | inl e => inl e
      | inr u => inr (val_texto u)
      end
  | col_fecha =>
      match date_in pg s with
      | inl e => inl e
      | inr d => inr (val_num d)
      end
  | col_hora =>
      match time_in pg s with
      | inl e => inl e
      | inr h => inr (val_num h)
      end
  | _ => inr (val_texto s)
  end.

(** The [WHERE] clause of the filters. *)
Fixpoint condicion (fs : list Filtro) : PostgrestError + (Fila -> bool) :=
  match fs with
  | [] => inr (fun _ => true)
  | f :: fs' =>
      match columna_de (f_columna f) with
      | None => inl (e_columna (f_columna f))
      | Some c =>
          match literal c (f_valor f), condicion fs' with
          | inl e, _ => inl e
          | _, inl e => inl e
          | inr v, inr p =>
              inr (fun fila => satisface (f_op f) (compara (valor c fila) v) && p fila)
          end
      end
  end.

Definition fila_nueva (df : Defaults) (v : Valores) : PostgrestError + Fila :=
  match date_in pg (v_fecha v), time_in pg (v_hora v) with
  | inl e, _ => inl e
  | _, inl e => inl e
  | inr d, inr h =>
      inr {| f_id := gen_random_uuid df;
             f_fecha := d;
             f_hora := h;
             f_nombre_cliente := v_nombre_cliente v;
             f_email := v_email v;
             f_estado := v_estado v;
             f_created_at := now df |}
  end.

(** The response for the rows a statement yields.  With [.single()] the
    result must be one row, or the request fails and its transaction is
    rolled back. *)
Definition entrega (q : Consulta) (filas : list Fila) (t_nueva t_vieja : list Fila)
    : Respuesta * list Fila :=
  let filas := match c_limite q with
               | Some n => firstn n filas
               | None => filas
               end in
  if c_single q then
    match filas with
    | [f] => (resuelta (d_fila (a_json f)), t_nueva)
    | _ => (fallida e_single, t_vieja)
    end
  else if c_representacion q then (resuelta (d_filas (map a_json filas)), t_nueva)
  else (resuelta d_null, t_nueva).

(** One request, run as one transaction on the table [t]. *)
Definition ejecutar (df : Defaults) (q : Consulta) (t : list Fila)
    : Respuesta * list Fila :=
  if negb (c_tabla q =? "turnos") then (fallida (e_tabla (c_tabla q)), t)
  else
    match condicion (c_filtros q), columnas_de (c_orden q) with
    | inl e, _ => (fallida e, t)
    | _, inl e => (fallida e, t)
    | inr donde, inr orden =>
        match c_verbo q with
        | v_select _ => entrega q (ordena orden (filter donde t)) t t
        | v_insert v =>
            match fila_nueva df v with
            | inl e => (fallida e, t)
            | inr f =>
                if existsb (fun g => f_id g =? f_id f) t
                then (fallida (e_unico "turnos_pkey"), t)
                else if es_confirmado (f_estado f)
                        && existsb (ocupa (f_fecha f) (f_hora f)) t
                then (fallida (e_unico "unique_turno_activo"), t)
                else entrega q [f] (t ++ [f]) t
            end
        | v_update e =>
            let t' := map (fun f => if donde f then con_estado e f else f) t in
            if es_confirmado e && negb (indice_unico t')
            then (fallida (e_unico "unique_turno_activo"), t)
            else entrega q (map (con_estado e) (filter donde t)) t' t
        end
    end.

End Servidor.

End Postgres.


(* ===================================================================== *)
(** ** Running an [async] function against the table                      *)
(* ===================================================================== *)

Module Ejecucion.
Import Async Postgres.

(** What the world outside the process gives to one [await]: the column
    defaults of the statement, and the fate of the mail ([None]: sent). *)
Record Exterior : Type := {
  defaults : Defaults;
  envio : option string
}.

Inductive Evento : Type :=
| ev_consulta (q : Consulta)
| ev_correo (m : Correo).

(** How a call ends: with a value, or with an exception its caller sees. *)
Inductive Final (R : Type) : Type :=
| Devuelve (r : R)
| Lanza (mensaje : string).

Arguments Devuelve {R} r.
Arguments Lanza {R} mensaje.

Definition terminado {R : Type} (p : Prog R) : bool :=
  match p with
  | Ret _ | Throw _ => true
  | _ => false
  end.

(** The request a call is waiting on, and the call once that request is
    answered with [r]. *)
Definition peticion {R : Type} (p : Prog R) : option Consulta :=
  match p with
  | AwaitDb q _ => Some q
  | _ => None
  end.

Definition respondido {R : Type} (p : Prog R) (r : Respuesta) : Prog R :=
  match p with
  | AwaitDb _ k => k r
  | _ => p
  end.

Section Servidor.

Variable pg : Tipos.

(** One [await] of [p]: a request is one transaction of the server. *)
Definition paso {R : Type} (x : Exterior) (p : Prog R) (t : list Fila)
    : Prog R * list Fila :=
  match p with
  | AwaitDb q k => let (r, t') := ejecutar pg (defaults x) q t in (k r, t')
  | AwaitMail m k => (k (envio x), t)
  | _ => (p, t)
  end.

(** A call run alone to its end, with the requests it made. *)
Fixpoint ejecuta {R : Type} (x : Exterior) (p : Prog R) (t : list Fila)
    : Final R * list Fila * list Evento :=
  match p with
  | Ret r => (Devuelve r, t, [])
  | Throw m => (Lanza m, t, [])
  | AwaitDb q k =>
      let (r, t') := ejecutar pg (defaults x) q t in
      let '(f, t'', evs) := ejecuta x (k r) t' in
      (f, t'', ev_consulta q :: evs)
  | AwaitMail m k =>
      let '(f, t', evs) := ejecuta x (k (envio x)) t in
      (f, t', ev_correo m :: evs)
  end.

(** Two calls in flight.  The plan says which call makes its next [await]
    ([true]: the first), and what the outside gives to it; a call that has
    ended ignores its turns. *)
Fixpoint intercala {R : Type} (plan : list (bool * Exterior)) (p1 p2 : Prog R)
    (t : list Fila) : Prog R * Prog R * list Fila :=
  match plan with
  | [] => (p1, p2, t)
  | (true, x) :: plan' =>
      let (p1', t') := paso x p1 t in intercala plan' p1' p2 t'
  | (false, x) :: plan' =>
      let (p2', t') := paso x p2 t in intercala plan' p1 p2' t'
  end.

End Servidor.

(** The confirmed rows of a table at a slot. *)
Definition activos (d h : Z) (t : list Fila) : list Fila := filter (ocupa d h) t.

End Ejecucion.


(* ===================================================================== *)
(** ** A server for the examples: ISO dates, times and UUIDs              *)
(* ===================================================================== *)

Module PostgresISO.
Import RegExp Async Postgres.

Definition e_sintaxis (codigo tipo s : string) : PostgrestError :=
  {| code := codigo;
     message := "invalid input syntax for type " ++ tipo ++ ": "
                ++ comillas ++ s ++ comillas |}.

Definition e_fuera_de_rango (s : string) : PostgrestError :=
  {| code := "22008";
     message := "date/time field value out of range: " ++ comillas ++ s ++ comillas |}.

(** [YYYY-MM-DD], a day of the calendar from year 1 on. *)
Definition iso_date_in (s : string) : PostgrestError + Z :=
  if test JSDate.iso_date s then
    let y := JSDate.number (substring 0 4 s) in
    let m := JSDate.number (substring 5 2 s) in
    let d := JSDate.number (substring 8 2 s) in
    let n := JSDate.MakeDay y (m - 1) d in
    let '(y', m', d') := JSDate.civil_from_days n in
    if ((1 <=? y) && (1 <=? m) && (m <=? 12) && (y' =? y) && (m' =? m) && (d' =? d))%Z
    then inr n
    else inl (e_fuera_de_rango s)
  else inl (e_sintaxis "22007" "date" s).

Definition iso_date_out (n : Z) : string := JSDate.toISODate (n * JSDate.msPerDay).

(** [H:MM], [HH:MM] or [HH:MM:SS]. *)
Definition hh_mm_ss : regex :=
  Seq (Alt (Seq (Opt (Class [("0", "1")%char])) (Class [("0", "9")%char]))
           (Seq (chr "2") (Class [("0", "3")%char])))
      (Seq (chr ":") (Seq (Class [("0", "5")%char]) (Seq (Class [("0", "9")%char])
         (Opt (Seq (chr ":") (Seq (Class [("0", "5")%char]) (Class [("0", "9")%char]))))))).

(** The fields of [s] between colons. *)
Fixpoint campos (actual : string) (s : string) : list string :=
  match s with
  | EmptyString => [actual]
  | String c s' =>
      if (c =? ":")%char then actual :: campos "" s'
      else campos (actual ++ String c "") s'
  end.

Definition iso_time_in (s : string) : PostgrestError + Z :=
  if test hh_mm_ss s then
    match campos "" s with
    | [h; m] => inr (JSDate.number h * 3600 + JSDate.number m * 60)%Z
    | [h; m; seg] =>
        inr (JSDate.number h * 3600 + JSDate.number m * 60 + JSDate.number seg)%Z
    | _ => inl (e_sintaxis "22007" "time" s)
    end
  else inl (e_sintaxis "22007" "time" s).

Definition iso_time_out (z : Z) : string :=
  JSDate.pad 2 (z / 3600) ++ ":" ++ JSDate.pad 2 (z / 60 mod 60) ++ ":"
  ++ JSDate.pad 2 (z mod 60).

(** The 8-4-4-4-12 form of a UUID, in either case; the canonical text is in
    lower case. *)
Definition hex : regex := Class [("0", "9"); ("a", "f"); ("A", "F")]%char.

Definition forma_uuid : regex :=
  Seq (rep 8 hex) (Seq (chr "-") (Seq (rep 4 hex) (Seq (chr "-") (Seq (rep 4 hex)
    (Seq (chr "-") (Seq (rep 4 hex) (Seq (chr "-") (rep 12 hex)))))))).

Definition minuscula (c : ascii) : ascii :=
  if in_class [("A", "Z")%char] c then ascii_of_N (N_of_ascii c + 32) else c.

Fixpoint minusculas (s : string) : string :=
  match s with
  | EmptyString => EmptyString
  | String c s' => String (minuscula c) (minusculas s')
  end.

Definition texto_uuid_in (s : string) : PostgrestError + string :=
  if test forma_uuid s then inr (minusculas s)
  else inl (e_sintaxis "22P02" "uuid" s).

Definition postgres : Tipos :=
  {| date_in := iso_date_in;
     date_out := iso_date_out;
     time_in := iso_time_in;
     time_out := iso_time_out;
     uuid_in := texto_uuid_in |}.

End PostgresISO.


(* ===================================================================== *)
(** ** [scripts/setup-db.ts] on [scripts/setup-db.sql]                    *)
(* ===================================================================== *)

Module SetupDb.
Import Async.

(** A text of the runtime, as the bytes of its UTF-8 form: what
    [readFileSync(path, "utf-8")] decodes.  Splitting at [;] and the tests
    for a prefix or a part made of ASCII characters are the same on the
    bytes as on the decoded text. *)
Definition Texto : Type := list ascii.

Definition texto (s : string) : Texto := list_ascii_of_string s.

(** [s.split(sep)] for a one-character [sep]. *)
Fixpoint split (sep : ascii) (actual s : Texto) : list Texto :=
  match s with
  | [] => [actual]
  | c :: s' =>
      if (c =? sep)%char then actual :: split sep [] s'
      else split sep (actual ++ [c])%list s'
  end.

(** The white space and line terminators [trim] removes, in UTF-8: U+0009
    to U+000D and U+0020; U+00A0; U+1680, U+2000 to U+200A, U+2028, U+2029,
    U+202F, U+205F, U+3000 and U+FEFF. *)
Definition cod (c : ascii) : N := N_of_ascii c.

Definition blanco1 (a : ascii) : bool :=
  ((9 <=? cod a) && (cod a <=? 13) || (cod a =? 32))%N.

Definition blanco2 (a b : ascii) : bool :=
  ((cod a =? 194) && (cod b =? 160))%N.

Definition blanco3 (a b c : ascii) : bool :=
  ((cod a =? 225) && (cod b =? 154) && (cod c =? 128)
   || (cod a =? 226) && (cod b =? 128)
      && ((128 <=? cod c) && (cod c <=? 138)
          || (cod c =? 168) || (cod c =? 169) || (cod c =? 175))
   || (cod a =? 226) && (cod b =? 129) && (cod c =? 159)
   || (cod a =? 227) && (cod b =? 128) && (cod c =? 128)
   || (cod a =? 239) && (cod b =? 187) && (cod c =? 191))%N.

(** The text without the white space it starts with; with [al_reves], for
    a text given from its last byte to its first. *)
Fixpoint quita_blancos (al_reves : bool) (s : Texto) : Texto :=
  match s with
  | [] => []
  | a :: s1 =>
      if blanco1 a then quita_blancos al_reves s1
      else
        match s1 with
        | b :: s2 =>
            if (if al_reves then blanco2 b a else blanco2 a b)
            then quita_blancos al_reves s2
            else
              match s2 with
              | c :: s3 =>
                  if (if al_reves then blanco3 c b a else blanco3 a b c)
                  then quita_blancos al_reves s3
                  else s
              | [] => s
              end
        | [] => s
        end
  end.

(** [s.trim()] *)
Definition trim (s : Texto) : Texto :=
  rev (quita_blancos true (rev (quita_blancos false s))).

(** [s.startsWith(p)] and [s.includes(p)] *)
Fixpoint startsWith (p s : Texto) : bool :=
  match p, s with
  | [], _ => true
  | a :: p', b :: s' => (a =? b)%char && startsWith p' s'
  | _ :: _, [] => false
  end.

Fixpoint includes (p s : Texto) : bool :=
  startsWith p s
  || match s with
     | [] => false
     | _ :: s' => includes p s'
     end.

(** The statements the script takes from the file. *)
Definition statements (sql : Texto) : list Texto :=
  filter (fun s => negb (Nat.eqb (List.length s) 0)
                   && negb (startsWith (texto "--") s)
                   && negb (startsWith (texto "COMMENT") s))
    (map trim (split ";" [] sql)).

(** The loop: the statements handed to [supabase.rpc("exec_sql", ...)], in
    order.  [rpc n s] is the error the call number [n] answers with for the
    statement [s], if any. *)
Fixpoint bucle (rpc : nat -> Texto -> option string) (llamadas : nat)
    (pendientes : list Texto) : list Texto :=
  match pendientes with
  | [] => []
  | statement :: resto =>
      if includes (texto "CREATE INDEX IF NOT EXISTS") statement
      then bucle rpc llamadas resto                  (* continue *)
      else
        statement ::
        match rpc llamadas statement with
        | Some _ => []                                (* break *)
        | None => bucle rpc (S llamadas) resto
        end
  end.

Definition setupDatabase (sql : Texto) (rpc : nat -> Texto -> option string)
    : list Texto :=
  bucle rpc 0 (statements sql).

(** The file [scripts/setup-db.sql] of the repository. *)
Definition setup_db_sql : Texto :=
  texto ("-- Script SQL para crear la tabla de turnos en Supabase
-- 
-- INSTRUCCIONES:
-- 1. Ve a tu proyecto en Supabase (https://supabase.com)
-- 2. Abre el SQL Editor
-- 3. Copia y pega este script completo
-- 4. Ejecuta el script haciendo clic en " ++ comillas ++ "Run" ++ comillas ++ "
--
-- Este script creará la tabla 'turnos' con todos los campos necesarios
-- para gestionar los turnos de la aplicación.

-- Crear la tabla turnos
CREATE TABLE IF NOT EXISTS turnos (
  -- ID único del turno (UUID generado automáticamente)
  id UUID PRIMARY KEY DEFAULT gen_random_uuid(),
  
  -- Fecha del turno en formato YYYY-MM-DD
  fecha DATE NOT NULL,
  
  -- Hora del turno en formato HH:MM (24 horas)
  hora TIME NOT NULL,
  
  -- Nombre completo del cliente
  nombre_cliente TEXT NOT NULL,
  
  -- Email del cliente
  email TEXT NOT NULL,
  
  -- Estado del turno: 'confirmado' o 'cancelado'
  estado TEXT NOT NULL DEFAULT 'confirmado' CHECK (estado IN ('confirmado', 'cancelado')),
  
  -- Fecha y hora de creación del registro
  created_at TIMESTAMP WITH TIME ZONE DEFAULT NOW()
);

-- Crear un índice único parcial para prevenir turnos duplicados confirmados
-- en la misma fecha y hora
CREATE UNIQUE INDEX IF NOT EXISTS unique_turno_activo 
ON turnos(fecha, hora) 
WHERE estado = 'confirmado';

-- Crear índices para mejorar el rendimiento de las consultas
-- Índice para búsquedas por fecha
CREATE INDEX IF NOT EXISTS idx_turnos_fecha ON turnos(fecha);

-- Índice para búsquedas por estado
CREATE INDEX IF NOT EXISTS idx_turnos_estado ON turnos(estado);

-- Índice compuesto para búsquedas de disponibilidad (fecha + hora + estado)
CREATE INDEX IF NOT EXISTS idx_turnos_fecha_hora_estado ON turnos(fecha, hora, estado);

-- Comentarios en la tabla para documentación
COMMENT ON TABLE turnos IS 'Tabla para almacenar los turnos reservados por los clientes';
COMMENT ON COLUMN turnos.id IS 'ID único del turno';
COMMENT ON COLUMN turnos.fecha IS 'Fecha del turno en formato YYYY-MM-DD';
COMMENT ON COLUMN turnos.hora IS 'Hora del turno en formato HH:MM (24 horas)';
COMMENT ON COLUMN turnos.nombre_cliente IS 'Nombre completo del cliente';
COMMENT ON COLUMN turnos.email IS 'Email del cliente';
COMMENT ON COLUMN turnos.estado IS 'Estado del turno: confirmado o cancelado';
COMMENT ON COLUMN turnos.created_at IS 'Fecha y hora de creación del registro';
").

End SetupDb.


(* ===================================================================== *)
(** ** Values for the examples                                            *)
(* ===================================================================== *)

Module Ejemplos.
Import Async Tools Postgres Ejecucion.

(** 2026-11-02T10:30:00Z *)
Definition un_lunes : Z := 1793615400000.

Definition ana : ArgsReserva :=
  {| ar_fecha := "2099-06-01"; ar_hora := "14:00";
     ar_nombre_cliente := "Ana Gomez"; ar_email := "ana@example.com" |}.

Definition beto : ArgsReserva :=
  {| ar_fecha := "2099-06-01"; ar_hora := "14:00";
     ar_nombre_cliente := "Beto Ruiz"; ar_email := "beto@example.com" |}.

Definition pasado : ArgsReserva :=
  {| ar_fecha := "2020-01-01"; ar_hora := "10:00";
     ar_nombre_cliente := "X"; ar_email := "x@x.com" |}.

Definition id_1 : string := "a0000000-0000-0000-0000-000000000001".
Definition id_2 : string := "a0000000-0000-0000-0000-000000000002".
Definition id_3 : string := "a0000000-0000-0000-0000-000000000003".
Definition id_4 : string := "a0000000-0000-0000-0000-000000000004".
Definition id_5 : string := "a0000000-0000-0000-0000-000000000005".
Definition id_ausente : string := "00000000-0000-0000-0000-000000000000".

(** The outside: the mail goes out, or the transport fails. *)
Definition con_correo (uuid : string) : Exterior :=
  {| defaults := {| gen_random_uuid := uuid; now := "2026-11-02T10:30:00+00:00" |};
     envio := None |}.

Definition sin_correo (uuid : string) : Exterior :=
  {| defaults := {| gen_random_uuid := uuid; now := "2026-11-02T10:30:00+00:00" |};
     envio := Some "connect ECONNREFUSED 127.0.0.1:465" |}.

(** The row of Ana's reservation, confirmed and cancelled. *)
Definition fila_ana (e : Estado) : Fila :=
  {| f_id := id_1; f_fecha := 47268; f_hora := 50400;
     f_nombre_cliente := "Ana Gomez"; f_email := "ana@example.com";
     f_estado := e; f_created_at := "2026-11-02T10:30:00+00:00" |}.

(** Two calls whose checks of availability both come before either insert:
    the first checks, the second checks, the first inserts, the second
    inserts, the first sends its mail. *)
Definition plan_carrera : list (bool * Exterior) :=
  [(true, con_correo id_2); (false, con_correo id_3); (true, con_correo id_1);
   (false, con_correo id_4); (true, con_correo id_5)].

End Ejemplos.


(* ===================================================================== *)
(** ** Facts on regular expressions                                      *)
(* ===================================================================== *)

Module RegExpFacts.
Import RegExp.

(** *** The matcher decides the language *)

Lemma app_nil_inv (s1 s2 : string) : s1 ++ s2 = "" -> s1 = "" /\ s2 = "".
Proof. destruct s1; simpl; [auto | discriminate]. Qed.

Lemma nullable_lang (r : regex) : nullable r = true <-> lang r "".
Proof.
  induction r; simpl.
  - split; [discriminate | tauto].
  - tauto.
  - split; [discriminate | intros (c & H & _); discriminate].
  - rewrite andb_true_iff, IHr1, IHr2. split.
    + intros [H1 H2]. exists "", "". auto.
    + intros (s1 & s2 & H & H1 & H2). symmetry in H.
      apply app_nil_inv in H. destruct H; subst. auto.
  - rewrite orb_true_iff, IHr1, IHr2. tauto.
  - tauto.
Qed.

Lemma lang_seq' (r1 r2 : regex) (s : string) :
  lang (seq' r1 r2) s <-> lang (Seq r1 r2) s.
Proof.
  assert (E : forall r, lang (Seq r Empty) s <-> False).
  { intros r. simpl. split; [intros (? & ? & _ & _ & []) | tauto]. }
  destruct r1; simpl seq'.
  - simpl. split; [tauto | intros (? & ? & _ & [] & _)].
  - destruct r2; try (rewrite E; simpl; tauto);
      simpl; (split; [intros H; exists "", s; auto
                     | intros (s1 & s2 & -> & -> & H); exact H]).
  - destruct r2; try (rewrite E; simpl; tauto); tauto.
  - destruct r2; try (rewrite E; simpl; tauto); tauto.
  - destruct r2; try (rewrite E; simpl; tauto); tauto.
  - destruct r2; try (rewrite E; simpl; tauto); tauto.
Qed.

Lemma lang_alt' (r1 r2 : regex) (s : string) :
  lang (alt' r1 r2) s <-> lang (Alt r1 r2) s.
Proof.
  destruct r1; simpl alt'; try (simpl; tauto);
    destruct r2; simpl; tauto.
Qed.

Lemma deriv_lang (r : regex) : forall c s, lang (deriv c r) s <-> lang r (String c s).
Proof.
  induction r; intros c s; simpl deriv.
  - simpl. tauto.
  - simpl. split; [tauto | discriminate].
  - destruct (in_class l c) eqn:E; simpl.
    + split.
      * intros ->. exists c. auto.
      * intros (c' & H & _). inversion H. reflexivity.
    + split; [tauto |].
      intros (c' & H & Hc). inversion H; subst. congruence.
  - rewrite lang_alt'. cbn [lang]. rewrite lang_seq'. cbn [lang]. split.
    + intros [(s1 & s2 & -> & H1 & H2) | H].
      * exists (String c s1), s2. rewrite <- IHr1. auto.
      * destruct (nullable r1) eqn:N; [| destruct H].
        exists "", (String c s). rewrite <- IHr2, <- nullable_lang. auto.
    + intros (s1 & s2 & E & H1 & H2). destruct s1 as [| c1 s1].
      * right. simpl in E. subst s2.
        rewrite (proj2 (nullable_lang r1) H1). apply IHr2. exact H2.
      * left. simpl in E. inversion E; subst.
        exists s1, s2. rewrite IHr1. auto.
  - rewrite lang_alt'. cbn [lang]. rewrite IHr1, IHr2. tauto.
  - rewrite IHr. cbn [lang]. split; [tauto | intros [H | H]; [discriminate | exact H]].
Qed.

Theorem test_lang (s : string) : forall r, test r s = true <-> lang r s.
Proof.
  induction s as [| c s IH]; intros r; simpl.
  - apply nullable_lang.
  - rewrite IH. apply deriv_lang.
Qed.

End RegExpFacts.


(* ===================================================================== *)
(** ** The validators                                                    *)
(* ===================================================================== *)

Module ValidacionesFacts.
Import RegExp RegExpFacts Validaciones.

(** The decimal digit [d] as a character, and the texts [H], [HH], [MM]. *)
Definition cifra (d : nat) : ascii := ascii_of_N (48 + N.of_nat d).
Definition uno (n : nat) : string := JSDate.pad 1 (Z.of_nat n).
Definition dos (n : nat) : string := JSDate.pad 2 (Z.of_nat n).

(** The shape the specification asks of a time: [HH:MM], both fields of two
    digits, hours 00 to 23 and minutes 00 to 59. *)
Definition es_HH_MM (s : string) : Prop :=
  exists h m : nat, h <= 23 /\ m <= 59 /\ s = dos h ++ ":" ++ dos m.

(** The other shape the pattern of the source accepts: [H:MM], a one-digit
    hour. *)
Definition es_H_MM (s : string) : Prop :=
  exists h m : nat, h <= 9 /\ m <= 59 /\ s = uno h ++ ":" ++ dos m.

(** The days of month [m] (1..12) of year [y], and the texts [YYYY-MM-DD]
    that name a day of the calendar. *)
Definition dias_del_mes (y m : nat) : nat :=
  match m with
  | 2 => if JSDate.InLeapYear (Z.of_nat y) then 29 else 28
  | 4 | 6 | 9 | 11 => 30
  | _ => 31
  end.

Definition es_fecha_de_calendario (s : string) : Prop :=
  exists y m d : nat,
    (Z.of_nat y <= 9999)%Z /\ 1 <= m <= 12 /\ 1 <= d <= dias_del_mes y m /\
    s = JSDate.pad 4 (Z.of_nat y) ++ "-" ++ dos m ++ "-" ++ dos d.

Lemma forallb_seq (P : nat -> bool) (n : nat) :
  forallb P (seq 0 n) = true -> forall k, k < n -> P k = true.
Proof.
  intros H k Hk. rewrite forallb_forall in H. apply H, in_seq. lia.
Qed.

(** The two calendar functions agree: for 1500 days from 2098-05-29 on
    (through 2100, which is not a leap year), [MakeDay] takes the civil date
    of a day number back to that number. *)
Lemma MakeDay_civil_from_days (n : nat) :
  n < 1500 ->
  let '(y, m, d) := JSDate.civil_from_days (46900 + Z.of_nat n) in
  JSDate.MakeDay y (m - 1) d = (46900 + Z.of_nat n)%Z.
Proof.
  intros Hn.
  assert (T : forallb (fun n =>
            let '(y, m, d) := JSDate.civil_from_days (46900 + Z.of_nat n) in
            (JSDate.MakeDay y (m - 1) d =? 46900 + Z.of_nat n)%Z) (seq 0 1500) = true)
    by (vm_compute; reflexivity).
  pose proof (@forallb_seq _ 1500 T n Hn) as P. cbv beta in P.
  destruct (JSDate.civil_from_days (46900 + Z.of_nat n)) as [[y m] d].
  apply Z.eqb_eq. exact P.
Qed.

Lemma in_range_cifra (c lo hi : ascii) :
  in_range c (lo, hi) = true ->
  48 <= nat_of_ascii lo ->
  exists d, c = cifra d /\ nat_of_ascii lo - 48 <= d <= nat_of_ascii hi - 48.
Proof.
  unfold in_range, nat_of_ascii. simpl fst; simpl snd.
  rewrite andb_true_iff, !N.leb_le. intros [H1 H2] H3.
  exists (N.to_nat (N_of_ascii c) - 48). split.
  - unfold cifra. rewrite <- (ascii_N_embedding c) at 1. f_equal. lia.
  - lia.
Qed.

Lemma in_class_chr (c x : ascii) : in_class [(x, x)] c = true -> c = x.
Proof.
  unfold in_class, in_range. simpl. rewrite orb_false_r, andb_true_iff, !N.leb_le.
  intros [H1 H2]. rewrite <- (ascii_N_embedding c), <- (ascii_N_embedding x).
  f_equal. lia.
Qed.

Lemma in_class_uno (c lo hi : ascii) :
  in_class [(lo, hi)] c = true ->
  48 <= nat_of_ascii lo ->
  exists d, c = cifra d /\ nat_of_ascii lo - 48 <= d <= nat_of_ascii hi - 48.
Proof.
  unfold in_class. simpl. rewrite orb_false_r. apply in_range_cifra.
Qed.

Lemma dos_cifras (a b : nat) :
  a <= 9 -> b <= 9 -> dos (10 * a + b) = String (cifra a) (String (cifra b) "").
Proof.
  intros Ha Hb.
  assert (T : forallb (fun a => forallb (fun b =>
            String.eqb (dos (10 * a + b)) (String (cifra a) (String (cifra b) "")))
            (seq 0 10)) (seq 0 10) = true) by (vm_compute; reflexivity).
  apply String.eqb_eq.
  apply (@forallb_seq _ 10 (@forallb_seq _ 10 T a ltac:(lia)) b ltac:(lia)).
Qed.

Lemma uno_cifra (a : nat) : a <= 9 -> uno a = String (cifra a) "".
Proof.
  intros Ha.
  assert (T : forallb (fun a => String.eqb (uno a) (String (cifra a) ""))
                (seq 0 10) = true) by (vm_compute; reflexivity).
  apply String.eqb_eq. apply (@forallb_seq _ 10 T a). lia.
Qed.

Lemma hora_HH_MM_pasa (h m : nat) :
  h <= 23 -> m <= 59 -> validarFormatoHora (dos h ++ ":" ++ dos m) = true.
Proof.
  intros Hh Hm.
  assert (T : forallb (fun h => forallb (fun m =>
            validarFormatoHora (dos h ++ ":" ++ dos m)) (seq 0 60)) (seq 0 24) = true)
    by (vm_compute; reflexivity).
  apply (@forallb_seq _ 60 (@forallb_seq _ 24 T h ltac:(lia)) m ltac:(lia)).
Qed.

Lemma hora_H_MM_pasa (h m : nat) :
  h <= 9 -> m <= 59 -> validarFormatoHora (uno h ++ ":" ++ dos m) = true.
Proof.
  intros Hh Hm.
  assert (T : forallb (fun h => forallb (fun m =>
            validarFormatoHora (uno h ++ ":" ++ dos m)) (seq 0 60)) (seq 0 10) = true)
    by (vm_compute; reflexivity).
  apply (@forallb_seq _ 60 (@forallb_seq _ 10 T h ltac:(lia)) m ltac:(lia)).
Qed.

(** What the tail [:[0-5][0-9]] of the pattern matches. *)
Lemma lang_minutos (s : string) :
  lang (Seq (chr ":") (Seq (Class [("0", "5")%char]) (Class [("0", "9")%char]))) s ->
  exists m, m <= 59 /\ s = ":" ++ dos m.
Proof.
  simpl. intros (s1 & s2 & -> & (c & -> & Hc) & s3 & s4 & -> & (c1 & -> & H1) & (c2 & -> & H2)).
  apply in_class_chr in Hc. subst c.
  apply in_class_uno in H1; [| vm_compute; lia]. destruct H1 as (a & -> & Ha).
  apply in_class_uno in H2; [| vm_compute; lia]. destruct H2 as (b & -> & Hb).
  vm_compute in Ha, Hb. exists (10 * a + b). split; [lia |].
  rewrite dos_cifras by lia. reflexivity.
Qed.

(** What the head [([01]?[0-9]|2[0-3])] of the pattern matches. *)
Lemma lang_horas (s : string) :
  lang (Alt (Seq (Opt (Class [("0", "0"); ("1", "1")]%char)) (Class [("0", "9")%char]))
            (Seq (chr "2") (Class [("0", "3")%char]))) s ->
  (exists h, h <= 23 /\ s = dos h) \/ (exists h, h <= 9 /\ s = uno h).
Proof.
  simpl. intros [(s1 & s2 & -> & [-> | (c1 & -> & H1)] & (c2 & -> & H2))
                | (s1 & s2 & -> & (c1 & -> & H1) & (c2 & -> & H2))].
  - right. apply in_class_uno in H2; [| vm_compute; lia]. destruct H2 as (b & -> & Hb).
    vm_compute in Hb. exists b. split; [lia |]. rewrite uno_cifra by lia. reflexivity.
  - left. apply in_class_uno in H2; [| vm_compute; lia]. destruct H2 as (b & -> & Hb).
    vm_compute in Hb. unfold in_class in H1. simpl in H1. rewrite orb_false_r in H1.
    apply orb_true_iff in H1. destruct H1 as [H1 | H1];
      apply in_range_cifra in H1; try (vm_compute; lia);
      destruct H1 as (a & -> & Ha); vm_compute in Ha;
      exists (10 * a + b); (split; [lia |]); rewrite dos_cifras by lia; reflexivity.
  - left. apply in_class_chr in H1. subst c1.
    apply in_class_uno in H2; [| vm_compute; lia]. destruct H2 as (b & -> & Hb).
    vm_compute in Hb. exists (10 * 2 + b). split; [lia |].
    rewrite dos_cifras by lia. reflexivity.
Qed.

(** C3 (as the source has it): [validarFormatoHora] accepts exactly the
    24-hour times [HH:MM] with hours 00 to 23 and minutes 00 to 59, and the
    times [H:MM] with a one-digit hour 0 to 9; so it rejects ["24:00"] and
    accepts ["23:59"] and ["9:30"]. *)
Theorem validarFormatoHora_caracterizacion :
  (forall s : string, validarFormatoHora s = true <-> es_HH_MM s \/ es_H_MM s) /\
  validarFormatoHora "24:00" = false /\
  validarFormatoHora "23:59" = true /\
  validarFormatoHora "9:30" = true.
Proof.
  split; [| repeat split; reflexivity].
  intros s. split.
  - unfold validarFormatoHora. rewrite test_lang. unfold regex_hora.
    intros (s1 & s2 & -> & H1 & H2).
    apply lang_minutos in H2. destruct H2 as (m & Hm & ->).
    apply lang_horas in H1. destruct H1 as [(h & Hh & ->) | (h & Hh & ->)].
    + left. exists h, m. auto.
    + right. exists h, m. auto.
  - intros [(h & m & Hh & Hm & ->) | (h & m & Hh & Hm & ->)].
    + apply hora_HH_MM_pasa; assumption.
    + apply hora_H_MM_pasa; assumption.
Qed.

Lemma dos_largo (n : nat) : String.length (dos n) = 2.
Proof. reflexivity. Qed.

Lemma length_append (s1 s2 : string) :
  String.length (s1 ++ s2) = String.length s1 + String.length s2.
Proof. induction s1; simpl; congruence. Qed.

(** C3 (as the specification has it) fails: ["9:30"], whose hour is not
    padded to two digits, is not of the shape [HH:MM] and is accepted. *)
Lemma validarFormatoHora_acepta_hora_sin_cero :
  validarFormatoHora "9:30" = true /\ ~ es_HH_MM "9:30".
Proof.
  split; [reflexivity |].
  intros (h & m & _ & _ & E).
  apply (f_equal String.length) in E.
  rewrite !length_append, !dos_largo in E. simpl in E. discriminate.
Qed.

Lemma dec_digit_cifra (z : Z) (k : nat) :
  JSDate.dec_digit z = cifra k -> k <= 9 -> (z mod 10 = Z.of_nat k)%Z.
Proof.
  unfold JSDate.dec_digit, cifra. intros E Hk.
  apply (f_equal N_of_ascii) in E.
  assert (0 <= z mod 10 < 10)%Z by (apply Z.mod_pos_bound; lia).
  rewrite !N_ascii_embedding in E by lia. lia.
Qed.

Lemma febrero_corto (y : nat) : dias_del_mes y 2 <= 29.
Proof. unfold dias_del_mes. destruct (JSDate.InLeapYear (Z.of_nat y)); lia. Qed.

(** The time zone of the process plays no part in [validarFormatoFecha]:
    whether a text of the shape [YYYY-MM-DD] is a date for the runtime does
    not depend on it. *)
Lemma validarFormatoFecha_zona (zona : Z) (s : string) :
  validarFormatoFecha zona s = validarFormatoFecha 0 s.
Proof.
  unfold validarFormatoFecha, JSDate.parse.
  change JSDate.iso_date with regex_fecha.
  destruct (test regex_fecha s); [| reflexivity]. cbn [negb].
  destruct (JSDate.day_of s); [reflexivity |].
  destruct (JSDate.legacy_day_of s); reflexivity.
Qed.

(** Whatever the month, the parser of the runtime takes any day from 01 to
    31 (shown here for the months of 2024). *)
Lemma validarFormatoFecha_dias_hasta_31 (zona : Z) (m d : nat) :
  1 <= m <= 12 -> 1 <= d <= 31 ->
  validarFormatoFecha zona ("2024-" ++ dos m ++ "-" ++ dos d) = true.
Proof.
  intros Hm Hd.
  assert (T : forallb (fun m => forallb (fun d =>
            validarFormatoFecha 0 ("2024-" ++ dos (S m) ++ "-" ++ dos (S d)))
            (seq 0 31)) (seq 0 12) = true) by (vm_compute; reflexivity).
  pose proof (@forallb_seq _ 31 (@forallb_seq _ 12 T (m - 1) ltac:(lia)) (d - 1) ltac:(lia)) as P.
  replace (S (m - 1)) with m in P by lia. replace (S (d - 1)) with d in P by lia.
  rewrite validarFormatoFecha_zona. exact P.
Qed.

(** C4: the 30th of February is not a day of the calendar, and
    [validarFormatoFecha] accepts it: the text has the shape [YYYY-MM-DD],
    and [new Date] carries the day into March instead of giving [NaN]. *)
Theorem validarFormatoFecha_acepta_30_de_febrero :
  forall zona : Z,
    validarFormatoFecha zona "2024-02-30" = true /\
    JSDate.parse zona "2024-02-30" = JSDate.parse zona "2024-03-01" /\
    ~ es_fecha_de_calendario "2024-02-30".
Proof.
  intros zona. split; [reflexivity |]. split; [reflexivity |].
  intros (y & m & d & _ & Hm & Hd & E).
  unfold dos in E. cbn [JSDate.pad append] in E.
  injection E as _ _ _ _ M1 M2 D1 D2.
  change "0"%char with (cifra 0) in M1, D2.
  change "2"%char with (cifra 2) in M2.
  change "3"%char with (cifra 3) in D1.
  symmetry in M1, M2, D1, D2.
  apply dec_digit_cifra in M1, M2, D1, D2; try lia.
  pose proof (febrero_corto y).
  assert (m = 2) by (Z.div_mod_to_equations; lia). subst m.
  assert (d = 30) by (Z.div_mod_to_equations; lia). subst d. lia.
Qed.

End ValidacionesFacts.


(* ===================================================================== *)
(** ** More on the validators                                            *)
(* ===================================================================== *)

Module ValidacionesExtra.
Import RegExp RegExpFacts Validaciones ValidacionesFacts.

(** *** The shape of an accepted date *)

Lemma digit_value_cifra (a : nat) : a <= 9 -> JSDate.digit_value (cifra a) = Z.of_nat a.
Proof.
  intros H. unfold JSDate.digit_value, cifra.
  rewrite N_ascii_embedding by lia. lia.
Qed.

Lemma lang_digit (a : nat) : a <= 9 -> lang digit (String (cifra a) "").
Proof.
  intros H. exists (cifra a). split; [reflexivity |].
  unfold in_class. cbn [existsb]. rewrite orb_false_r.
  unfold in_range. cbn [fst snd].
  change (N_of_ascii "0") with 48%N. change (N_of_ascii "9") with 57%N.
  unfold cifra. rewrite N_ascii_embedding by lia.
  rewrite andb_true_iff, !N.leb_le. lia.
Qed.

Lemma lang_digit_inv (s : string) :
  lang digit s -> exists a, a <= 9 /\ s = String (cifra a) "".
Proof.
  intros (c & -> & H). apply in_class_uno in H; [| vm_compute; lia].
  destruct H as (a & -> & Ha). vm_compute in Ha. exists a. split; [lia | reflexivity].
Qed.

Lemma lang_dos_digitos (s : string) :
  lang (rep 2 digit) s <->
  exists a b, a <= 9 /\ b <= 9 /\ s = String (cifra a) (String (cifra b) "").
Proof.
  split.
  - intros (s1 & s2 & -> & H1 & s3 & s4 & -> & H3 & ->).
    apply lang_digit_inv in H1, H3.
    destruct H1 as (a & Ha & ->). destruct H3 as (b & Hb & ->).
    exists a, b. auto.
  - intros (a & b & Ha & Hb & ->).
    exists (String (cifra a) ""), (String (cifra b) "").
    split; [reflexivity |]. split; [apply lang_digit, Ha |].
    exists (String (cifra b) ""), "". split; [reflexivity |].
    split; [apply lang_digit, Hb | reflexivity].
Qed.

Lemma lang_cuatro_digitos (s : string) :
  lang (rep 4 digit) s <->
  exists a b c d,
    a <= 9 /\ b <= 9 /\ c <= 9 /\ d <= 9
    /\ s = String (cifra a) (String (cifra b) (String (cifra c) (String (cifra d) ""))).
Proof.
  change (rep 4 digit) with (Seq digit (Seq digit (rep 2 digit))). split.
  - intros (s1 & s2 & -> & H1 & s3 & s4 & -> & H3 & H4).
    apply lang_digit_inv in H1, H3. apply lang_dos_digitos in H4.
    destruct H1 as (a & Ha & ->). destruct H3 as (b & Hb & ->).
    destruct H4 as (c & d & Hc & Hd & ->). exists a, b, c, d. auto.
  - intros (a & b & c & d & Ha & Hb & Hc & Hd & ->).
    exists (String (cifra a) ""), (String (cifra b) (String (cifra c) (String (cifra d) ""))).
    split; [reflexivity |]. split; [apply lang_digit, Ha |].
    exists (String (cifra b) ""), (String (cifra c) (String (cifra d) "")).
    split; [reflexivity |]. split; [apply lang_digit, Hb |].
    apply lang_dos_digitos. exists c, d. auto.
Qed.

Lemma lang_guion (c : ascii) (s : string) :
  lang (chr c) s <-> s = String c "".
Proof.
  split.
  - intros (c' & -> & H). apply in_class_chr in H. subst. reflexivity.
  - intros ->. exists c. split; [reflexivity |].
    unfold in_class, in_range. cbn [existsb fst snd]. rewrite !N.leb_refl. reflexivity.
Qed.

(** The texts [YYYY-MM-DD] made of digits. *)
Definition forma_fecha (a1 a2 a3 a4 m1 m2 d1 d2 : nat) : string :=
  String (cifra a1) (String (cifra a2) (String (cifra a3) (String (cifra a4)
    (String "-" (String (cifra m1) (String (cifra m2)
      (String "-" (String (cifra d1) (String (cifra d2) ""))))))))).

Lemma lang_regex_fecha (s : string) :
  lang regex_fecha s <->
  exists a1 a2 a3 a4 m1 m2 d1 d2,
    (a1 <= 9 /\ a2 <= 9 /\ a3 <= 9 /\ a4 <= 9)
    /\ (m1 <= 9 /\ m2 <= 9) /\ (d1 <= 9 /\ d2 <= 9)
    /\ s = forma_fecha a1 a2 a3 a4 m1 m2 d1 d2.
Proof.
  unfold regex_fecha. split.
  - intros (s1 & r1 & -> & H1 & s2 & r2 & -> & H2 & s3 & r3 & -> & H3
            & s4 & s5 & -> & H4 & H5).
    apply lang_cuatro_digitos in H1. apply lang_guion in H2, H4.
    apply lang_dos_digitos in H3, H5. subst s2 s4.
    destruct H1 as (a1 & a2 & a3 & a4 & A1 & A2 & A3 & A4 & ->).
    destruct H3 as (m1 & m2 & M1 & M2 & ->).
    destruct H5 as (d1 & d2 & D1 & D2 & ->).
    exists a1, a2, a3, a4, m1, m2, d1, d2. repeat split; assumption.
  - intros (a1 & a2 & a3 & a4 & m1 & m2 & d1 & d2 & (A1 & A2 & A3 & A4)
            & (M1 & M2) & (D1 & D2) & ->).
    exists (String (cifra a1) (String (cifra a2) (String (cifra a3) (String (cifra a4) "")))).
    eexists. split; [reflexivity |].
    split; [apply lang_cuatro_digitos; exists a1, a2, a3, a4; auto |].
    exists "-". eexists. split; [reflexivity |]. split; [apply lang_guion; reflexivity |].
    exists (String (cifra m1) (String (cifra m2) "")). eexists. split; [reflexivity |].
    split; [apply lang_dos_digitos; exists m1, m2; auto |].
    exists "-". eexists. split; [reflexivity |]. split; [apply lang_guion; reflexivity |].
    apply lang_dos_digitos. exists d1, d2. auto.
Qed.

Lemma day_of_forma (a1 a2 a3 a4 m1 m2 d1 d2 : nat) (resto : string) :
  a1 <= 9 -> a2 <= 9 -> a3 <= 9 -> a4 <= 9 -> m1 <= 9 -> m2 <= 9 -> d1 <= 9 -> d2 <= 9 ->
  let y := Z.of_nat (1000 * a1 + 100 * a2 + 10 * a3 + a4) in
  let m := Z.of_nat (10 * m1 + m2) in
  let d := Z.of_nat (10 * d1 + d2) in
  JSDate.day_of (forma_fecha a1 a2 a3 a4 m1 m2 d1 d2 ++ resto)
  = if ((1 <=? m) && (m <=? 12) && (1 <=? d) && (d <=? 31))%Z
    then Some (JSDate.MakeDay y (m - 1) d)
    else None.
Proof.
  intros A1 A2 A3 A4 M1 M2 D1 D2 y m d.
  unfold JSDate.day_of, forma_fecha. cbn [append substring].
  unfold JSDate.number. cbn [JSDate.number_from].
  rewrite !digit_value_cifra by assumption.
  replace (10 * (10 * (10 * (10 * 0 + Z.of_nat a1) + Z.of_nat a2) + Z.of_nat a3)
           + Z.of_nat a4)%Z with y by (unfold y; lia).
  replace (10 * (10 * 0 + Z.of_nat m1) + Z.of_nat m2)%Z with m by (unfold m; lia).
  replace (10 * (10 * 0 + Z.of_nat d1) + Z.of_nat d2)%Z with d by (unfold d; lia).
  destruct resto; reflexivity.
Qed.

Lemma dec_digit_de_cifra (z : Z) :
  JSDate.dec_digit z = cifra (Z.to_nat (z mod 10)).
Proof.
  unfold JSDate.dec_digit, cifra. f_equal. f_equal.
  pose proof (Z.mod_pos_bound z 10 ltac:(lia)). lia.
Qed.

Lemma pad4_de_nat (y : nat) :
  (Z.of_nat y <= 9999)%Z ->
  exists a1 a2 a3 a4,
    (a1 <= 9 /\ a2 <= 9 /\ a3 <= 9 /\ a4 <= 9)
    /\ y = 1000 * a1 + 100 * a2 + 10 * a3 + a4
    /\ JSDate.pad 4 (Z.of_nat y)
       = String (cifra a1) (String (cifra a2) (String (cifra a3) (String (cifra a4) ""))).
Proof.
  intros H. set (z := Z.of_nat y) in *.
  exists (Z.to_nat (z / 10 / 10 / 10 mod 10)), (Z.to_nat (z / 10 / 10 mod 10)),
    (Z.to_nat (z / 10 mod 10)), (Z.to_nat (z mod 10)).
  assert (Hz : (0 <= z)%Z) by (unfold z; lia).
  split; [| split].
  - pose proof (Z.mod_pos_bound (z / 10 / 10 / 10) 10 ltac:(lia)).
    pose proof (Z.mod_pos_bound (z / 10 / 10) 10 ltac:(lia)).
    pose proof (Z.mod_pos_bound (z / 10) 10 ltac:(lia)).
    pose proof (Z.mod_pos_bound z 10 ltac:(lia)). lia.
  - assert (E : (z = 1000 * (z / 10 / 10 / 10 mod 10) + 100 * (z / 10 / 10 mod 10)
                     + 10 * (z / 10 mod 10) + z mod 10)%Z).
    { pose proof (Z.div_mod z 10 ltac:(lia)).
      pose proof (Z.div_mod (z / 10) 10 ltac:(lia)).
      pose proof (Z.div_mod (z / 10 / 10) 10 ltac:(lia)).
      pose proof (Z.div_mod (z / 10 / 10 / 10) 10 ltac:(lia)).
      assert (z / 10 / 10 / 10 / 10 = 0)%Z; [| lia].
      rewrite !Z.div_div by lia. apply Z.div_small. lia. }
    pose proof (Z.mod_pos_bound (z / 10 / 10 / 10) 10 ltac:(lia)).
    pose proof (Z.mod_pos_bound (z / 10 / 10) 10 ltac:(lia)).
    pose proof (Z.mod_pos_bound (z / 10) 10 ltac:(lia)).
    pose proof (Z.mod_pos_bound z 10 ltac:(lia)).
    unfold z in E at 1. lia.
  - cbn [JSDate.pad append]. rewrite !dec_digit_de_cifra. reflexivity.
Qed.

Lemma dos_de_nat (m : nat) :
  m <= 99 ->
  dos m = String (cifra (m / 10)) (String (cifra (m mod 10)) "")
  /\ m / 10 <= 9 /\ m mod 10 <= 9 /\ m = 10 * (m / 10) + m mod 10.
Proof.
  intros H.
  assert (T : forallb (fun m =>
            String.eqb (dos m) (String (cifra (m / 10)) (String (cifra (m mod 10)) ""))
            && (m / 10 <=? 9)%nat && (m mod 10 <=? 9)%nat
            && (m =? 10 * (m / 10) + m mod 10)%nat)
            (seq 0 100) = true) by (vm_compute; reflexivity).
  pose proof (@forallb_seq _ 100 T m ltac:(lia)) as P. cbv beta in P.
  rewrite !andb_true_iff, String.eqb_eq, !Nat.leb_le, Nat.eqb_eq in P.
  destruct P as [[[P1 P2] P3] P4]. auto.
Qed.

Lemma pad4_cifras (a1 a2 a3 a4 : nat) :
  a1 <= 9 -> a2 <= 9 -> a3 <= 9 -> a4 <= 9 ->
  JSDate.pad 4 (Z.of_nat (1000 * a1 + 100 * a2 + 10 * a3 + a4))
  = String (cifra a1) (String (cifra a2) (String (cifra a3) (String (cifra a4) ""))).
Proof.
  intros A1 A2 A3 A4.
  destruct (pad4_de_nat (1000 * a1 + 100 * a2 + 10 * a3 + a4) ltac:(lia))
    as (b1 & b2 & b3 & b4 & (B1 & B2 & B3 & B4) & E & ->).
  assert (b1 = a1 /\ b2 = a2 /\ b3 = a3 /\ b4 = a4) as (-> & -> & -> & ->) by lia.
  reflexivity.
Qed.

Lemma append_vacia (s : string) : s ++ "" = s.
Proof. induction s as [| c s IH]; cbn; [reflexivity | now rewrite IH]. Qed.

(** The text [YYYY-MM-DD] of the numbers [y], [m] and [d]. *)
Definition fecha_de (y m d : nat) : string :=
  JSDate.pad 4 (Z.of_nat y) ++ "-" ++ dos m ++ "-" ++ dos d.

Lemma fecha_de_forma (y m d : nat) :
  (Z.of_nat y <= 9999)%Z -> m <= 99 -> d <= 99 ->
  exists a1 a2 a3 a4 m1 m2 d1 d2,
    (a1 <= 9 /\ a2 <= 9 /\ a3 <= 9 /\ a4 <= 9)
    /\ (m1 <= 9 /\ m2 <= 9) /\ (d1 <= 9 /\ d2 <= 9)
    /\ y = 1000 * a1 + 100 * a2 + 10 * a3 + a4 /\ m = 10 * m1 + m2 /\ d = 10 * d1 + d2
    /\ fecha_de y m d = forma_fecha a1 a2 a3 a4 m1 m2 d1 d2.
Proof.
  intros Hy Hm Hd.
  destruct (pad4_de_nat y Hy) as (a1 & a2 & a3 & a4 & (A1 & A2 & A3 & A4) & Ey & Py).
  destruct (dos_de_nat m Hm) as (Pm & Bm1 & Bm2 & Em).
  destruct (dos_de_nat d Hd) as (Pd & Bd1 & Bd2 & Ed).
  exists a1, a2, a3, a4, (m / 10), (m mod 10), (d / 10), (d mod 10).
  unfold fecha_de. rewrite Py, Pm, Pd.
  repeat split; try lia; assumption.
Qed.

(** The pattern of [validarFormatoFecha] takes the texts of three numbers,
    of four, two and two digits. *)
Lemma regex_fecha_fecha_de (s : string) :
  test regex_fecha s = true <->
  exists y m d : nat, (Z.of_nat y <= 9999)%Z /\ m <= 99 /\ d <= 99 /\ s = fecha_de y m d.
Proof.
  rewrite test_lang, lang_regex_fecha. split.
  - intros (a1 & a2 & a3 & a4 & m1 & m2 & d1 & d2 & (A1 & A2 & A3 & A4)
            & (M1 & M2) & (D1 & D2) & ->).
    exists (1000 * a1 + 100 * a2 + 10 * a3 + a4), (10 * m1 + m2), (10 * d1 + d2).
    unfold fecha_de. rewrite pad4_cifras, !dos_cifras by assumption.
    repeat split; lia.
  - intros (y & m & d & Hy & Hm & Hd & ->).
    destruct (fecha_de_forma y m d Hy Hm Hd)
      as (a1 & a2 & a3 & a4 & m1 & m2 & d1 & d2 & A & M & D & _ & _ & _ & ->).
    exists a1, a2, a3, a4, m1, m2, d1, d2. auto.
Qed.

(** How the runtime reads the text of the numbers [y], [m] and [d]: as the
    UTC date of year [y], month [m] and day [d] when the month is 1..12 and
    the day 1..31; if not, and [y] is 1..12 and [m] is 1..31, as the LOCAL
    date of month [y] and day [m] in the year [d] of the 2000s (up to 49) or
    of the 1900s; else it is no date. *)
Inductive Lectura : Type :=
| fecha_utc (dia : Z)
| fecha_local (dia : Z)
| no_es_fecha.

Definition dia_de (y m d : nat) : Z :=
  JSDate.MakeDay (Z.of_nat y) (Z.of_nat m - 1) (Z.of_nat d).

Definition siglo (d : nat) : nat := if (d <=? 49)%nat then 2000 + d else 1900 + d.

Definition lectura_de (y m d : nat) : Lectura :=
  if ((1 <=? m) && (m <=? 12) && (1 <=? d) && (d <=? 31))%nat
  then fecha_utc (dia_de y m d)
  else if ((1 <=? y) && (y <=? 12) && (1 <=? m) && (m <=? 31))%nat
       then fecha_local (dia_de (siglo d) y m)
       else no_es_fecha.

Lemma legacy_day_of_forma (a1 a2 a3 a4 m1 m2 d1 d2 : nat) (resto : string) :
  a1 <= 9 -> a2 <= 9 -> a3 <= 9 -> a4 <= 9 -> m1 <= 9 -> m2 <= 9 -> d1 <= 9 -> d2 <= 9 ->
  let y := Z.of_nat (1000 * a1 + 100 * a2 + 10 * a3 + a4) in
  let m := Z.of_nat (10 * m1 + m2) in
  let d := Z.of_nat (10 * d1 + d2) in
  JSDate.legacy_day_of (forma_fecha a1 a2 a3 a4 m1 m2 d1 d2 ++ resto)
  = let '(year, month, day) := if JSDate.IsDay y then (d, y, m) else (y, m, d) in
    let year := (if year <=? 49 then year + 2000
                 else if year <=? 99 then year + 1900 else year)%Z in
    if JSDate.IsMonth month && JSDate.IsDay day
    then Some (JSDate.MakeDay year (month - 1) day) else None.
Proof.
  intros A1 A2 A3 A4 M1 M2 D1 D2 y m d.
  unfold JSDate.legacy_day_of, forma_fecha. cbn [append substring].
  unfold JSDate.number. cbn [JSDate.number_from].
  rewrite !digit_value_cifra by assumption.
  replace (10 * (10 * (10 * (10 * 0 + Z.of_nat a1) + Z.of_nat a2) + Z.of_nat a3)
           + Z.of_nat a4)%Z with y by (unfold y; lia).
  replace (10 * (10 * 0 + Z.of_nat m1) + Z.of_nat m2)%Z with m by (unfold m; lia).
  replace (10 * (10 * 0 + Z.of_nat d1) + Z.of_nat d2)%Z with d by (unfold d; lia).
  destruct resto; reflexivity.
Qed.

Lemma parse_fecha_de (zona : Z) (y m d : nat) :
  (Z.of_nat y <= 9999)%Z -> m <= 99 -> d <= 99 ->
  JSDate.parse zona (fecha_de y m d)
  = match lectura_de y m d with
    | fecha_utc n => Some (n * JSDate.msPerDay)%Z
    | fecha_local n => Some (n * JSDate.msPerDay - zona * JSDate.msPerMinute)%Z
    | no_es_fecha => None
    end.
Proof.
  intros Hy Hm Hd.
  assert (T : test JSDate.iso_date (fecha_de y m d) = true).
  { change JSDate.iso_date with regex_fecha. apply regex_fecha_fecha_de.
    exists y, m, d. auto. }
  destruct (fecha_de_forma y m d Hy Hm Hd)
    as (a1 & a2 & a3 & a4 & m1 & m2 & d1 & d2 & (A1 & A2 & A3 & A4)
        & (M1 & M2) & (D1 & D2) & Ey & Em & Ed & E).
  unfold JSDate.parse. rewrite T. rewrite E.
  rewrite <- (append_vacia (forma_fecha a1 a2 a3 a4 m1 m2 d1 d2)).
  rewrite day_of_forma, legacy_day_of_forma by assumption. cbv zeta.
  rewrite <- Ey, <- Em, <- Ed. unfold lectura_de, JSDate.IsDay, JSDate.IsMonth.
  destruct ((1 <=? m) && (m <=? 12) && (1 <=? d) && (d <=? 31))%nat eqn:R1.
  - rewrite !andb_true_iff, !Nat.leb_le in R1.
    assert ((1 <=? Z.of_nat m) && (Z.of_nat m <=? 12) && (1 <=? Z.of_nat d)
            && (Z.of_nat d <=? 31) = true)%Z as ->
      by (rewrite !andb_true_iff, !Z.leb_le; lia).
    reflexivity.
  - rewrite !andb_false_iff, !Nat.leb_gt in R1.
    assert ((1 <=? Z.of_nat m) && (Z.of_nat m <=? 12) && (1 <=? Z.of_nat d)
            && (Z.of_nat d <=? 31) = false)%Z as ->
      by (rewrite !andb_false_iff, !Z.leb_gt; lia).
    destruct ((1 <=? y) && (y <=? 12) && (1 <=? m) && (m <=? 31))%nat eqn:R2.
    + rewrite !andb_true_iff, !Nat.leb_le in R2.
      assert ((1 <=? Z.of_nat y) && (Z.of_nat y <=? 31) = true)%Z as ->
        by (rewrite !andb_true_iff, !Z.leb_le; lia).
      assert ((1 <=? Z.of_nat y) && (Z.of_nat y <=? 12)
              && ((1 <=? Z.of_nat m) && (Z.of_nat m <=? 31)) = true)%Z as ->
        by (rewrite !andb_true_iff, !Z.leb_le; lia).
      unfold dia_de, siglo.
      destruct (Nat.leb_spec d 49).
      * assert ((Z.of_nat d <=? 49) = true)%Z as -> by (apply Z.leb_le; lia).
        do 4 f_equal. lia.
      * assert ((Z.of_nat d <=? 49) = false)%Z as -> by (apply Z.leb_gt; lia).
        assert ((Z.of_nat d <=? 99) = true)%Z as -> by (apply Z.leb_le; lia).
        do 4 f_equal. lia.
    + rewrite !andb_false_iff, !Nat.leb_gt in R2.
      destruct ((1 <=? Z.of_nat y) && (Z.of_nat y <=? 31))%Z eqn:R3.
      * rewrite !andb_true_iff, !Z.leb_le in R3.
        assert ((1 <=? Z.of_nat y) && (Z.of_nat y <=? 12)
                && ((1 <=? Z.of_nat m) && (Z.of_nat m <=? 31)) = false)%Z as ->
          by (rewrite !andb_false_iff, !Z.leb_gt; lia).
        reflexivity.
      * assert ((1 <=? Z.of_nat m) && (Z.of_nat m <=? 12)
                && ((1 <=? Z.of_nat d) && (Z.of_nat d <=? 31)) = false)%Z as ->
          by (rewrite !andb_false_iff, !Z.leb_gt; lia).
        reflexivity.
Qed.

Lemma parse_fecha (zona : Z) (y m d : nat) :
  (Z.of_nat y <= 9999)%Z -> 1 <= m <= 12 -> 1 <= d <= 31 ->
  JSDate.parse zona (fecha_de y m d) = Some (dia_de y m d * JSDate.msPerDay)%Z.
Proof.
  intros Hy Hm Hd. rewrite parse_fecha_de by lia. unfold lectura_de.
  replace ((1 <=? m) && (m <=? 12) && (1 <=? d) && (d <=? 31))%nat with true; [reflexivity |].
  symmetry. rewrite !andb_true_iff, !Nat.leb_le. lia.
Qed.







Lemma lang_iso_date_largo (s : string) : lang JSDate.iso_date s -> String.length s = 10.
Proof.
  intros H. change JSDate.iso_date with regex_fecha in H.
  apply lang_regex_fecha in H.
  destruct H as (a1 & a2 & a3 & a4 & m1 & m2 & d1 & d2 & _ & _ & _ & ->).
  reflexivity.
Qed.

Lemma lang_iso_date_time_largo (s : string) :
  lang JSDate.iso_date_time s -> String.length s = 16.
Proof.
  intros (s1 & r1 & -> & H1 & s2 & r2 & -> & H2 & s3 & r3 & -> & H3
          & s4 & s5 & -> & H4 & H5).
  apply lang_iso_date_largo in H1. apply lang_guion in H2, H4.
  apply lang_dos_digitos in H3, H5. subst s2 s4.
  destruct H3 as (h1 & h2 & _ & _ & ->). destruct H5 as (n1 & n2 & _ & _ & ->).
  rewrite length_append, H1. reflexivity.
Qed.

Lemma test_false (r : regex) (s : string) : ~ lang r s -> test r s = false.
Proof.
  intros H. destruct (test r s) eqn:T; [| reflexivity].
  apply test_lang in T. contradiction.
Qed.

(** A text of another length than 10 or 16 is in neither of the two forms. *)
Lemma parse_otro_largo (zona : Z) (s : string) :
  String.length s <> 10 -> String.length s <> 16 -> JSDate.parse zona s = None.
Proof.
  intros H10 H16. unfold JSDate.parse.
  rewrite (test_false JSDate.iso_date s), (test_false JSDate.iso_date_time s);
    [reflexivity | |].
  - intros H. apply lang_iso_date_time_largo in H. contradiction.
  - intros H. apply lang_iso_date_largo in H. contradiction.
Qed.





(** X4: With a one-digit hour, which [validarFormatoHora] accepts, the text
    [YYYY-MM-DDTH:MM] is no date for the runtime: [validarFechaHoraFutura]
    is false whatever the date and the clock. *)
Theorem validarFechaHoraFutura_hora_sin_cero (zona ahora : Z) (fecha hora : string) :
  validarFormatoFecha zona fecha = true -> es_H_MM hora ->
  validarFormatoHora hora = true
  /\ validarFechaHoraFutura zona ahora fecha hora = false.
Proof.
  intros Hf (h & n & Hh & Hn & ->). split; [apply hora_H_MM_pasa; assumption |].
  unfold validarFechaHoraFutura. rewrite parse_otro_largo; [reflexivity | |].
  - unfold validarFormatoFecha in Hf.
    destruct (test regex_fecha fecha) eqn:T; [| discriminate].
    apply test_lang, lang_iso_date_largo in T.
    rewrite !length_append, T. cbn. discriminate.
  - unfold validarFormatoFecha in Hf.
    destruct (test regex_fecha fecha) eqn:T; [| discriminate].
    apply test_lang, lang_iso_date_largo in T.
    rewrite !length_append, T. cbn. discriminate.
Qed.

Lemma validarFechaHoraFutura_hora_sin_cero_witness :
  validarFormatoHora "9:30" = true
  /\ validarFechaHoraFutura 0 Ejemplos.un_lunes "2030-01-15" "9:30" = false.
Proof.
  apply (validarFechaHoraFutura_hora_sin_cero 0 Ejemplos.un_lunes "2030-01-15" "9:30").
  - reflexivity.
  - exists 9, 30. split; [lia |]. split; [lia | reflexivity].
Defined.

Definition son_minutos (o : option Numero) (z : Z) : bool :=
  match o with
  | Some (num x) => (x =? z)%Z
  | _ => false
  end.

Lemma son_minutos_eq (o : option Numero) (z : Z) :
  son_minutos o z = true -> o = Some (num z).
Proof.
  destruct o as [[x |] |]; cbn; try discriminate.
  intros H. apply Z.eqb_eq in H. now subst x.
Qed.

(** The minutes since midnight that [validarHorarioLaboral] computes for a
    time of either shape. *)
Lemma minutos_HH_MM (h n : nat) :
  h <= 23 -> n <= 59 ->
  minutos (dos h ++ ":" ++ dos n) = Some (num (Z.of_nat h * 60 + Z.of_nat n)).
Proof.
  intros Hh Hn.
  assert (T : forallb (fun h => forallb (fun n =>
            son_minutos (minutos (dos h ++ ":" ++ dos n)) (Z.of_nat h * 60 + Z.of_nat n))
            (seq 0 60)) (seq 0 24) = true) by (vm_compute; reflexivity).
  apply son_minutos_eq.
  apply (@forallb_seq _ 60 (@forallb_seq _ 24 T h ltac:(lia)) n ltac:(lia)).
Qed.

Lemma minutos_H_MM (h n : nat) :
  h <= 9 -> n <= 59 ->
  minutos (uno h ++ ":" ++ dos n) = Some (num (Z.of_nat h * 60 + Z.of_nat n)).
Proof.
  intros Hh Hn.
  assert (T : forallb (fun h => forallb (fun n =>
            son_minutos (minutos (uno h ++ ":" ++ dos n)) (Z.of_nat h * 60 + Z.of_nat n))
            (seq 0 60)) (seq 0 10) = true) by (vm_compute; reflexivity).
  apply son_minutos_eq.
  apply (@forallb_seq _ 60 (@forallb_seq _ 10 T h ltac:(lia)) n ltac:(lia)).
Qed.

(** X5: On every time [validarFormatoHora] accepts, of either shape, and working
    hours given as [HH:MM], [validarHorarioLaboral] compares minutes since
    midnight, both ends included: with the defaults, 09:00 and 18:00 are
    working hours and 18:01 is not. *)
Theorem validarHorarioLaboral_minutos (hora : string) (h n hi ni hf nf : nat) :
  n <= 59 ->
  (h <= 23 /\ hora = dos h ++ ":" ++ dos n) \/ (h <= 9 /\ hora = uno h ++ ":" ++ dos n) ->
  hi <= 23 -> ni <= 59 -> hf <= 23 -> nf <= 59 ->
  validarHorarioLaboral hora (dos hi ++ ":" ++ dos ni) (dos hf ++ ":" ++ dos nf)
  = Some ((Z.of_nat hi * 60 + Z.of_nat ni <=? Z.of_nat h * 60 + Z.of_nat n)%Z
          && (Z.of_nat h * 60 + Z.of_nat n <=? Z.of_nat hf * 60 + Z.of_nat nf)%Z).
Proof.
  intros Hn Hora Hhi Hni Hhf Hnf. unfold validarHorarioLaboral.
  rewrite (minutos_HH_MM hi ni), (minutos_HH_MM hf nf) by assumption.
  destruct Hora as [[Hh ->] | [Hh ->]].
  - rewrite minutos_HH_MM by assumption. reflexivity.
  - rewrite minutos_H_MM by assumption. reflexivity.
Qed.

Lemma validarHorarioLaboral_minutos_witness :
  validarHorarioLaboral "18:00" horaInicio_por_defecto horaFin_por_defecto = Some true
  /\ validarHorarioLaboral "8:59" horaInicio_por_defecto horaFin_por_defecto = Some false.
Proof.
  split.
  - apply (validarHorarioLaboral_minutos "18:00" 18 0 9 0 18 0);
      [lia | left; split; [lia | reflexivity] | lia | lia | lia | lia].
  - apply (validarHorarioLaboral_minutos "8:59" 8 59 9 0 18 0);
      [lia | right; split; [lia | reflexivity] | lia | lia | lia | lia].
Defined.

Lemma split_sin_dos_puntos (actual s : string) :
  ~ In ":"%char (list_ascii_of_string s) -> split_colon actual s = [actual ++ s].
Proof.
  revert actual. induction s as [| c s IH]; intros actual H; cbn.
  - now rewrite append_vacia.
  - destruct (Ascii.eqb_spec c ":") as [-> | Hc].
    + exfalso. apply H. now left.
    + rewrite IH.
      * f_equal. clear. induction actual as [| a actual IHa]; cbn; [reflexivity |].
        now rewrite IHa.
      * intros Hin. apply H. now right.
Qed.

(** X6: A text with no colon gives [NaN] minutes, and a comparison with [NaN]
    is false: such a text is never within working hours, and the function
    does not fail on it. *)
Theorem validarHorarioLaboral_sin_dos_puntos (hora : string) (hi ni hf nf : nat) :
  ~ In ":"%char (list_ascii_of_string hora) ->
  hi <= 23 -> ni <= 59 -> hf <= 23 -> nf <= 59 ->
  validarHorarioLaboral hora (dos hi ++ ":" ++ dos ni) (dos hf ++ ":" ++ dos nf)
  = Some false.
Proof.
  intros H Hhi Hni Hhf Hnf. unfold validarHorarioLaboral.
  rewrite (minutos_HH_MM hi ni), (minutos_HH_MM hf nf) by assumption.
  unfold minutos. rewrite split_sin_dos_puntos by assumption. reflexivity.
Qed.

Lemma validarHorarioLaboral_sin_dos_puntos_witness :
  validarHorarioLaboral "1030" horaInicio_por_defecto horaFin_por_defecto = Some false.
Proof.
  apply (validarHorarioLaboral_sin_dos_puntos "1030" 9 0 18 0); try lia.
  cbn. intros [H | [H | [H | [H | []]]]]; discriminate.
Defined.

End ValidacionesExtra.


(* ===================================================================== *)
(** ** The date [toISOString] writes                                      *)
(* ===================================================================== *)

Module CalendarioFacts.
Import Validaciones ValidacionesFacts ValidacionesExtra.

(** [P] on the [n] integers from [desde] on. *)
Fixpoint todos (P : Z -> bool) (desde : Z) (n : nat) : bool :=
  match n with
  | O => true
  | S n' => P desde && todos P (desde + 1) n'
  end.

Lemma todos_spec (P : Z -> bool) (n : nat) :
  forall desde : Z,
    todos P desde n = true ->
    forall z, (desde <= z < desde + Z.of_nat n)%Z -> P z = true.
Proof.
  induction n as [| n IH]; intros desde H z Hz; [lia |].
  cbn [todos] in H. apply andb_true_iff in H. destruct H as [H0 H1].
  destruct (Z.eq_dec z desde) as [-> | Hne]; [exact H0 |].
  apply (IH (desde + 1)%Z H1). lia.
Qed.

(** What is checked of the civil date of a day number [z] of the 400 years
    from 1 March 0000 on: it is a day of the calendar, and [MakeDay] takes
    it back to [z]. *)
Definition fecha_civil_bien (z : Z) : bool :=
  let '(y, m, d) := JSDate.civil_from_days z in
  ((JSDate.MakeDay y (m - 1) d =? z)
   && (1 <=? m) && (m <=? 12) && (1 <=? d)
   && (d <=? Z.of_nat (dias_del_mes (Z.to_nat y) (Z.to_nat m)))
   && (0 <=? y) && (y <=? 400)
   && ((146037 <=? z + 719468) || (y <=? 399)))%Z.

Lemma una_era : todos fecha_civil_bien (-719468) (Z.to_nat 146097) = true.
Proof. vm_compute. reflexivity. Qed.

Lemma una_era_spec (z : Z) :
  (-719468 <= z < -719468 + 146097)%Z -> fecha_civil_bien z = true.
Proof.
  intros H. apply (todos_spec fecha_civil_bien (Z.to_nat 146097) (-719468) una_era).
  rewrite Z2Nat.id; lia.
Qed.

Lemma civil_from_days_era (z k : Z) :
  JSDate.civil_from_days (z + 146097 * k)
  = let '(y, m, d) := JSDate.civil_from_days z in ((y + 400 * k)%Z, m, d).
Proof.
  unfold JSDate.civil_from_days. cbv zeta.
  replace (z + 146097 * k + 719468)%Z with (z + 719468 + k * 146097)%Z by lia.
  rewrite Z.div_add by lia.
  set (z' := (z + 719468)%Z). set (era := (z' / 146097)%Z).
  replace (z' + k * 146097 - (era + k) * 146097)%Z with (z' - era * 146097)%Z by lia.
  f_equal. f_equal. lia.
Qed.

Lemma DayFromYear_era (y k : Z) :
  JSDate.DayFromYear (y + 400 * k) = (JSDate.DayFromYear y + 146097 * k)%Z.
Proof.
  unfold JSDate.DayFromYear.
  replace (y + 400 * k - 1969)%Z with (y - 1969 + (100 * k) * 4)%Z by lia.
  replace (y + 400 * k - 1901)%Z with (y - 1901 + (4 * k) * 100)%Z by lia.
  replace (y + 400 * k - 1601)%Z with (y - 1601 + k * 400)%Z by lia.
  rewrite !Z.div_add by lia. lia.
Qed.

Lemma InLeapYear_era (y k : Z) : JSDate.InLeapYear (y + 400 * k) = JSDate.InLeapYear y.
Proof.
  unfold JSDate.InLeapYear.
  replace ((y + 400 * k) mod 4)%Z with (y mod 4)%Z
    by (replace (y + 400 * k)%Z with (y + (100 * k) * 4)%Z by lia;
        now rewrite Z.mod_add by lia).
  replace ((y + 400 * k) mod 100)%Z with (y mod 100)%Z
    by (replace (y + 400 * k)%Z with (y + (4 * k) * 100)%Z by lia;
        now rewrite Z.mod_add by lia).
  replace ((y + 400 * k) mod 400)%Z with (y mod 400)%Z
    by (replace (y + 400 * k)%Z with (y + k * 400)%Z by lia;
        now rewrite Z.mod_add by lia).
  reflexivity.
Qed.

Lemma MakeDay_era (y m d k : Z) :
  JSDate.MakeDay (y + 400 * k) m d = (JSDate.MakeDay y m d + 146097 * k)%Z.
Proof.
  unfold JSDate.MakeDay. rewrite DayFromYear_era, InLeapYear_era. lia.
Qed.

Lemma dias_del_mes_era (y k : Z) (m : nat) :
  (0 <= y)%Z -> (0 <= k)%Z ->
  dias_del_mes (Z.to_nat (y + 400 * k)) m = dias_del_mes (Z.to_nat y) m.
Proof.
  intros Hy Hk. unfold dias_del_mes.
  rewrite !Z2Nat.id by lia. now rewrite InLeapYear_era.
Qed.

(** The civil date of every day number from 1 March 0000 on is a day of the
    calendar that [MakeDay] takes back to the number; up to 31 December
    9999 its year has four digits. *)
Lemma civil_from_days_bien (z : Z) :
  (-719468 <= z)%Z ->
  let '(y, m, d) := JSDate.civil_from_days z in
  JSDate.MakeDay y (m - 1) d = z
  /\ (1 <= m <= 12)%Z
  /\ (1 <= d <= Z.of_nat (dias_del_mes (Z.to_nat y) (Z.to_nat m)))%Z
  /\ (0 <= y)%Z
  /\ ((z < 2932897)%Z -> (y <= 9999)%Z).
Proof.
  intros Hz.
  set (k := ((z + 719468) / 146097)%Z).
  set (z0 := (z - 146097 * k)%Z).
  assert (Hk : (0 <= k)%Z) by (apply Z.div_pos; lia).
  assert (Hz0 : (-719468 <= z0 < -719468 + 146097)%Z).
  { pose proof (Z.div_mod (z + 719468) 146097 ltac:(lia)) as E.
    pose proof (Z.mod_pos_bound (z + 719468) 146097 ltac:(lia)) as M.
    fold k in E. unfold z0. clearbody k. lia. }
  assert (Hk24 : (z < 2932897 -> k <= 24)%Z).
  { intros Hmax. unfold k. apply Z.lt_succ_r. apply Z.div_lt_upper_bound; lia. }
  assert (Hzk : z = (z0 + 146097 * k)%Z) by (unfold z0; clearbody k; lia).
  clearbody z0 k. subst z.
  pose proof (una_era_spec z0 Hz0) as B.
  rewrite civil_from_days_era. unfold fecha_civil_bien in B.
  destruct (JSDate.civil_from_days z0) as [[y m] d].
  rewrite !andb_true_iff, orb_true_iff, Z.eqb_eq, !Z.leb_le in B.
  destruct B as (((((((B1 & B2) & B3) & B4) & B5) & B6) & B7) & B8).
  rewrite MakeDay_era, B1.
  rewrite dias_del_mes_era by lia.
  split; [lia |]. split; [lia |]. split; [lia |]. split; [lia |].
  intros Hmax. specialize (Hk24 Hmax).
  destruct (Z.eq_dec k 24) as [E | E]; [| lia].
  destruct B8 as [B8 | B8]; lia.
Qed.

(** [toISOString().split("T")[0]] is the date of the UTC day of the instant:
    the text of a day of the calendar whose day number is the number of whole
    days since the epoch (for the instants from 1970 to 9999). *)
Lemma toISODate_fecha_UTC (ahora : Z) :
  (0 <= ahora < 253402300800000)%Z ->
  exists y m d : nat,
    JSDate.toISODate ahora = fecha_de y m d
    /\ (Z.of_nat y <= 9999)%Z /\ 1 <= m <= 12 /\ 1 <= d <= dias_del_mes y m
    /\ dia_de y m d = (ahora / JSDate.msPerDay)%Z.
Proof.
  intros H. unfold JSDate.toISODate.
  assert (Hz : (0 <= ahora / JSDate.msPerDay < 2932897)%Z).
  { unfold JSDate.msPerDay. split; [apply Z.div_pos; lia |].
    apply Z.div_lt_upper_bound; lia. }
  pose proof (civil_from_days_bien (ahora / JSDate.msPerDay) ltac:(lia)) as B.
  destruct (JSDate.civil_from_days (ahora / JSDate.msPerDay)) as [[y m] d].
  destruct B as (B1 & B2 & B3 & B4 & B5). specialize (B5 ltac:(lia)).
  exists (Z.to_nat y), (Z.to_nat m), (Z.to_nat d).
  assert ((0 <=? y) && (y <=? 9999) = true)%Z as ->
    by (rewrite andb_true_iff, !Z.leb_le; lia).
  unfold fecha_de, dos, dia_de. rewrite !Z2Nat.id by lia.
  split; [reflexivity |]. repeat split; try lia.
Qed.

End CalendarioFacts.


(* ===================================================================== *)
(** ** The requests of the service, answered by the table                 *)
(* ===================================================================== *)

Module StoreFacts.
Import Async Turnos Postgres Ejecucion.

Lemma compare_refl (s : string) : String.compare s s = Eq.
Proof.
  pose proof (String.compare_antisym s s) as H.
  destruct (String.compare s s); (reflexivity || discriminate H).
Qed.

Lemma igual_num (a b : Z) :
  match (a ?= b)%Z with Eq => true | _ => false end = (a =? b)%Z.
Proof.
  destruct (Z.compare_spec a b); symmetry;
    [apply Z.eqb_eq; assumption | apply Z.eqb_neq; lia | apply Z.eqb_neq; lia].
Qed.

Lemma mayor_igual_num (a b : Z) :
  match (a ?= b)%Z with Lt => false | _ => true end = (b <=? a)%Z.
Proof.
  destruct (Z.compare_spec a b); symmetry;
    [apply Z.leb_le; lia | apply Z.leb_gt; lia | apply Z.leb_le; lia].
Qed.

Lemma menor_igual_num (a b : Z) :
  match (a ?= b)%Z with Gt => false | _ => true end = (a <=? b)%Z.
Proof.
  destruct (Z.compare_spec a b); symmetry;
    [apply Z.leb_le; lia | apply Z.leb_le; lia | apply Z.leb_gt; lia].
Qed.

Lemma igual_texto (a b : string) :
  match String.compare a b with Eq => true | _ => false end = (a =? b).
Proof.
  destruct (String.eqb_spec a b) as [E | N].
  - subst. rewrite compare_refl. reflexivity.
  - destruct (String.compare a b) eqn:C; try reflexivity.
    apply String.compare_eq_iff in C. contradiction.
Qed.

Lemma igual_estado (e : Estado) :
  match String.compare (texto_estado e) "confirmado" with Eq => true | _ => false end
  = es_confirmado e.
Proof. destruct e; reflexivity. Qed.

Lemma ordena_nil (l : list Fila) : ordena [] l = l.
Proof. induction l as [| a l IH]; simpl; [| rewrite IH; destruct l]; reflexivity. Qed.

(** *** Rows and the primary key *)

Lemma filter_id_ausente (u : string) (t : list Fila) :
  (forall f, In f t -> f_id f <> u) -> filter (fun g => f_id g =? u) t = [].
Proof.
  induction t as [| a t IH]; intros H; simpl; [reflexivity |].
  destruct (String.eqb_spec (f_id a) u) as [E | N].
  - exfalso. apply (H a); simpl; auto.
  - apply IH. intros f Hf. apply H. simpl. auto.
Qed.

Lemma filter_id_unico (f : Fila) (t : list Fila) :
  NoDup (map f_id t) -> In f t -> filter (fun g => f_id g =? f_id f) t = [f].
Proof.
  induction t as [| a t IH]; intros N H; simpl in *; [contradiction |].
  inversion N as [| ? ? Ha Nt]; subst.
  destruct H as [-> | H].
  - rewrite String.eqb_refl. f_equal. apply filter_id_ausente.
    intros g Hg E. apply Ha. rewrite <- E. apply in_map. exact Hg.
  - destruct (String.eqb_spec (f_id a) (f_id f)) as [E | _].
    + exfalso. apply Ha. rewrite E. apply in_map. exact H.
    + apply IH; assumption.
Qed.

Lemma con_estado_mismo (f : Fila) : con_estado (f_estado f) f = f.
Proof. destruct f; reflexivity. Qed.

(** Cancelling by [id] touches the rows of that [id] only, and a cancelled
    row is as it was. *)
Lemma cancelar_cancelado (u : string) (t : list Fila) :
  (forall f, In f t -> f_id f = u -> f_estado f = cancelado) ->
  map (fun f => if f_id f =? u then con_estado cancelado f else f) t = t.
Proof.
  induction t as [| a t IH]; intros H; simpl; [reflexivity |].
  rewrite IH by (intros f Hf; apply H; simpl; auto). f_equal.
  destruct (String.eqb_spec (f_id a) u) as [E | _]; [| reflexivity].
  rewrite <- (H a) by (simpl; auto). apply con_estado_mismo.
Qed.

Lemma cancelar_dos_veces (u : string) (t : list Fila) :
  let cancela := map (fun f => if f_id f =? u then con_estado cancelado f else f) in
  cancela (cancela t) = cancela t.
Proof.
  intros cancela. apply cancelar_cancelado. intros f Hf E.
  apply in_map_iff in Hf. destruct Hf as (g & <- & _). revert E.
  destruct (String.eqb_spec (f_id g) u); intros E; [reflexivity | contradiction].
Qed.

(** *** [ORDER BY fecha, hora] *)

(** The order of slots: by date, then by time. *)
Definition no_despues (a b : Fila) : Prop :=
  (f_fecha a < f_fecha b)%Z \/ (f_fecha a = f_fecha b /\ (f_hora a <= f_hora b)%Z).

Lemma antes_no_despues (a b : Fila) :
  antes [col_fecha; col_hora] a b = true <-> no_despues a b.
Proof.
  unfold antes, no_despues. simpl.
  destruct (Z.compare_spec (f_fecha a) (f_fecha b));
    destruct (Z.compare_spec (f_hora a) (f_hora b));
    split; intros; try discriminate; try reflexivity; lia.
Qed.

Lemma no_despues_total (a b : Fila) :
  antes [col_fecha; col_hora] a b = false -> no_despues b a.
Proof.
  unfold antes, no_despues. simpl.
  destruct (Z.compare_spec (f_fecha a) (f_fecha b));
    destruct (Z.compare_spec (f_hora a) (f_hora b));
    intros; try discriminate; lia.
Qed.

Lemma no_despues_trans (a b c : Fila) :
  no_despues a b -> no_despues b c -> no_despues a c.
Proof. unfold no_despues. lia. Qed.

Lemma inserta_perm (cs : list Columna) (a : Fila) (l : list Fila) :
  Permutation (inserta cs a l) (a :: l).
Proof.
  induction l as [| b l IH]; simpl; [apply Permutation_refl |].
  destruct (antes cs a b); [apply Permutation_refl |].
  eapply perm_trans; [apply perm_skip, IH | apply perm_swap].
Qed.

Lemma ordena_perm (cs : list Columna) (l : list Fila) : Permutation (ordena cs l) l.
Proof.
  induction l as [| a l IH]; simpl; [apply perm_nil |].
  eapply perm_trans; [apply inserta_perm | apply perm_skip, IH].
Qed.

Lemma inserta_ordenada (a : Fila) (l : list Fila) :
  StronglySorted no_despues l ->
  StronglySorted no_despues (inserta [col_fecha; col_hora] a l).
Proof.
  induction l as [| b l IH]; intros S; simpl.
  - constructor; [constructor | constructor].
  - inversion S as [| ? ? Sl Hb]; subst.
    destruct (antes [col_fecha; col_hora] a b) eqn:E.
    + constructor; [exact S |]. apply antes_no_despues in E.
      constructor; [exact E |].
      eapply Forall_impl; [| exact Hb]. intros c Hc.
      eapply no_despues_trans; eassumption.
    + constructor; [apply IH; exact Sl |].
      apply no_despues_total in E.
      eapply Permutation_Forall; [apply Permutation_sym, inserta_perm |].
      constructor; assumption.
Qed.

Lemma ordena_ordenada (l : list Fila) :
  StronglySorted no_despues (ordena [col_fecha; col_hora] l).
Proof.
  induction l as [| a l IH]; simpl; [constructor | apply inserta_ordenada, IH].
Qed.

Section Servidor.

Variable pg : Tipos.

(** [verificarDisponibilidad]: at most one confirmed row of the slot. *)
Lemma ejecutar_disponibilidad (df : Defaults) (fecha hora : string) (d h : Z)
    (t : list Fila) :
  date_in pg fecha = inr d -> time_in pg hora = inr h ->
  ejecutar pg df ("turnos" |> q_select "id" |> q_eq "fecha" fecha
                  |> q_eq "hora" hora |> q_eq "estado" "confirmado" |> q_limit 1) t
  = (resuelta (d_filas (map (a_json pg) (firstn 1 (filter (ocupa d h) t)))), t).
Proof.
  intros Hd Hh. unfold ejecutar. cbn -[firstn ordena filter]. rewrite Hd, Hh.
  cbn -[firstn ordena filter]. rewrite ordena_nil.
  rewrite (@filter_ext _ _ (ocupa d h)); [reflexivity |].
  intros f. rewrite !igual_num, igual_estado, andb_true_r. unfold ocupa.
  rewrite andb_assoc. reflexivity.
Qed.

(** [crearTurno]: the primary key and the partial unique index decide. *)
Lemma ejecutar_insercion (df : Defaults) (v : Valores) (f : Fila) (t : list Fila) :
  fila_nueva pg df v = inr f ->
  ejecutar pg df ("turnos" |> q_insert v |> q_returning |> q_single) t
  = if existsb (fun g => f_id g =? f_id f) t
    then (fallida (e_unico "turnos_pkey"), t)
    else if es_confirmado (f_estado f) && existsb (ocupa (f_fecha f) (f_hora f)) t
         then (fallida (e_unico "unique_turno_activo"), t)
         else (resuelta (d_fila (a_json pg f)), (t ++ [f])%list).
Proof.
  intros Hf. unfold ejecutar. cbn -[existsb]. rewrite Hf.
  destruct (existsb _ t); [reflexivity |].
  destruct (es_confirmado (f_estado f) && _); reflexivity.
Qed.

(** [cancelarTurno] and [obtenerTurnoPorId]: the rows of one [id]. *)
Lemma ejecutar_cancelacion (df : Defaults) (turnoId u : string) (t : list Fila) :
  uuid_in pg turnoId = inr u ->
  ejecutar pg df ("turnos" |> q_update cancelado |> q_eq "id" turnoId
                  |> q_returning |> q_single) t
  = match filter (fun f => f_id f =? u) t with
    | [f] =>
        (resuelta (d_fila (a_json pg (con_estado cancelado f))),
         map (fun f => if f_id f =? u then con_estado cancelado f else f) t)
    | _ => (fallida e_single, t)
    end.
Proof.
  intros Hu. unfold ejecutar. cbn -[filter map]. rewrite Hu. cbn -[filter map].
  rewrite (@filter_ext _ _ (fun f => f_id f =? u))
    by (intros f; cbv beta; rewrite igual_texto, andb_true_r; reflexivity).
  destruct (filter _ t) as [| f [| g l]]; cbn [map]; try reflexivity.
  f_equal. apply map_ext. intros a. rewrite igual_texto, andb_true_r. reflexivity.
Qed.

Lemma ejecutar_busqueda (df : Defaults) (turnoId u : string) (t : list Fila) :
  uuid_in pg turnoId = inr u ->
  ejecutar pg df ("turnos" |> q_select "*" |> q_eq "id" turnoId |> q_single) t
  = match filter (fun f => f_id f =? u) t with
    | [f] => (resuelta (d_fila (a_json pg f)), t)
    | _ => (fallida e_single, t)
    end.
Proof.
  intros Hu. unfold ejecutar. cbn -[filter ordena]. rewrite Hu. cbn -[filter ordena].
  rewrite ordena_nil.
  rewrite (@filter_ext _ _ (fun f => f_id f =? u))
    by (intros f; cbv beta; rewrite igual_texto, andb_true_r; reflexivity).
  destruct (filter _ t) as [| f [| g l]]; reflexivity.
Qed.

(** [listarTurnos] with both dates: the confirmed rows of the range, in the
    order of their slots. *)
Lemma ejecutar_listado (df : Defaults) (desde hasta : string) (d1 d2 : Z)
    (t : list Fila) :
  date_in pg desde = inr d1 -> date_in pg hasta = inr d2 ->
  ejecutar pg df ("turnos" |> q_select "*" |> q_gte "fecha" desde
                  |> q_lte "fecha" hasta |> q_eq "estado" "confirmado"
                  |> q_order "fecha" |> q_order "hora") t
  = (resuelta (d_filas (map (a_json pg)
       (ordena [col_fecha; col_hora]
          (filter (fun f => (d1 <=? f_fecha f)%Z && (f_fecha f <=? d2)%Z
                            && es_confirmado (f_estado f)) t)))), t).
Proof.
  intros H1 H2. unfold ejecutar. cbn -[filter ordena]. rewrite H1, H2.
  cbn -[filter ordena].
  rewrite (@filter_ext _ _ (fun f => (d1 <=? f_fecha f)%Z && (f_fecha f <=? d2)%Z
                                     && es_confirmado (f_estado f))); [reflexivity |].
  intros f. rewrite mayor_igual_num, menor_igual_num, igual_estado, andb_true_r.
  rewrite andb_assoc. reflexivity.
Qed.

(** With [.single()], a response without error carries a row. *)
Lemma single_sin_error (df : Defaults) (q : Consulta) (t : list Fila) :
  c_single q = true ->
  error (fst (ejecutar pg df q t)) = None ->
  exists f, data (fst (ejecutar pg df q t)) = d_fila f.
Proof.
  intros Hs. unfold ejecutar.
  assert (E : forall filas t1 t2,
             error (fst (entrega pg q filas t1 t2)) = None ->
             exists f, data (fst (entrega pg q filas t1 t2)) = d_fila f).
  { intros filas t1 t2. unfold entrega. rewrite Hs.
    destruct (match c_limite q with Some n => firstn n filas | None => filas end)
      as [| f [| g l]]; simpl; intros H; try discriminate. eauto. }
  destruct (negb (c_tabla q =? "turnos")); [simpl; discriminate |].
  destruct (condicion pg (c_filtros q)); [simpl; discriminate |].
  destruct (columnas_de (c_orden q)); [simpl; discriminate |].
  destruct (c_verbo q).
  - apply E.
  - destruct (fila_nueva pg df valores); [simpl; discriminate |].
    destruct (existsb _ t); [simpl; discriminate |].
    destruct (_ && _); [simpl; discriminate | apply E].
  - destruct (_ && _); [simpl; discriminate | apply E].
Qed.

(** *** A call run alone: sequencing and [try]/[catch] *)

Lemma ejecuta_bind {A B : Type} (x : Exterior) (p : Prog A) (k : A -> Prog B) :
  forall t,
    ejecuta pg x (bind_prog p k) t
    = match ejecuta pg x p t with
      | (Devuelve a, t', evs) =>
          let '(f, t'', evs') := ejecuta pg x (k a) t' in (f, t'', (evs ++ evs')%list)
      | (Lanza m, t', evs) => (Lanza m, t', evs)
      end.
Proof.
  induction p as [a | m | q k' IH | c k' IH]; intros t; simpl.
  - destruct (ejecuta pg x (k a) t) as [[f t'] evs]. reflexivity.
  - reflexivity.
  - destruct (ejecutar pg (defaults x) q t) as [r t1]. rewrite IH.
    destruct (ejecuta pg x (k' r) t1) as [[[a | m] t2] evs]; [| reflexivity].
    destruct (ejecuta pg x (k a) t2) as [[f t3] evs']. reflexivity.
  - rewrite IH.
    destruct (ejecuta pg x (k' (envio x)) t) as [[[a | m] t2] evs]; [| reflexivity].
    destruct (ejecuta pg x (k a) t2) as [[f t3] evs']. reflexivity.
Qed.

Lemma ejecuta_catch {A : Type} (x : Exterior) (p : Prog A) (h : string -> Prog A) :
  forall t,
    ejecuta pg x (catch_prog p h) t
    = match ejecuta pg x p t with
      | (Devuelve a, t', evs) => (Devuelve a, t', evs)
      | (Lanza m, t', evs) =>
          let '(f, t'', evs') := ejecuta pg x (h m) t' in (f, t'', (evs ++ evs')%list)
      end.
Proof.
  induction p as [a | m | q k' IH | c k' IH]; intros t; simpl.
  - reflexivity.
  - destruct (ejecuta pg x (h m) t) as [[f t'] evs]. reflexivity.
  - destruct (ejecutar pg (defaults x) q t) as [r t1]. rewrite IH.
    destruct (ejecuta pg x (k' r) t1) as [[[a | m] t2] evs]; [reflexivity |].
    destruct (ejecuta pg x (h m) t2) as [[f t3] evs']. reflexivity.
  - rewrite IH.
    destruct (ejecuta pg x (k' (envio x)) t) as [[[a | m] t2] evs]; [reflexivity |].
    destruct (ejecuta pg x (h m) t2) as [[f t3] evs']. reflexivity.
Qed.

End Servidor.

End StoreFacts.


(* ===================================================================== *)
(** ** The functions of [turnos.ts] and [email.ts], run against the table *)
(* ===================================================================== *)

Module TurnosFacts.
Import Async Turnos Postgres Ejecucion StoreFacts.

Lemma hay_fila {A : Type} (g : Fila -> A) (p : Fila -> bool) (t : list Fila) :
  Nat.eqb (List.length (map g (firstn 1 (filter p t)))) 0 = negb (existsb p t).
Proof.
  induction t as [| a t IH]; simpl; [reflexivity |].
  destruct (p a); simpl; [reflexivity | exact IH].
Qed.


Section Servidor.

Variable pg : Tipos.

Lemma verificarDisponibilidad_corre (x : Exterior) (fecha hora : string) (d h : Z)
    (t : list Fila) :
  date_in pg fecha = inr d -> time_in pg hora = inr h ->
  ejecuta pg x (verificarDisponibilidad fecha hora) t
  = (Devuelve (negb (existsb (ocupa d h) t)), t,
     [ev_consulta ("turnos" |> q_select "id" |> q_eq "fecha" fecha |> q_eq "hora" hora
                   |> q_eq "estado" "confirmado" |> q_limit 1)]).
Proof.
  intros Hd Hh. unfold verificarDisponibilidad, await.
  cbn [bind Monad_Prog bind_prog ejecuta].
  rewrite (ejecutar_disponibilidad pg (defaults x) _ _ _ _ t Hd Hh).
  cbn [error resuelta data arreglo ret Monad_Prog ejecuta].
  rewrite hay_fila. reflexivity.
Qed.

(** The values [crearTurno] sends for a draft. *)
Definition valores_de (turno : NuevoTurno) : Valores :=
  {| v_fecha := n_fecha turno;
     v_hora := n_hora turno;
     v_nombre_cliente := n_nombre_cliente turno;
     v_email := n_email turno;
     v_estado := match n_estado turno with
                 | Some e => e
                 | None => confirmado
                 end |}.

Lemma crearTurno_corre (x : Exterior) (turno : NuevoTurno) (f : Fila) (t : list Fila) :
  fila_nueva pg (defaults x) (valores_de turno) = inr f ->
  ejecuta pg x (crearTurno turno) t
  = let ev := [ev_consulta ("turnos" |> q_insert (valores_de turno)
                            |> q_returning |> q_single)] in
    if existsb (fun g => f_id g =? f_id f) t
    then (Lanza ("Error al crear turno: " ++ message (e_unico "turnos_pkey")), t, ev)
    else if es_confirmado (f_estado f) && existsb (ocupa (f_fecha f) (f_hora f)) t
         then (Lanza ("Error al crear turno: " ++ message (e_unico "unique_turno_activo")),
               t, ev)
         else (Devuelve (Some (a_json pg f)), (t ++ [f])%list, ev).
Proof.
  intros Hf. unfold crearTurno, await.
  cbn [bind Monad_Prog bind_prog ejecuta].
  change {| v_fecha := n_fecha turno; v_hora := n_hora turno;
            v_nombre_cliente := n_nombre_cliente turno; v_email := n_email turno;
            v_estado := match n_estado turno with
                        | Some e => e
                        | None => confirmado
                        end |} with (valores_de turno).
  rewrite (ejecutar_insercion pg _ _ _ t Hf).
  destruct (existsb _ t); [reflexivity |].
  destruct (es_confirmado (f_estado f) && _); reflexivity.
Qed.

Lemma cancelarTurno_corre (x : Exterior) (turnoId u : string) (t : list Fila) :
  uuid_in pg turnoId = inr u ->
  ejecuta pg x (cancelarTurno turnoId) t
  = let ev := [ev_consulta ("turnos" |> q_update cancelado |> q_eq "id" turnoId
                            |> q_returning |> q_single)] in
    match filter (fun f => f_id f =? u) t with
    | [f] =>
        (Devuelve (a_json pg (con_estado cancelado f)),
         map (fun f => if f_id f =? u then con_estado cancelado f else f) t, ev)
    | _ => (Lanza ("Error al cancelar turno: " ++ message e_single), t, ev)
    end.
Proof.
  intros Hu. unfold cancelarTurno, await.
  cbn [bind Monad_Prog bind_prog ejecuta].
  rewrite (ejecutar_cancelacion pg (defaults x) _ _ t Hu).
  destruct (filter _ t) as [| f [| g l]]; reflexivity.
Qed.

Lemma obtenerTurnoPorId_corre (x : Exterior) (turnoId u : string) (t : list Fila) :
  uuid_in pg turnoId = inr u ->
  ejecuta pg x (obtenerTurnoPorId turnoId) t
  = let ev := [ev_consulta ("turnos" |> q_select "*" |> q_eq "id" turnoId |> q_single)] in
    match filter (fun f => f_id f =? u) t with
    | [f] => (Devuelve (Some (a_json pg f)), t, ev)
    | _ => (Devuelve None, t, ev)
    end.
Proof.
  intros Hu. unfold obtenerTurnoPorId, await.
  cbn [bind Monad_Prog bind_prog ejecuta].
  rewrite (ejecutar_busqueda pg (defaults x) _ _ t Hu).
  destruct (filter _ t) as [| f [| g l]]; reflexivity.
Qed.

Lemma listarTurnos_corre (x : Exterior) (desde hasta : string) (d1 d2 : Z)
    (t : list Fila) :
  desde <> "" -> hasta <> "" ->
  date_in pg desde = inr d1 -> date_in pg hasta = inr d2 ->
  ejecuta pg x (listarTurnos (Some desde) (Some hasta) true) t
  = (Devuelve (map (a_json pg)
       (ordena [col_fecha; col_hora]
          (filter (fun f => (d1 <=? f_fecha f)%Z && (f_fecha f <=? d2)%Z
                            && es_confirmado (f_estado f)) t))),
     t,
     [ev_consulta ("turnos" |> q_select "*" |> q_gte "fecha" desde
                   |> q_lte "fecha" hasta |> q_eq "estado" "confirmado"
                   |> q_order "fecha" |> q_order "hora")]).
Proof.
  intros N1 N2 H1 H2. unfold listarTurnos, await.
  apply String.eqb_neq in N1, N2. rewrite N1, N2.
  cbn [bind Monad_Prog bind_prog ejecuta].
  rewrite (ejecutar_listado pg (defaults x) _ _ _ _ t H1 H2).
  reflexivity.
Qed.

Lemma enviarEmailConfirmacion_corre (x : Exterior) (datos : DatosEmail) (t : list Fila) :
  exists m,
    ejecuta pg x (enviarEmailConfirmacion datos) t
    = (Devuelve (match envio x with None => true | Some _ => false end), t,
       [ev_correo m])
    /\ to m = de_email datos /\ html_datos m = datos.
Proof.
  eexists. split.
  - unfold enviarEmailConfirmacion, sendMail. simpl. destruct (envio x); reflexivity.
  - split; reflexivity.
Qed.

End Servidor.

End TurnosFacts.


(* ===================================================================== *)
(** ** The tools                                                         *)
(* ===================================================================== *)

Module ToolsFacts.
Import Async Turnos Tools Validaciones Postgres Ejecucion.
Import StoreFacts TurnosFacts PostgresISO Ejemplos.

(** The input of [toolReservarTurno] passes its four checks. *)
Definition pasa_validacion (zona ahora : Z) (args : ArgsReserva) : bool :=
  validarFormatoFecha zona (ar_fecha args)
  && validarFormatoHora (ar_hora args)
  && validarFechaFutura zona ahora (ar_fecha args)
  && validarFechaHoraFutura zona ahora (ar_fecha args) (ar_hora args).

(** The values [toolReservarTurno] has [crearTurno] insert. *)
Definition valores_reserva (args : ArgsReserva) : Valores :=
  {| v_fecha := ar_fecha args;
     v_hora := ar_hora args;
     v_nombre_cliente := ar_nombre_cliente args;
     v_email := ar_email args;
     v_estado := confirmado |}.

(** The request [verificarDisponibilidad] makes. *)
Definition consulta_disponibilidad (fecha hora : string) : Consulta :=
  "turnos" |> q_select "id" |> q_eq "fecha" fecha |> q_eq "hora" hora
  |> q_eq "estado" "confirmado" |> q_limit 1.

Lemma pasa_validacion_true (zona ahora : Z) (args : ArgsReserva) :
  pasa_validacion zona ahora args = true ->
  validarFormatoFecha zona (ar_fecha args) = true
  /\ validarFormatoHora (ar_hora args) = true
  /\ validarFechaFutura zona ahora (ar_fecha args) = true
  /\ validarFechaHoraFutura zona ahora (ar_fecha args) (ar_hora args) = true.
Proof.
  unfold pasa_validacion. rewrite !andb_true_iff. tauto.
Qed.

Lemma fila_nueva_inv (pg : Tipos) (df : Defaults) (v : Valores) (f : Fila) :
  fila_nueva pg df v = inr f ->
  date_in pg (v_fecha v) = inr (f_fecha f)
  /\ time_in pg (v_hora v) = inr (f_hora f)
  /\ f = {| f_id := gen_random_uuid df; f_fecha := f_fecha f; f_hora := f_hora f;
            f_nombre_cliente := v_nombre_cliente v; f_email := v_email v;
            f_estado := v_estado v; f_created_at := now df |}.
Proof.
  unfold fila_nueva.
  destruct (date_in pg (v_fecha v)) as [e | d]; [discriminate |].
  destruct (time_in pg (v_hora v)) as [e | h]; [discriminate |].
  intros E. injection E as <-. auto.
Qed.

(** C8: when the date or the time is malformed, or the date or the date and
    time are past, [toolReservarTurno] answers at once with a failure that
    says which check failed: it makes no request (to the database or to the
    mail transport) and the table is as it was. *)
Theorem reserva_invalida_no_toca_la_tabla (pg : Tipos) (zona ahora : Z)
    (args : ArgsReserva) (x : Exterior) (t : list Fila) :
  pasa_validacion zona ahora args = false ->
  exists r,
    toolReservarTurno zona ahora args = Ret r
    /\ ejecuta pg x (toolReservarTurno zona ahora args) t = (Devuelve r, t, [])
    /\ exito r = false
    /\ turno r = None
    /\ In (mensaje r)
         [mensaje_fecha_invalida (ar_fecha args);
          mensaje_hora_invalida (ar_hora args);
          mensaje_fecha_pasada (ar_fecha args);
          mensaje_fecha_hora_pasada (ar_fecha args) (ar_hora args)].
Proof.
  unfold pasa_validacion, toolReservarTurno. intros H.
  destruct (validarFormatoFecha zona (ar_fecha args));
    [| eexists; repeat split; simpl; auto].
  destruct (validarFormatoHora (ar_hora args));
    [| eexists; repeat split; simpl; auto].
  destruct (validarFechaFutura zona ahora (ar_fecha args));
    [| eexists; repeat split; simpl; auto].
  destruct (validarFechaHoraFutura zona ahora (ar_fecha args) (ar_hora args));
    [discriminate H | eexists; repeat split; simpl; auto 6].
Qed.

(** C8 at [reserve("2020-01-01", "10:00", "X", "x@x.com")], on a table that
    holds a row. *)
Lemma reserva_invalida_no_toca_la_tabla_witness :
  pasa_validacion 0 un_lunes pasado = false
  /\ exists r,
       toolReservarTurno 0 un_lunes pasado = Ret r
       /\ ejecuta postgres (con_correo id_2) (toolReservarTurno 0 un_lunes pasado)
            [fila_ana confirmado]
          = (Devuelve r, [fila_ana confirmado], [])
       /\ exito r = false
       /\ turno r = None
       /\ In (mensaje r)
            [mensaje_fecha_invalida (ar_fecha pasado);
             mensaje_hora_invalida (ar_hora pasado);
             mensaje_fecha_pasada (ar_fecha pasado);
             mensaje_fecha_hora_pasada (ar_fecha pasado) (ar_hora pasado)].
Proof.
  split; [vm_compute; reflexivity |].
  apply (reserva_invalida_no_toca_la_tabla postgres 0 un_lunes pasado).
  vm_compute; reflexivity.
Defined.

Lemma append_inj_l (p a b : string) : p ++ a = p ++ b -> a = b.
Proof.
  induction p as [| c p IH]; simpl; intros H; [exact H |].
  injection H as H. apply IH, H.
Qed.

(** The text [toolReservarTurno] puts after the confirmation when the mail
    went out. *)
Definition frase_email : string := " Se envió un email de confirmación a tu correo.".

(** What a successful reservation hands back for the row [f]. *)
Definition reserva_hecha (pg : Tipos) (args : ArgsReserva) (f : Fila)
    (mensajeEmail : string) : Resultado :=
  {| exito := true;
     mensaje := mensaje_reservado (ar_fecha args) (ar_hora args) (f_id f) mensajeEmail;
     turno := Some {| tr_id := f_id f;
                      tr_fecha := date_out pg (f_fecha f);
                      tr_hora := time_out pg (f_hora f) |} |}.

(** A success result reports a failure of the notifier when its message
    carries some text after the confirmation of the reservation (the result
    has no other field for it). *)
Definition avisa_fallo_de_correo (r : Resultado) (args : ArgsReserva) (id : string) : Prop :=
  exists aviso : string,
    aviso <> "" /\ mensaje r = mensaje_reservado (ar_fecha args) (ar_hora args) id aviso.

Section Servidor.

Variable pg : Tipos.

(** A valid reservation of a free slot, run alone: the row is stored and the
    call succeeds, whether the mail goes out or not. *)
Lemma reserva_corre (zona ahora : Z) (args : ArgsReserva) (x : Exterior)
    (t : list Fila) (f : Fila) :
  pasa_validacion zona ahora args = true ->
  fila_nueva pg (defaults x) (valores_reserva args) = inr f ->
  existsb (ocupa (f_fecha f) (f_hora f)) t = false ->
  existsb (fun g => f_id g =? f_id f) t = false ->
  exists m,
    ejecuta pg x (toolReservarTurno zona ahora args) t
    = (Devuelve (reserva_hecha pg args f
                   (match envio x with None => frase_email | Some _ => "" end)),
       (t ++ [f])%list,
       [ev_consulta (consulta_disponibilidad (ar_fecha args) (ar_hora args));
        ev_consulta ("turnos" |> q_insert (valores_reserva args)
                     |> q_returning |> q_single);
        ev_correo m])
    /\ to m = ar_email args.
Proof.
  intros Hv Hf Hlibre Hpk.
  apply pasa_validacion_true in Hv. destruct Hv as (V1 & V2 & V3 & V4).
  destruct (fila_nueva_inv _ _ _ _ Hf) as (Hd & Hh & Ef). simpl in Hd, Hh.
  unfold toolReservarTurno. rewrite V1, V2, V3, V4. cbn [negb].
  cbn [bind Monad_Prog catch Exception_Prog].
  rewrite ejecuta_bind, (verificarDisponibilidad_corre pg x _ _ _ _ t Hd Hh).
  rewrite Hlibre. cbn [negb].
  rewrite ejecuta_catch, ejecuta_bind.
  rewrite (crearTurno_corre pg x _ f t) by exact Hf.
  rewrite Hpk, Hlibre, andb_false_r. cbv zeta.
  destruct (enviarEmailConfirmacion_corre pg x
              {| de_email := ar_email args; de_nombre := ar_nombre_cliente args;
                 de_fecha := ar_fecha args; de_hora := ar_hora args;
                 de_turnoId := f_id f |} (t ++ [f])) as (m & Em & Hto & _).
  exists m. split; [| exact Hto].
  cbn [id a_json]. rewrite ejecuta_bind, Em.
  destruct (envio x); reflexivity.
Qed.

(** C9 (as the source has it): when the row is stored and the notifier
    fails, [toolReservarTurno] still answers with a success; the failure of
    the notifier is swallowed, and the message of the success is the
    confirmation alone, without the sentence on the mail and without a
    warning. *)
Theorem reserva_con_correo_fallido (zona ahora : Z) (args : ArgsReserva)
    (x : Exterior) (t : list Fila) (f : Fila) (err : string) :
  pasa_validacion zona ahora args = true ->
  fila_nueva pg (defaults x) (valores_reserva args) = inr f ->
  existsb (ocupa (f_fecha f) (f_hora f)) t = false ->
  existsb (fun g => f_id g =? f_id f) t = false ->
  envio x = Some err ->
  exists evs r,
    ejecuta pg x (toolReservarTurno zona ahora args) t = (Devuelve r, (t ++ [f])%list, evs)
    /\ r = reserva_hecha pg args f ""
    /\ exito r = true
    /\ ~ avisa_fallo_de_correo r args (f_id f).
Proof.
  intros Hv Hf Hlibre Hpk He.
  destruct (reserva_corre zona ahora args x t f Hv Hf Hlibre Hpk) as (m & E & _).
  rewrite He in E. eexists. eexists. split; [exact E |].
  split; [reflexivity |]. split; [reflexivity |].
  intros (aviso & Ha & Em). apply Ha.
  unfold reserva_hecha, mensaje_reservado in Em. cbn [mensaje] in Em.
  repeat (apply append_inj_l in Em). symmetry. exact Em.
Qed.

End Servidor.

(** C9 for Ana's reservation on an empty table, with the mail transport
    down. *)
Lemma reserva_con_correo_fallido_witness :
  (pasa_validacion 0 un_lunes ana = true
   /\ fila_nueva postgres (defaults (sin_correo id_1)) (valores_reserva ana)
      = inr (fila_ana confirmado)
   /\ envio (sin_correo id_1) = Some "connect ECONNREFUSED 127.0.0.1:465")
  /\ exists evs r,
       ejecuta postgres (sin_correo id_1) (toolReservarTurno 0 un_lunes ana) []
       = (Devuelve r, [fila_ana confirmado], evs)
       /\ r = reserva_hecha postgres ana (fila_ana confirmado) ""
       /\ exito r = true
       /\ ~ avisa_fallo_de_correo r ana id_1.
Proof.
  split; [repeat split; vm_compute; reflexivity |].
  apply (reserva_con_correo_fallido postgres 0 un_lunes ana (sin_correo id_1) []
           (fila_ana confirmado) "connect ECONNREFUSED 127.0.0.1:465");
    vm_compute; reflexivity.
Defined.

(** C9 (as the specification has it) fails: with the mail transport down on
    Ana's reservation the call succeeds, and its result carries no warning
    about the notifier. *)
Lemma reserva_sin_aviso_del_correo :
  exists r evs,
    ejecuta postgres (sin_correo id_1) (toolReservarTurno 0 un_lunes ana) []
    = (Devuelve r, [fila_ana confirmado], evs)
    /\ exito r = true
    /\ mensaje r = "¡Turno reservado con éxito! Tu turno está confirmado para el 2099-06-01 a las 14:00. Tu ID de turno es: a0000000-0000-0000-0000-000000000001."
    /\ ~ avisa_fallo_de_correo r ana id_1.
Proof.
  eexists. eexists. split; [vm_compute; reflexivity |].
  split; [reflexivity |]. split; [reflexivity |].
  intros (aviso & Ha & Em). apply Ha.
  unfold mensaje_reservado in Em. cbn [mensaje ar_fecha ar_hora ana id_1] in Em.
  change "¡Turno reservado con éxito! Tu turno está confirmado para el 2099-06-01 a las 14:00. Tu ID de turno es: a0000000-0000-0000-0000-000000000001."
    with ("¡Turno reservado con éxito! Tu turno está confirmado para el " ++ "2099-06-01"
          ++ " a las " ++ "14:00" ++ ". Tu ID de turno es: "
          ++ "a0000000-0000-0000-0000-000000000001" ++ "." ++ "") in Em.
  repeat (apply append_inj_l in Em). symmetry. exact Em.
Qed.

(** *** Cancelling *)

(** The request [cancelarTurno] makes. *)
Definition consulta_cancelacion (turnoId : string) : Consulta :=
  "turnos" |> q_update cancelado |> q_eq "id" turnoId |> q_returning |> q_single.

(** What a successful cancellation of the row [f] hands back. *)
Definition cancelacion_hecha (pg : Tipos) (f : Fila) : Resultado :=
  {| exito := true;
     mensaje := mensaje_cancelado (date_out pg (f_fecha f)) (time_out pg (f_hora f));
     turno := None |}.

Section Cancelar.

Variable pg : Tipos.

Lemma cancelar_corre (x : Exterior) (turnoId : string) (f : Fila) (t : list Fila) :
  uuid_in pg turnoId = inr (f_id f) -> In f t -> NoDup (map f_id t) ->
  ejecuta pg x (toolCancelarTurno {| turnoId := turnoId |}) t
  = (Devuelve (cancelacion_hecha pg f),
     map (fun g => if f_id g =? f_id f then con_estado cancelado g else g) t,
     [ev_consulta (consulta_cancelacion turnoId)]).
Proof.
  intros Hu Hin Hpk. unfold toolCancelarTurno.
  cbn [bind Monad_Prog catch Exception_Prog Tools.turnoId].
  rewrite ejecuta_catch, ejecuta_bind, (cancelarTurno_corre pg x _ _ t Hu).
  rewrite (filter_id_unico f t Hpk Hin). reflexivity.
Qed.

(** C5: cancelling a reservation that is already cancelled succeeds and
    leaves the table as it is; and whatever the state of the reservation,
    a second cancellation succeeds like the first and leaves the table as
    the first left it. *)
Theorem cancelar_un_turno_cancelado (x x' : Exterior) (turnoId : string) (f : Fila)
    (t : list Fila) :
  uuid_in pg turnoId = inr (f_id f) -> In f t -> NoDup (map f_id t) ->
  (f_estado f = cancelado ->
   ejecuta pg x (toolCancelarTurno {| turnoId := turnoId |}) t
   = (Devuelve (cancelacion_hecha pg f), t, [ev_consulta (consulta_cancelacion turnoId)]))
  /\ exists t1,
       ejecuta pg x (toolCancelarTurno {| turnoId := turnoId |}) t
       = (Devuelve (cancelacion_hecha pg f), t1,
          [ev_consulta (consulta_cancelacion turnoId)])
       /\ ejecuta pg x' (toolCancelarTurno {| turnoId := turnoId |}) t1
          = (Devuelve (cancelacion_hecha pg f), t1,
             [ev_consulta (consulta_cancelacion turnoId)])
       /\ In (con_estado cancelado f) t1.
Proof.
  intros Hu Hin Hpk. split.
  - intros Hc. rewrite (cancelar_corre x turnoId f t Hu Hin Hpk). repeat f_equal.
    apply cancelar_cancelado. intros g Hg E.
    assert (G : filter (fun g => f_id g =? f_id f) t = [f])
      by (apply filter_id_unico; assumption).
    assert (I : In g (filter (fun g => f_id g =? f_id f) t))
      by (apply filter_In; split; [exact Hg | apply String.eqb_eq; exact E]).
    rewrite G in I. destruct I as [<- | []]. exact Hc.
  - set (cancela := map (fun g => if f_id g =? f_id f then con_estado cancelado g else g)).
    assert (Hin' : In (con_estado cancelado f) (cancela t)).
    { apply in_map_iff. exists f. rewrite String.eqb_refl. auto. }
    assert (Hpk' : NoDup (map f_id (cancela t))).
    { unfold cancela. rewrite map_map.
      rewrite (@map_ext _ _ _ f_id); [exact Hpk |].
      intros g. destruct (f_id g =? f_id f); reflexivity. }
    exists (cancela t). split; [apply cancelar_corre; assumption |]. split; [| exact Hin'].
    rewrite (cancelar_corre x' turnoId (con_estado cancelado f) (cancela t)); try assumption.
    unfold cancelacion_hecha. cbn [f_fecha f_hora f_id con_estado].
    fold (cancelacion_hecha pg f). fold cancela.
    unfold cancela at 1. rewrite cancelar_dos_veces. reflexivity.
Qed.

(** For an [id] of no row the call hands back a failure (and throws
    nothing); its message is the error of [.single()] between two fixed
    texts, whatever the [id]. *)
Lemma cancelar_inexistente (x : Exterior) (turnoId u : string) (t : list Fila) :
  uuid_in pg turnoId = inr u -> (forall f, In f t -> f_id f <> u) ->
  ejecuta pg x (toolCancelarTurno {| turnoId := turnoId |}) t
  = (Devuelve {| exito := false;
                 mensaje := mensaje_error_cancelacion
                              ("Error al cancelar turno: " ++ message e_single);
                 turno := None |},
     t, [ev_consulta (consulta_cancelacion turnoId)]).
Proof.
  intros Hu Hno. unfold toolCancelarTurno.
  cbn [bind Monad_Prog catch Exception_Prog Tools.turnoId].
  rewrite ejecuta_catch, ejecuta_bind, (cancelarTurno_corre pg x _ _ t Hu).
  rewrite (filter_id_ausente u t Hno). reflexivity.
Qed.

(** The branch of [cancelarTurno] that names the [id] needs a response with
    neither an error nor a row, and the server never gives one to a request
    made with [.single()]. *)
Lemma cancelar_rama_muerta (df : Defaults) (turnoId : string) (t : list Fila) :
  let r := fst (ejecutar pg df (consulta_cancelacion turnoId) t) in
  respondido (cancelarTurno turnoId) r
  <> Throw ("No se encontró el turno con id: " ++ turnoId).
Proof.
  intros r. unfold cancelarTurno, await. cbn [bind Monad_Prog bind_prog respondido].
  destruct (error r) as [e |] eqn:E.
  - simpl. discriminate.
  - destruct (single_sin_error pg df (consulta_cancelacion turnoId) t eq_refl E) as (f & D).
    fold r in D. rewrite D. discriminate.
Qed.

End Cancelar.

(** C5 for Ana's reservation, already cancelled. *)
Lemma cancelar_un_turno_cancelado_witness :
  (uuid_in postgres id_1 = inr (f_id (fila_ana cancelado))
   /\ In (fila_ana cancelado) [fila_ana cancelado]
   /\ NoDup (map f_id [fila_ana cancelado]))
  /\ ejecuta postgres (con_correo id_2) (toolCancelarTurno {| turnoId := id_1 |})
       [fila_ana cancelado]
     = (Devuelve (cancelacion_hecha postgres (fila_ana cancelado)), [fila_ana cancelado],
        [ev_consulta (consulta_cancelacion id_1)]).
Proof.
  assert (H1 : uuid_in postgres id_1 = inr (f_id (fila_ana cancelado)))
    by (vm_compute; reflexivity).
  assert (H2 : In (fila_ana cancelado) [fila_ana cancelado]) by (left; reflexivity).
  assert (H3 : NoDup (map f_id [fila_ana cancelado]))
    by (constructor; [intros [] | constructor]).
  split; [auto |].
  apply (proj1 (cancelar_un_turno_cancelado postgres (con_correo id_2) (con_correo id_2)
                  id_1 (fila_ana cancelado) [fila_ana cancelado] H1 H2 H3)).
  reflexivity.
Defined.

(** C6: cancelling an [id] that no row has.  The call hands back a failure,
    and the message does not hold the [id]: it is the text of PostgREST for
    a [.single()] request that found no row. *)
Theorem cancelar_inexistente_no_nombra_el_id :
  forall x : Exterior,
    ejecuta postgres x (toolCancelarTurno {| turnoId := id_ausente |}) [fila_ana confirmado]
    = (Devuelve {| exito := false;
                   mensaje := "No se pudo cancelar el turno: Error al cancelar turno: JSON object requested, multiple (or no) rows returned. Verifica que el ID del turno sea correcto.";
                   turno := None |},
       [fila_ana confirmado], [ev_consulta (consulta_cancelacion id_ausente)])
    /\ index 0 id_ausente
         "No se pudo cancelar el turno: Error al cancelar turno: JSON object requested, multiple (or no) rows returned. Verifica que el ID del turno sea correcto."
       = None.
Proof.
  intros x. split; [| vm_compute; reflexivity].
  rewrite (cancelar_inexistente postgres x id_ausente id_ausente [fila_ana confirmado]);
    [reflexivity | vm_compute; reflexivity |].
  intros f [<- | []]. discriminate.
Qed.

(** *** Listing *)

Lemma toISODate_no_vacia (t : Z) : JSDate.toISODate t <> "".
Proof.
  unfold JSDate.toISODate. destruct (JSDate.civil_from_days _) as [[y m] d].
  destruct (if ((0 <=? y) && (y <=? 9999))%Z then _ else _); simpl; discriminate.
Qed.




Section Listar.

Variable pg : Tipos.


End Listar.


(** *** Looking a reservation up *)

(** The request [obtenerTurnoPorId] makes. *)
Definition consulta_por_id (turnoId : string) : Consulta :=
  "turnos" |> q_select "*" |> q_eq "id" turnoId |> q_single.

(** C10: for an [id] that no row has, [obtenerTurnoPorId] gives [null] and
    leaves the table as it is; whatever the database answers, it throws
    exactly when the answer carries an error other than the one of
    [.single()] finding no row ([PGRST116]), which it turns into [null]; and
    it is not one of the tools the chat route is given. *)
Theorem obtenerTurnoPorId_inexistente (pg : Tipos) (x : Exterior) (turnoId u : string)
    (t : list Fila) :
  uuid_in pg turnoId = inr u -> (forall f, In f t -> f_id f <> u) ->
  ejecuta pg x (obtenerTurnoPorId turnoId) t
  = (Devuelve None, t, [ev_consulta (consulta_por_id turnoId)])
  /\ peticion (obtenerTurnoPorId turnoId) = Some (consulta_por_id turnoId)
  /\ (forall r : Respuesta,
        (exists m, respondido (obtenerTurnoPorId turnoId) r = Throw m)
        <-> (exists e, error r = Some e /\ code e <> "PGRST116"))
  /\ (forall (r : Respuesta) (e : PostgrestError),
        error r = Some e -> code e = "PGRST116" ->
        respondido (obtenerTurnoPorId turnoId) r = Ret None)
  /\ ~ In "obtenerTurnoPorId" tools.
Proof.
  intros Hu Hno. split; [| split; [reflexivity | split; [| split]]].
  - rewrite (obtenerTurnoPorId_corre pg x turnoId u t Hu).
    rewrite (filter_id_ausente u t Hno). reflexivity.
  - intros r. unfold obtenerTurnoPorId, await.
    cbn [bind Monad_Prog bind_prog respondido ret raise Exception_Prog].
    destruct (error r) as [e |].
    + destruct (String.eqb_spec (code e) "PGRST116") as [E | N].
      * split; [intros (m & H); discriminate H |].
        intros (e' & H & N). injection H as <-. contradiction.
      * split; [intros _; exists e; auto | intros _; eexists; reflexivity].
    + split; [intros (m & H); discriminate H | intros (e & H & _); discriminate H].
  - intros r e He Hc. unfold obtenerTurnoPorId, await.
    cbn [bind Monad_Prog bind_prog respondido ret raise Exception_Prog].
    rewrite He, Hc. reflexivity.
  - simpl. intros [H | [H | [H | [H | []]]]]; discriminate H.
Qed.

(** C10 for an [id] that the table of Ana's reservation does not hold. *)
Lemma obtenerTurnoPorId_inexistente_witness :
  (uuid_in postgres id_ausente = inr id_ausente
   /\ forall f, In f [fila_ana confirmado] -> f_id f <> id_ausente)
  /\ ejecuta postgres (con_correo id_2) (obtenerTurnoPorId id_ausente) [fila_ana confirmado]
     = (Devuelve None, [fila_ana confirmado], [ev_consulta (consulta_por_id id_ausente)]).
Proof.
  assert (H1 : uuid_in postgres id_ausente = inr id_ausente) by (vm_compute; reflexivity).
  assert (H2 : forall f, In f [fila_ana confirmado] -> f_id f <> id_ausente)
    by (intros f [<- | []]; discriminate).
  split; [auto |].
  apply (proj1 (obtenerTurnoPorId_inexistente postgres (con_correo id_2) id_ausente
                  id_ausente [fila_ana confirmado] H1 H2)).
Defined.

End ToolsFacts.


(* ===================================================================== *)
(** ** The reservation protocol: check, insert, notify                    *)
(* ===================================================================== *)

Module Protocolo.
Import Async Turnos Tools Validaciones Postgres Ejecucion.
Import StoreFacts TurnosFacts ToolsFacts PostgresISO Ejemplos.

(** Where a valid call of [toolReservarTurno] stands: before its check of
    availability, before its insert, before its mail, or at one of its three
    ends. *)
Inductive Fase : Type :=
| verificando
| insertando
| notificando (f : Fila)
| rechazado
| fallido (indice : string)
| reservado (f : Fila) (enviado : bool).

Section Llamada.

Variable pg : Tipos.
Variable zona ahora : Z.
Variable args : ArgsReserva.

(** The two failures the call can end with once the database was asked. *)
Definition no_disponible : Resultado :=
  {| exito := false;
     mensaje := mensaje_no_disponible (ar_fecha args) (ar_hora args);
     turno := None |}.

Definition error_al_crear (e : PostgrestError) : Resultado :=
  {| exito := false;
     mensaje := mensaje_error_reserva ("Error al crear turno: " ++ message e);
     turno := None |}.

(** The call at each phase: the source function itself, then the same
    function once its requests were answered. *)
Definition programa (f : Fase) : Prog Resultado :=
  match f with
  | verificando => toolReservarTurno zona ahora args
  | insertando =>
      respondido (toolReservarTurno zona ahora args) (resuelta (d_filas []))
  | notificando fila =>
      respondido
        (respondido (toolReservarTurno zona ahora args) (resuelta (d_filas [])))
        (resuelta (d_fila (a_json pg fila)))
  | rechazado => Ret no_disponible
  | fallido indice => Ret (error_al_crear (e_unico indice))
  | reservado fila enviado =>
      Ret (reserva_hecha pg args fila (if enviado then frase_email else ""))
  end.

(** The row the insert of the call stores for the slot [(d, h)]. *)
Definition fila_de (d h : Z) (x : Exterior) : Fila :=
  {| f_id := gen_random_uuid (defaults x);
     f_fecha := d;
     f_hora := h;
     f_nombre_cliente := ar_nombre_cliente args;
     f_email := ar_email args;
     f_estado := confirmado;
     f_created_at := now (defaults x) |}.

(** One [await] of the call, phase by phase. *)
Definition avanza (d h : Z) (x : Exterior) (f : Fase) (t : list Fila)
    : Fase * list Fila :=
  match f with
  | verificando => (if existsb (ocupa d h) t then rechazado else insertando, t)
  | insertando =>
      if existsb (fun g => f_id g =? gen_random_uuid (defaults x)) t
      then (fallido "turnos_pkey", t)
      else if existsb (ocupa d h) t
           then (fallido "unique_turno_activo", t)
           else (notificando (fila_de d h x), (t ++ [fila_de d h x])%list)
  | notificando fila =>
      (reservado fila (match envio x with None => true | Some _ => false end), t)
  | _ => (f, t)
  end.

Hypothesis valida : pasa_validacion zona ahora args = true.

Lemma reservar_validado :
  toolReservarTurno zona ahora args
  = AwaitDb (consulta_disponibilidad (ar_fecha args) (ar_hora args))
      (respondido (toolReservarTurno zona ahora args)).
Proof.
  destruct (pasa_validacion_true _ _ _ valida) as (V1 & V2 & V3 & V4).
  unfold toolReservarTurno. rewrite V1, V2, V3, V4. reflexivity.
Qed.

Lemma respondido_disponibilidad (l : list Turno) :
  respondido (toolReservarTurno zona ahora args) (resuelta (d_filas l))
  = if Nat.eqb (List.length l) 0 then programa insertando else Ret no_disponible.
Proof.
  destruct (pasa_validacion_true _ _ _ valida) as (V1 & V2 & V3 & V4).
  unfold programa, toolReservarTurno. rewrite V1, V2, V3, V4.
  destruct l; reflexivity.
Qed.

Lemma insertando_espera :
  programa insertando
  = AwaitDb ("turnos" |> q_insert (valores_reserva args) |> q_returning |> q_single)
      (respondido (programa insertando)).
Proof.
  destruct (pasa_validacion_true _ _ _ valida) as (V1 & V2 & V3 & V4).
  unfold programa, toolReservarTurno. rewrite V1, V2, V3, V4. reflexivity.
Qed.

Lemma respondido_insercion_fallida (e : PostgrestError) :
  respondido (programa insertando) (fallida e) = Ret (error_al_crear e).
Proof.
  destruct (pasa_validacion_true _ _ _ valida) as (V1 & V2 & V3 & V4).
  unfold programa, toolReservarTurno. rewrite V1, V2, V3, V4. reflexivity.
Qed.

Lemma fila_nueva_reserva (d h : Z) (x : Exterior) :
  date_in pg (ar_fecha args) = inr d -> time_in pg (ar_hora args) = inr h ->
  fila_nueva pg (defaults x) (valores_reserva args) = inr (fila_de d h x).
Proof.
  intros Hd Hh. unfold fila_nueva. cbn [valores_reserva v_fecha v_hora].
  rewrite Hd, Hh. reflexivity.
Qed.

(** The phases follow the source: an [await] of the call at phase [f] is
    the call at phase [avanza f]. *)
Lemma paso_programa (d h : Z) (x : Exterior) (f : Fase) (t : list Fila) :
  date_in pg (ar_fecha args) = inr d -> time_in pg (ar_hora args) = inr h ->
  paso pg x (programa f) t
  = (programa (fst (avanza d h x f t)), snd (avanza d h x f t)).
Proof.
  intros Hd Hh. destruct f as [| | fila | | indice | fila enviado];
    try reflexivity.
  - change (programa verificando) with (toolReservarTurno zona ahora args).
    rewrite reservar_validado. cbn [paso].
    unfold consulta_disponibilidad.
    rewrite (ejecutar_disponibilidad pg (defaults x) _ _ _ _ t Hd Hh).
    rewrite respondido_disponibilidad, hay_fila. cbn [avanza fst snd].
    destruct (existsb (ocupa d h) t); reflexivity.
  - rewrite insertando_espera. cbn [paso].
    rewrite (ejecutar_insercion pg _ _ _ t (fila_nueva_reserva d h x Hd Hh)).
    cbn [avanza fila_de f_id f_estado f_fecha f_hora es_confirmado andb].
    destruct (existsb (fun g => f_id g =? gen_random_uuid (defaults x)) t);
      [rewrite respondido_insercion_fallida; reflexivity |].
    destruct (existsb (ocupa d h) t);
      [rewrite respondido_insercion_fallida; reflexivity |].
    reflexivity.
  - destruct (pasa_validacion_true _ _ _ valida) as (V1 & V2 & V3 & V4).
    unfold programa, toolReservarTurno. rewrite V1, V2, V3, V4.
    cbn [avanza fst snd]. destruct (envio x) eqn:E; cbn; rewrite E; reflexivity.
Qed.


End Llamada.

(** *** Two calls for one slot *)







Lemma existsb_ids (u : string) (t : list Fila) :
  (forall g, In g t -> f_id g <> u) -> existsb (fun g => f_id g =? u) t = false.
Proof.
  induction t as [| a t IH]; intros H; simpl; [reflexivity |].
  rewrite IH by (intros g Hg; apply H; simpl; auto).
  rewrite orb_false_r. apply String.eqb_neq. apply H. simpl. auto.
Qed.





Section Carrera.

Variable pg : Tipos.
Variables zona1 ahora1 zona2 ahora2 : Z.
Variables a b : ArgsReserva.
Variables d h : Z.
Variable t0 : list Fila.

Hypothesis valida_a : pasa_validacion zona1 ahora1 a = true.
Hypothesis valida_b : pasa_validacion zona2 ahora2 b = true.
Hypothesis fecha_a : date_in pg (ar_fecha a) = inr d.
Hypothesis hora_a : time_in pg (ar_hora a) = inr h.
Hypothesis fecha_b : date_in pg (ar_fecha b) = inr d.
Hypothesis hora_b : time_in pg (ar_hora b) = inr h.
Hypothesis libre : existsb (ocupa d h) t0 = false.




End Carrera.








(** *** Who decides whether the slot is free *)

(** C2 (as the source has it): a valid call of [toolReservarTurno] first
    asks the table whether a confirmed row holds the slot.  If one does, it
    answers "no hay disponibilidad" and sends no insert.  If none does, its
    next request is the insert; when the slot was taken in between, the
    unique index refuses the insert and the call answers with the error text
    of [crearTurno], the text it gives for any error [e] of the database. *)
Theorem reserva_verifica_y_luego_inserta (pg : Tipos) (zona ahora : Z)
    (args : ArgsReserva) (d h : Z) :
  pasa_validacion zona ahora args = true ->
  date_in pg (ar_fecha args) = inr d -> time_in pg (ar_hora args) = inr h ->
  peticion (toolReservarTurno zona ahora args)
  = Some (consulta_disponibilidad (ar_fecha args) (ar_hora args))
  /\ (forall x t,
        existsb (ocupa d h) t = true ->
        ejecuta pg x (toolReservarTurno zona ahora args) t
        = (Devuelve (no_disponible args), t,
           [ev_consulta (consulta_disponibilidad (ar_fecha args) (ar_hora args))]))
  /\ exists pendiente,
       (forall x t,
          existsb (ocupa d h) t = false ->
          paso pg x (toolReservarTurno zona ahora args) t = (pendiente, t))
       /\ peticion pendiente
          = Some ("turnos" |> q_insert (valores_reserva args) |> q_returning |> q_single)
       /\ (forall x t,
             existsb (ocupa d h) t = true ->
             (forall g, In g t -> f_id g <> gen_random_uuid (defaults x)) ->
             paso pg x pendiente t
             = (Ret (error_al_crear (e_unico "unique_turno_activo")), t))
       /\ (forall e, respondido pendiente (fallida e) = Ret (error_al_crear e)).
Proof.
  intros V Hd Hh. split; [| split].
  - rewrite (reservar_validado zona ahora args V). reflexivity.
  - intros x t Hocupado.
    destruct (pasa_validacion_true _ _ _ V) as (V1 & V2 & V3 & V4).
    unfold toolReservarTurno. rewrite V1, V2, V3, V4. cbn [negb bind Monad_Prog].
    rewrite ejecuta_bind, (verificarDisponibilidad_corre pg x _ _ _ _ t Hd Hh).
    rewrite Hocupado. reflexivity.
  - exists (programa pg zona ahora args insertando). repeat split.
    + intros x t Hlibre.
      change (toolReservarTurno zona ahora args)
        with (programa pg zona ahora args verificando).
      rewrite (paso_programa pg zona ahora args V d h x verificando t Hd Hh).
      cbn [avanza fst snd]. rewrite Hlibre. reflexivity.
    + rewrite (insertando_espera pg zona ahora args V). reflexivity.
    + intros x t Hocupado Hpk.
      rewrite (paso_programa pg zona ahora args V d h x insertando t Hd Hh).
      cbn [avanza]. rewrite (existsb_ids _ _ Hpk), Hocupado. reflexivity.
    + intros e. apply (respondido_insercion_fallida pg zona ahora args V).
Qed.

(** C2 for Beto's call. *)
Lemma reserva_verifica_y_luego_inserta_witness :
  (pasa_validacion 0 un_lunes beto = true
   /\ date_in postgres (ar_fecha beto) = inr 47268%Z
   /\ time_in postgres (ar_hora beto) = inr 50400%Z)
  /\ peticion (toolReservarTurno 0 un_lunes beto)
     = Some (consulta_disponibilidad (ar_fecha beto) (ar_hora beto))
  /\ ejecuta postgres (con_correo id_2) (toolReservarTurno 0 un_lunes beto)
       [fila_ana confirmado]
     = (Devuelve (no_disponible beto), [fila_ana confirmado],
        [ev_consulta (consulta_disponibilidad (ar_fecha beto) (ar_hora beto))]).
Proof.
  assert (V : pasa_validacion 0 un_lunes beto = true) by (vm_compute; reflexivity).
  assert (Hd : date_in postgres (ar_fecha beto) = inr 47268%Z) by (vm_compute; reflexivity).
  assert (Hh : time_in postgres (ar_hora beto) = inr 50400%Z) by (vm_compute; reflexivity).
  split; [auto |].
  destruct (reserva_verifica_y_luego_inserta postgres 0 un_lunes beto 47268 50400 V Hd Hh)
    as (P & R & _).
  split; [exact P |]. apply R. vm_compute; reflexivity.
Defined.

(** C2 (as the specification has it) fails on Beto's call: its first
    request reads the table and is not the insert; with Ana's row in the
    table that read alone decides, and no insert is sent; and when Ana's row
    arrives between the read and the insert, the answer to the refusal of
    the unique index is the error text of [crearTurno], built like the one
    for a missing table. *)
Lemma reserva_no_delega_en_la_insercion :
  pasa_validacion 0 un_lunes beto = true
  /\ (exists q,
        peticion (toolReservarTurno 0 un_lunes beto) = Some q
        /\ c_verbo q = v_select "id")
  /\ ejecuta postgres (con_correo id_2) (toolReservarTurno 0 un_lunes beto)
       [fila_ana confirmado]
     = (Devuelve (no_disponible beto), [fila_ana confirmado],
        [ev_consulta (consulta_disponibilidad "2099-06-01" "14:00")])
  /\ (exists pendiente r,
        paso postgres (con_correo id_2) (toolReservarTurno 0 un_lunes beto) []
        = (pendiente, [])
        /\ paso postgres (con_correo id_2) pendiente [fila_ana confirmado]
           = (Ret r, [fila_ana confirmado])
        /\ exito r = false
        /\ mensaje r
           = mensaje_error_reserva
               ("Error al crear turno: " ++ message (e_unico "unique_turno_activo"))
        /\ mensaje r <> mensaje_no_disponible "2099-06-01" "14:00"
        /\ respondido pendiente (fallida (e_tabla "turnos"))
           = Ret {| exito := false;
                    mensaje := mensaje_error_reserva
                                 ("Error al crear turno: " ++ message (e_tabla "turnos"));
                    turno := None |}).
Proof.
  split; [vm_compute; reflexivity |].
  split; [eexists; split; vm_compute; reflexivity |].
  split; [vm_compute; reflexivity |].
  eexists. eexists. split; [vm_compute; reflexivity |].
  split; [vm_compute; reflexivity |].
  split; [reflexivity |]. split; [reflexivity |].
  split; [vm_compute; discriminate | vm_compute; reflexivity].
Qed.

(** *** The scenario of a slot reserved, cancelled and reserved again *)

(** Ana reserves the slot on an empty table; the slot is then not
    available, and Beto is refused; Ana's reservation is cancelled; the slot
    is available again, and Beto gets it. *)
Example reservar_cancelar_reservar :
  let t1 := [fila_ana confirmado] in
  let t2 := [fila_ana cancelado] in
  let slot := {| ad_fecha := "2099-06-01"; ad_hora := "14:00" |} in
  fst (ejecuta postgres (con_correo id_1) (toolReservarTurno 0 un_lunes ana) [])
  = (Devuelve (reserva_hecha postgres ana (fila_ana confirmado) frase_email), t1)
  /\ fst (ejecuta postgres (con_correo id_2) (toolVerificarDisponibilidad 0 un_lunes slot) t1)
     = (Devuelve {| disponible := false;
                    d_mensaje := "No, no hay disponibilidad el 2099-06-01 a las 14:00. Ya hay un turno reservado." |},
        t1)
  /\ fst (ejecuta postgres (con_correo id_2) (toolReservarTurno 0 un_lunes beto) t1)
     = (Devuelve (no_disponible beto), t1)
  /\ fst (ejecuta postgres (con_correo id_2) (toolCancelarTurno {| turnoId := id_1 |}) t1)
     = (Devuelve (cancelacion_hecha postgres (fila_ana confirmado)), t2)
  /\ fst (ejecuta postgres (con_correo id_2) (toolVerificarDisponibilidad 0 un_lunes slot) t2)
     = (Devuelve {| disponible := true;
                    d_mensaje := "Sí, hay disponibilidad el 2099-06-01 a las 14:00" |},
        t2)
  /\ exists r t3,
       fst (ejecuta postgres (con_correo id_2) (toolReservarTurno 0 un_lunes beto) t2)
       = (Devuelve r, t3)
       /\ exito r = true
       /\ activos 47268 50400 t3 = [fila_de beto 47268 50400 (con_correo id_2)].
Proof.
  cbv zeta. repeat split; try (vm_compute; reflexivity).
  eexists. eexists. split; [vm_compute; reflexivity |]. split; reflexivity.
Qed.

End Protocolo.


(* ===================================================================== *)
(** ** What no request and no call can do to the table                    *)
(* ===================================================================== *)

Module Invariantes.
Import Async Turnos Validaciones Tools Postgres Ejecucion StoreFacts TurnosFacts ToolsFacts.
Import MonadNotation.
Local Open Scope monad_scope.

(** The table a run leaves. *)
Definition tabla {R : Type} (r : Final R * list Fila * list Evento) : list Fila :=
  snd (fst r).

(** What the primary key and the partial unique index [unique_turno_activo]
    of [setup-db.sql] promise: no two rows with one id, and at most one
    confirmed row at a slot. *)
Definition integra (t : list Fila) : Prop :=
  NoDup (map f_id t) /\ forall d h : Z, List.length (activos d h t) <= 1.

(** Every request a call makes is one of [P], whatever the answers. *)
Inductive siempre {R : Type} (P : Consulta -> Prop) : Prog R -> Prop :=
| siempre_ret (r : R) : siempre P (Ret r)
| siempre_throw (m : string) : siempre P (Throw m)
| siempre_db (q : Consulta) (k : Respuesta -> Prog R) :
    P q -> (forall r, siempre P (k r)) -> siempre P (AwaitDb q k)
| siempre_mail (m : Correo) (k : option string -> Prog R) :
    (forall r, siempre P (k r)) -> siempre P (AwaitMail m k).

(** No exception leaves the call, whatever the answers. *)
Inductive nunca_lanza {R : Type} : Prog R -> Prop :=
| nunca_ret (r : R) : nunca_lanza (Ret r)
| nunca_db (q : Consulta) (k : Respuesta -> Prog R) :
    (forall r, nunca_lanza (k r)) -> nunca_lanza (AwaitDb q k)
| nunca_mail (m : Correo) (k : option string -> Prog R) :
    (forall r, nunca_lanza (k r)) -> nunca_lanza (AwaitMail m k).

(** The requests of the service: reads, inserts, and updates that cancel. *)
Definition lectura (q : Consulta) : Prop :=
  exists columnas, c_verbo q = v_select columnas.

Definition sin_reactivar (q : Consulta) : Prop :=
  c_verbo q <> v_update confirmado.

(** The table [t'] keeps every row of [t], in its place and as it was or
    cancelled; rows may have been added at the end. *)
Definition igual_o_cancelada (f f' : Fila) : Prop :=
  f' = f \/ f' = con_estado cancelado f.

Definition conserva (t t' : list Fila) : Prop :=
  exists viejas nuevas,
    t' = (viejas ++ nuevas)%list /\ Forall2 igual_o_cancelada t viejas.

Lemma activos_cons (d h : Z) (f : Fila) (t : list Fila) :
  activos d h (f :: t) = if ocupa d h f then f :: activos d h t else activos d h t.
Proof. reflexivity. Qed.

Lemma ocupa_inv (d h : Z) (f : Fila) :
  ocupa d h f = true -> f_fecha f = d /\ f_hora f = h /\ es_confirmado (f_estado f) = true.
Proof.
  unfold ocupa. rewrite !andb_true_iff, !Z.eqb_eq. tauto.
Qed.

Lemma ocupa_propia (f : Fila) :
  ocupa (f_fecha f) (f_hora f) f = es_confirmado (f_estado f).
Proof. unfold ocupa. now rewrite !Z.eqb_refl. Qed.

Lemma activos_existsb (d h : Z) (t : list Fila) :
  existsb (ocupa d h) t = negb (Nat.eqb (List.length (activos d h t)) 0).
Proof.
  induction t as [| f t IH]; [reflexivity |].
  rewrite activos_cons. cbn [existsb]. destruct (ocupa d h f); [reflexivity | exact IH].
Qed.

Lemma indice_unico_activos (t : list Fila) :
  indice_unico t = true <-> forall d h : Z, List.length (activos d h t) <= 1.
Proof.
  induction t as [| f t IH].
  - split; [intros _ d h; cbn; lia | reflexivity].
  - cbn [indice_unico]. rewrite andb_true_iff, negb_true_iff, IH. split.
    + intros [H1 H2] d h. rewrite activos_cons.
      destruct (ocupa d h f) eqn:O; [| apply H2].
      apply ocupa_inv in O. destruct O as (<- & <- & C).
      rewrite C in H1. cbn [andb] in H1.
      rewrite activos_existsb, negb_false_iff, Nat.eqb_eq in H1.
      cbn [List.length]. lia.
    + intros H. split.
      * destruct (es_confirmado (f_estado f)) eqn:C; [| reflexivity]. cbn [andb].
        specialize (H (f_fecha f) (f_hora f)). rewrite activos_cons, ocupa_propia, C in H.
        rewrite activos_existsb, negb_false_iff, Nat.eqb_eq. cbn [List.length] in H. lia.
      * intros d h. specialize (H d h). rewrite activos_cons in H.
        destruct (ocupa d h f); cbn [List.length] in H; lia.
Qed.

Lemma activos_app (d h : Z) (t1 t2 : list Fila) :
  activos d h (t1 ++ t2) = (activos d h t1 ++ activos d h t2)%list.
Proof. apply filter_app. Qed.

Lemma existsb_id (u : string) (t : list Fila) :
  existsb (fun g => f_id g =? u) t = false -> ~ In u (map f_id t).
Proof.
  induction t as [| f t IH]; cbn; [tauto |].
  rewrite orb_false_iff. intros [H1 H2] [E | H]; [| now apply IH].
  rewrite E, String.eqb_refl in H1. discriminate.
Qed.

Lemma integra_insertar (f : Fila) (t : list Fila) :
  integra t ->
  existsb (fun g => f_id g =? f_id f) t = false ->
  es_confirmado (f_estado f) && existsb (ocupa (f_fecha f) (f_hora f)) t = false ->
  integra (t ++ [f]).
Proof.
  intros [N U] Hid Hslot. split.
  - rewrite map_app. cbn [map]. apply NoDup_app_remove_l with (l := []).
    cbn [app].
    apply (Permutation_NoDup (l := f_id f :: map f_id t)).
    + change (f_id f :: map f_id t) with ([f_id f] ++ map f_id t)%list.
      apply Permutation_app_comm.
    + constructor; [apply existsb_id; assumption | assumption].
  - intros d h. rewrite activos_app, length_app. cbn [activos filter].
    destruct (ocupa d h f) eqn:O; cbn [List.length].
    + apply ocupa_inv in O. destruct O as (<- & <- & C).
      rewrite C in Hslot. cbn [andb] in Hslot.
      rewrite activos_existsb, negb_false_iff, Nat.eqb_eq in Hslot. lia.
    + specialize (U d h). lia.
Qed.

Lemma map_id_actualizar (donde : Fila -> bool) (e : Estado) (t : list Fila) :
  map f_id (map (fun f => if donde f then con_estado e f else f) t) = map f_id t.
Proof.
  rewrite map_map. apply map_ext. intros f. now destruct (donde f).
Qed.

Lemma activos_cancelar (donde : Fila -> bool) (d h : Z) (t : list Fila) :
  List.length (activos d h (map (fun f => if donde f then con_estado cancelado f else f) t))
  <= List.length (activos d h t).
Proof.
  induction t as [| f t IH]; [cbn; lia |].
  cbn [map]. rewrite !activos_cons.
  destruct (donde f).
  - unfold ocupa at 1. cbn [con_estado f_estado es_confirmado]. rewrite andb_false_r.
    destruct (ocupa d h f); cbn [List.length]; lia.
  - destruct (ocupa d h f); cbn [List.length]; lia.
Qed.

Section Servidor.

Variable pg : Tipos.

Lemma snd_entrega (q : Consulta) (filas t_nueva t_vieja : list Fila) :
  snd (entrega pg q filas t_nueva t_vieja) = t_nueva
  \/ snd (entrega pg q filas t_nueva t_vieja) = t_vieja.
Proof.
  unfold entrega. destruct (c_single q).
  - destruct (match c_limite q with Some n => firstn n filas | None => filas end)
      as [| f [| g l]]; auto.
  - destruct (c_representacion q); auto.
Qed.

(** What one request can do to the table. *)
Lemma ejecutar_casos (df : Defaults) (q : Consulta) (t : list Fila) :
  snd (ejecutar pg df q t) = t
  \/ (exists v f,
        c_verbo q = v_insert v
        /\ existsb (fun g => f_id g =? f_id f) t = false
        /\ es_confirmado (f_estado f) && existsb (ocupa (f_fecha f) (f_hora f)) t = false
        /\ snd (ejecutar pg df q t) = (t ++ [f])%list)
  \/ (exists (e : Estado) (donde : Fila -> bool),
        c_verbo q = v_update e
        /\ es_confirmado e
           && negb (indice_unico (map (fun f => if donde f then con_estado e f else f) t))
           = false
        /\ snd (ejecutar pg df q t)
           = map (fun f => if donde f then con_estado e f else f) t).
Proof.
  unfold ejecutar. destruct (negb (c_tabla q =? "turnos")); [auto |].
  destruct (condicion pg (c_filtros q)) as [e | donde]; [auto |].
  destruct (columnas_de (c_orden q)) as [e | orden]; [auto |].
  destruct (c_verbo q) as [c | v | e].
  - left. destruct (snd_entrega q (ordena orden (filter donde t)) t t); assumption.
  - destruct (fila_nueva pg df v) as [e | f]; [auto |].
    destruct (existsb (fun g => f_id g =? f_id f) t) eqn:Hid; [auto |].
    destruct (es_confirmado (f_estado f) && existsb (ocupa (f_fecha f) (f_hora f)) t)
      eqn:Hs; [auto |].
    destruct (snd_entrega q [f] (t ++ [f])%list t) as [E | E]; [| auto].
    right. left. exists v, f. auto.
  - set (t' := map (fun f => if donde f then con_estado e f else f) t).
    destruct (es_confirmado e && negb (indice_unico t')) eqn:Hs; [auto |].
    destruct (snd_entrega q (map (con_estado e) (filter donde t)) t' t) as [E | E]; [| auto].
    right. right. exists e, donde. auto.
Qed.

Lemma ejecutar_integra (df : Defaults) (q : Consulta) (t : list Fila) :
  integra t -> integra (snd (ejecutar pg df q t)).
Proof.
  intros I.
  destruct (ejecutar_casos df q t)
    as [-> | [(v & f & _ & Hid & Hs & ->) | (e & donde & _ & Hs & ->)]].
  - exact I.
  - apply integra_insertar; assumption.
  - destruct I as [N U]. split.
    + now rewrite map_id_actualizar.
    + destruct e.
      * cbn [es_confirmado andb] in Hs. rewrite negb_false_iff in Hs.
        now apply indice_unico_activos.
      * intros d h. specialize (U d h).
        pose proof (activos_cancelar donde d h t). lia.
Qed.

Lemma ejecutar_lectura (df : Defaults) (q : Consulta) (t : list Fila) :
  lectura q -> snd (ejecutar pg df q t) = t.
Proof.
  intros [c Hc].
  destruct (ejecutar_casos df q t)
    as [E | [(v & f & Hv & _) | (e & donde & He & _)]]; [exact E | |]; congruence.
Qed.

End Servidor.

(** *** From one request to a run and to two calls in flight *)

Section Subida.

Variable pg : Tipos.
Variable P : Consulta -> Prop.
Variable Inv : list Fila -> Prop.
Hypothesis un_paso :
  forall df q t, P q -> Inv t -> Inv (snd (ejecutar pg df q t)).

Lemma ejecuta_siempre {R : Type} (x : Exterior) (p : Prog R) :
  siempre P p -> forall t, Inv t -> Inv (tabla (ejecuta pg x p t)).
Proof.
  induction 1 as [r | m | q k Hq Hk IH | m k Hk IH]; intros t I.
  - exact I.
  - exact I.
  - cbn [ejecuta]. pose proof (un_paso (defaults x) q t Hq I) as I'.
    destruct (ejecutar pg (defaults x) q t) as [r t']. cbn [snd] in I'.
    specialize (IH r t' I'). destruct (ejecuta pg x (k r) t') as [[f t''] evs].
    exact IH.
  - cbn [ejecuta]. specialize (IH (envio x) t I).
    destruct (ejecuta pg x (k (envio x)) t) as [[f t'] evs]. exact IH.
Qed.

Lemma paso_siempre {R : Type} (x : Exterior) (p : Prog R) (t : list Fila) :
  siempre P p -> Inv t ->
  siempre P (fst (paso pg x p t)) /\ Inv (snd (paso pg x p t)).
Proof.
  intros H I. destruct H as [r | m | q k Hq Hk | m k Hk]; cbn [paso].
  - split; [constructor | exact I].
  - split; [constructor | exact I].
  - pose proof (un_paso (defaults x) q t Hq I) as I'.
    destruct (ejecutar pg (defaults x) q t) as [r t']. split; [apply Hk | exact I'].
  - split; [apply Hk | exact I].
Qed.

Lemma intercala_siempre {R : Type} (plan : list (bool * Exterior)) :
  forall (p1 p2 : Prog R) (t : list Fila),
    siempre P p1 -> siempre P p2 -> Inv t ->
    Inv (snd (intercala pg plan p1 p2 t)).
Proof.
  induction plan as [| [[|] x] plan IH]; intros p1 p2 t H1 H2 I.
  - exact I.
  - cbn [intercala]. destruct (paso_siempre x p1 t H1 I) as [H1' I'].
    destruct (paso pg x p1 t) as [p1' t']. now apply IH.
  - cbn [intercala]. destruct (paso_siempre x p2 t H2 I) as [H2' I'].
    destruct (paso pg x p2 t) as [p2' t']. now apply IH.
Qed.

End Subida.

Lemma siempre_cualquiera {R : Type} (p : Prog R) : siempre (fun _ => True) p.
Proof. induction p; constructor; auto. Qed.

Lemma siempre_bind {A B : Type} (P : Consulta -> Prop) (p : Prog A) (k : A -> Prog B) :
  siempre P p -> (forall a, siempre P (k a)) -> siempre P (bind p k).
Proof.
  intros H Hk. induction H; cbn; try constructor; auto.
Qed.

Lemma siempre_catch {A : Type} (P : Consulta -> Prop) (p : Prog A) (h : string -> Prog A) :
  siempre P p -> (forall m, siempre P (h m)) -> siempre P (catch p h).
Proof.
  intros H Hh. induction H; cbn; try constructor; auto.
Qed.

Lemma siempre_await (P : Consulta -> Prop) (q : Consulta) : P q -> siempre P (await q).
Proof. intros H. constructor; [exact H | constructor]. Qed.

Lemma nunca_bind {A B : Type} (p : Prog A) (k : A -> Prog B) :
  nunca_lanza p -> (forall a, nunca_lanza (k a)) -> nunca_lanza (bind p k).
Proof.
  intros H Hk. induction H; cbn; try constructor; auto.
Qed.

Lemma nunca_catch {A : Type} (p : Prog A) (h : string -> Prog A) :
  (forall m, nunca_lanza (h m)) -> nunca_lanza (catch p h).
Proof.
  intros Hh. induction p; cbn; try constructor; auto.
Qed.

Lemma nunca_devuelve (pg : Tipos) {R : Type} (x : Exterior) (p : Prog R) :
  nunca_lanza p -> forall t, exists r t' evs, ejecuta pg x p t = (Devuelve r, t', evs).
Proof.
  induction 1 as [r | q k Hk IH | m k Hk IH]; intros t.
  - exists r, t, []. reflexivity.
  - cbn [ejecuta]. destruct (ejecutar pg (defaults x) q t) as [r t'].
    destruct (IH r t') as (a & t'' & evs & E). rewrite E. eauto.
  - cbn [ejecuta]. destruct (IH (envio x) t) as (a & t' & evs & E). rewrite E. eauto.
Qed.

(** *** The functions of [turnos.ts] and [email.ts] *)

Lemma verificarDisponibilidad_lee (fecha hora : string) :
  siempre lectura (verificarDisponibilidad fecha hora).
Proof.
  apply siempre_bind.
  - apply siempre_await. exists "id". reflexivity.
  - intros r. destruct (error r); constructor.
Qed.

Lemma listarTurnos_lee (desde hasta : option string) (solo : bool) :
  siempre lectura (listarTurnos desde hasta solo).
Proof.
  apply siempre_bind.
  - apply siempre_await. exists "*".
    destruct desde as [d |], hasta as [h |], solo;
      try destruct (d =? ""); try destruct (h =? ""); reflexivity.
  - intros r. destruct (error r); constructor.
Qed.

Lemma obtenerTurnoPorId_lee (turnoId : string) :
  siempre lectura (obtenerTurnoPorId turnoId).
Proof.
  apply siempre_bind.
  - apply siempre_await. exists "*". reflexivity.
  - intros r. destruct (error r) as [e |]; [| constructor].
    destruct (code e =? "PGRST116"); constructor.
Qed.

Lemma lectura_sin_reactivar (q : Consulta) : lectura q -> sin_reactivar q.
Proof. intros [c H]. unfold sin_reactivar. congruence. Qed.

Lemma siempre_mas {R : Type} (P Q : Consulta -> Prop) (p : Prog R) :
  (forall q, P q -> Q q) -> siempre P p -> siempre Q p.
Proof. intros H. induction 1; constructor; auto. Qed.

Lemma crearTurno_sin_reactivar (turno : NuevoTurno) :
  siempre sin_reactivar (crearTurno turno).
Proof.
  apply siempre_bind.
  - apply siempre_await. unfold sin_reactivar. discriminate.
  - intros r. destruct (error r); constructor.
Qed.

Lemma cancelarTurno_sin_reactivar (turnoId : string) :
  siempre sin_reactivar (cancelarTurno turnoId).
Proof.
  apply siempre_bind.
  - apply siempre_await. unfold sin_reactivar. discriminate.
  - intros r. destruct (error r); [constructor |].
    destruct (objeto (data r)); constructor.
Qed.

Lemma enviarEmailConfirmacion_sin_consultas (P : Consulta -> Prop) (datos : DatosEmail) :
  siempre P (enviarEmailConfirmacion datos).
Proof.
  apply siempre_catch; [| constructor].
  apply siempre_bind; [| constructor].
  constructor. intros [e |]; constructor.
Qed.

Lemma enviarEmailConfirmacion_nunca_lanza (datos : DatosEmail) :
  nunca_lanza (enviarEmailConfirmacion datos).
Proof. apply nunca_catch. constructor. Qed.

(** *** The four tools *)

Lemma toolVerificarDisponibilidad_lee (zona ahora : Z) (args : ArgsDisponibilidad) :
  siempre lectura (toolVerificarDisponibilidad zona ahora args).
Proof.
  unfold toolVerificarDisponibilidad.
  destruct (negb (validarFormatoFecha zona (ad_fecha args))); [constructor |].
  destruct (negb (validarFormatoHora (ad_hora args))); [constructor |].
  destruct (negb (validarFechaFutura zona ahora (ad_fecha args))); [constructor |].
  apply siempre_bind; [apply verificarDisponibilidad_lee | constructor].
Qed.

Lemma toolListarTurnos_lee (zona ahora : Z) (args : ArgsListado) :
  siempre lectura (toolListarTurnos zona ahora args).
Proof.
  unfold toolListarTurnos. cbv zeta.
  destruct (truthy (fechaDesde args)
            && negb (validarFormatoFecha zona (o_bien (fechaDesde args) "")));
    [constructor |].
  destruct (truthy (fechaHasta args)
            && negb (validarFormatoFecha zona (o_bien (fechaHasta args) "")));
    [constructor |].
  apply siempre_bind; [apply listarTurnos_lee |].
  intros l. destruct (Nat.eqb (List.length l) 0); constructor.
Qed.

Lemma toolReservarTurno_sin_reactivar (zona ahora : Z) (args : ArgsReserva) :
  siempre sin_reactivar (toolReservarTurno zona ahora args).
Proof.
  unfold toolReservarTurno.
  destruct (negb (validarFormatoFecha zona (ar_fecha args))); [constructor |].
  destruct (negb (validarFormatoHora (ar_hora args))); [constructor |].
  destruct (negb (validarFechaFutura zona ahora (ar_fecha args))); [constructor |].
  destruct (negb (validarFechaHoraFutura zona ahora (ar_fecha args) (ar_hora args)));
    [constructor |].
  apply siempre_bind.
  - apply (siempre_mas lectura); [apply lectura_sin_reactivar |].
    apply verificarDisponibilidad_lee.
  - intros disponible. destruct (negb disponible); [constructor |].
    apply siempre_catch; [| constructor].
    apply siempre_bind; [apply crearTurno_sin_reactivar |].
    intros [t |]; [| constructor].
    apply siempre_bind; [apply enviarEmailConfirmacion_sin_consultas | constructor].
Qed.

Lemma toolCancelarTurno_sin_reactivar (args : ArgsCancelacion) :
  siempre sin_reactivar (toolCancelarTurno args).
Proof.
  apply siempre_catch; [| constructor].
  apply siempre_bind; [apply cancelarTurno_sin_reactivar | constructor].
Qed.

(** *** The table keeps its indexes *)

Lemma integra_una_fila (f : Fila) : integra [f].
Proof.
  split.
  - constructor; [intros [] | constructor].
  - intros d h. cbn. destruct (ocupa d h f); cbn; lia.
Qed.

(** X7: The primary key and the partial unique index hold after every request,
    hence after every call run to its end and after every interleaving of
    two calls, whatever the calls are: no two rows share an id and no slot
    has two confirmed rows. *)
Theorem indices_conservados (pg : Tipos) {R : Type} (df : Defaults) (q : Consulta)
    (x : Exterior) (p p1 p2 : Prog R) (plan : list (bool * Exterior)) (t : list Fila) :
  integra t ->
  integra (snd (ejecutar pg df q t))
  /\ integra (tabla (ejecuta pg x p t))
  /\ integra (snd (intercala pg plan p1 p2 t)).
Proof.
  intros I. split; [| split].
  - apply ejecutar_integra, I.
  - apply (ejecuta_siempre pg (fun _ => True) integra
             (fun df q t _ => ejecutar_integra pg df q t) x p
             (siempre_cualquiera p) t I).
  - apply (intercala_siempre pg (fun _ => True) integra
             (fun df q t _ => ejecutar_integra pg df q t) plan p1 p2 t
             (siempre_cualquiera p1) (siempre_cualquiera p2) I).
Qed.

Lemma indices_conservados_witness :
  integra [Ejemplos.fila_ana confirmado]
  /\ integra (snd (ejecutar PostgresISO.postgres (defaults (Ejemplos.con_correo Ejemplos.id_2))
                     ("turnos" |> q_insert (valores_reserva Ejemplos.beto)
                      |> q_returning |> q_single)
                     [Ejemplos.fila_ana confirmado]))
  /\ integra (tabla (ejecuta PostgresISO.postgres (Ejemplos.con_correo Ejemplos.id_2)
                       (toolReservarTurno 0 Ejemplos.un_lunes Ejemplos.beto)
                       [Ejemplos.fila_ana confirmado]))
  /\ integra (snd (intercala PostgresISO.postgres Ejemplos.plan_carrera
                     (toolReservarTurno 0 Ejemplos.un_lunes Ejemplos.beto)
                     (toolCancelarTurno {| turnoId := Ejemplos.id_1 |})
                     [Ejemplos.fila_ana confirmado])).
Proof.
  split; [apply integra_una_fila |].
  apply (indices_conservados PostgresISO.postgres). apply integra_una_fila.
Defined.

(** *** No row is deleted, and none goes back to confirmed *)

Lemma igual_o_cancelada_trans (a b c : Fila) :
  igual_o_cancelada a b -> igual_o_cancelada b c -> igual_o_cancelada a c.
Proof.
  unfold igual_o_cancelada. intros [-> | ->] [-> | ->]; auto.
Qed.

Lemma conserva_refl (t : list Fila) : conserva t t.
Proof.
  exists t, []. split; [now rewrite app_nil_r |].
  induction t; constructor; [now left | assumption].
Qed.

Lemma Forall2_trans_cancelada (a b c : list Fila) :
  Forall2 igual_o_cancelada a b -> Forall2 igual_o_cancelada b c ->
  Forall2 igual_o_cancelada a c.
Proof.
  intros H. revert c. induction H as [| x y a b Hxy Hab IH]; intros c Hc.
  - inversion Hc. constructor.
  - inversion Hc as [| y' z b' c' Hyz Hbc]; subst.
    constructor; [eapply igual_o_cancelada_trans; eassumption | now apply IH].
Qed.

Lemma conserva_trans (a b c : list Fila) : conserva a b -> conserva b c -> conserva a c.
Proof.
  intros (v & n & -> & H1) (v' & n' & -> & H2).
  apply Forall2_app_inv_l in H2. destruct H2 as (v1 & v2 & H3 & H4 & ->).
  exists v1, (v2 ++ n')%list. split; [now rewrite app_assoc |].
  eapply Forall2_trans_cancelada; eassumption.
Qed.

Lemma conserva_cancelar (donde : Fila -> bool) (t : list Fila) :
  conserva t (map (fun f => if donde f then con_estado cancelado f else f) t).
Proof.
  exists (map (fun f => if donde f then con_estado cancelado f else f) t), [].
  split; [now rewrite app_nil_r |].
  induction t as [| f t IH]; cbn [map]; constructor; [| exact IH].
  destruct (donde f); [now right | now left].
Qed.

Lemma ejecutar_conserva (pg : Tipos) (df : Defaults) (q : Consulta) (t : list Fila) :
  sin_reactivar q -> conserva t (snd (ejecutar pg df q t)).
Proof.
  intros H.
  destruct (ejecutar_casos pg df q t)
    as [-> | [(v & f & _ & _ & _ & ->) | (e & donde & He & _ & ->)]].
  - apply conserva_refl.
  - exists t, [f]. split; [reflexivity |].
    clear. induction t; constructor; [now left | assumption].
  - destruct e; [contradiction |]. apply conserva_cancelar.
Qed.

Lemma conserva_filas (t t' : list Fila) :
  conserva t t' ->
  List.length t <= List.length t'
  /\ forall f, In f t ->
       exists f', In f' t' /\ f_id f' = f_id f /\ (f_estado f = cancelado -> f' = f).
Proof.
  intros (v & n & -> & H). split.
  - rewrite length_app, <- (Forall2_length H). lia.
  - intros f Hf. induction H as [| a b t v Hab Htv IH]; [destruct Hf |].
    destruct Hf as [-> | Hf].
    + exists b. split; [now left |]. destruct Hab as [-> | ->].
      * auto.
      * split; [reflexivity |]. intros E. rewrite <- E. apply con_estado_mismo.
    + destruct (IH Hf) as (f' & Hin & Hid & He). exists f'. split; [now right | auto].
Qed.

(** A call of [toolReservarTurno] or [toolCancelarTurno]. *)
Definition llamada (zona ahora : Z) (p : Prog Resultado) : Prop :=
  (exists args, p = toolReservarTurno zona ahora args)
  \/ (exists args, p = toolCancelarTurno args).

Lemma llamada_sin_reactivar (zona ahora : Z) (p : Prog Resultado) :
  llamada zona ahora p -> siempre sin_reactivar p.
Proof.
  intros [[args ->] | [args ->]].
  - apply toolReservarTurno_sin_reactivar.
  - apply toolCancelarTurno_sin_reactivar.
Qed.

(** X8: The two tools that write never delete a row, never move one, and never
    change one except to cancel it: after a call, and after any interleaving
    of two calls, every row of the table is still there, in its place, as it
    was or cancelled; a cancelled row stays as it is. *)
Theorem las_tools_no_borran_ni_reactivan (pg : Tipos) (zona ahora : Z) (x : Exterior)
    (plan : list (bool * Exterior)) (p1 p2 : Prog Resultado) (t : list Fila) :
  llamada zona ahora p1 -> llamada zona ahora p2 ->
  let t1 := tabla (ejecuta pg x p1 t) in
  let t2 := snd (intercala pg plan p1 p2 t) in
  (conserva t t1 /\ conserva t t2)
  /\ (List.length t <= List.length t2
      /\ forall f, In f t ->
           exists f', In f' t2 /\ f_id f' = f_id f /\ (f_estado f = cancelado -> f' = f)).
Proof.
  intros H1 H2 t1 t2.
  apply llamada_sin_reactivar in H1, H2.
  assert (paso : forall df q t', sin_reactivar q -> conserva t t' ->
                   conserva t (snd (ejecutar pg df q t'))).
  { intros df q t' Hq Ht'. eapply conserva_trans; [exact Ht' |].
    apply ejecutar_conserva, Hq. }
  assert (C2 : conserva t t2).
  { apply (intercala_siempre pg sin_reactivar (conserva t) paso plan p1 p2 t H1 H2).
    apply conserva_refl. }
  split; [split |].
  - apply (ejecuta_siempre pg sin_reactivar (conserva t) paso x p1 H1 t).
    apply conserva_refl.
  - exact C2.
  - apply conserva_filas, C2.
Qed.

Lemma las_tools_no_borran_ni_reactivan_witness :
  (llamada 0 Ejemplos.un_lunes (toolReservarTurno 0 Ejemplos.un_lunes Ejemplos.beto)
   /\ llamada 0 Ejemplos.un_lunes (toolCancelarTurno {| turnoId := Ejemplos.id_1 |}))
  /\ conserva [Ejemplos.fila_ana confirmado]
       (snd (intercala PostgresISO.postgres Ejemplos.plan_carrera
               (toolReservarTurno 0 Ejemplos.un_lunes Ejemplos.beto)
               (toolCancelarTurno {| turnoId := Ejemplos.id_1 |})
               [Ejemplos.fila_ana confirmado])).
Proof.
  assert (H1 : llamada 0 Ejemplos.un_lunes (toolReservarTurno 0 Ejemplos.un_lunes Ejemplos.beto))
    by (left; eexists; reflexivity).
  assert (H2 : llamada 0 Ejemplos.un_lunes (toolCancelarTurno {| turnoId := Ejemplos.id_1 |}))
    by (right; eexists; reflexivity).
  split; [split; assumption |].
  apply (las_tools_no_borran_ni_reactivan PostgresISO.postgres 0 Ejemplos.un_lunes
           (Ejemplos.con_correo Ejemplos.id_2) Ejemplos.plan_carrera _ _
           [Ejemplos.fila_ana confirmado] H1 H2).
Defined.

(** *** The tools that only read *)

(** X9: [toolVerificarDisponibilidad], [toolListarTurnos] and
    [obtenerTurnoPorId] leave the table as it is, whatever their arguments
    and whatever the store makes of them. *)
Theorem las_lecturas_no_tocan_la_tabla (pg : Tipos) (zona ahora : Z) (x : Exterior)
    (a : ArgsDisponibilidad) (l : ArgsListado) (turnoId : string) (t : list Fila) :
  tabla (ejecuta pg x (toolVerificarDisponibilidad zona ahora a) t) = t
  /\ tabla (ejecuta pg x (toolListarTurnos zona ahora l) t) = t
  /\ tabla (ejecuta pg x (obtenerTurnoPorId turnoId) t) = t.
Proof.
  assert (paso : forall df q t', lectura q -> t' = t -> snd (ejecutar pg df q t') = t).
  { intros df q t' Hq ->. apply ejecutar_lectura, Hq. }
  split; [| split].
  - apply (ejecuta_siempre pg lectura (fun t' => t' = t) paso x _
             (toolVerificarDisponibilidad_lee zona ahora a) t eq_refl).
  - apply (ejecuta_siempre pg lectura (fun t' => t' = t) paso x _
             (toolListarTurnos_lee zona ahora l) t eq_refl).
  - apply (ejecuta_siempre pg lectura (fun t' => t' = t) paso x _
             (obtenerTurnoPorId_lee turnoId) t eq_refl).
Qed.

(** *** Which exceptions leave a tool *)

(** X10: [toolCancelarTurno] wraps its whole body in [try]/[catch]: no exception
    leaves it, whatever the store answers, and every run ends with a value. *)
Theorem toolCancelarTurno_nunca_lanza (args : ArgsCancelacion) :
  nunca_lanza (toolCancelarTurno args)
  /\ forall (pg : Tipos) (x : Exterior) (t : list Fila),
       exists r t' evs, ejecuta pg x (toolCancelarTurno args) t = (Devuelve r, t', evs).
Proof.
  assert (H : nunca_lanza (toolCancelarTurno args)) by (apply nunca_catch; constructor).
  split; [exact H |]. intros pg x t. apply nunca_devuelve, H.
Qed.

(** X11: In [toolReservarTurno] the check of availability comes before the
    [try]: when the store answers that request with an error, the call
    throws (it does not return a failure), and this is the only exception
    that leaves it: after an answer without error nothing is thrown,
    whatever the later answers of the store and of the mail transport. *)
Theorem toolReservarTurno_excepciones (zona ahora : Z) (args : ArgsReserva)
    (r : Respuesta) :
  pasa_validacion zona ahora args = true ->
  match error r with
  | Some e =>
      respondido (toolReservarTurno zona ahora args) r
      = Throw ("Error al verificar disponibilidad: " ++ message e)
  | None => nunca_lanza (respondido (toolReservarTurno zona ahora args) r)
  end.
Proof.
  intros V. apply pasa_validacion_true in V. destruct V as (V1 & V2 & V3 & V4).
  unfold toolReservarTurno. rewrite V1, V2, V3, V4. cbn.
  destruct (error r) as [e |]; [reflexivity |].
  cbn. destruct (negb _); [constructor |].
  constructor. intros r'. apply (@nunca_catch Resultado). constructor.
Qed.

Lemma toolReservarTurno_excepciones_witness :
  pasa_validacion 0 Ejemplos.un_lunes Ejemplos.ana = true
  /\ respondido (toolReservarTurno 0 Ejemplos.un_lunes Ejemplos.ana)
       (fallida (e_tabla "turnos"))
     = Throw ("Error al verificar disponibilidad: " ++ message (e_tabla "turnos")).
Proof.
  split; [vm_compute; reflexivity |].
  apply (toolReservarTurno_excepciones 0 Ejemplos.un_lunes Ejemplos.ana
           (fallida (e_tabla "turnos"))).
  vm_compute; reflexivity.
Defined.

(** X12: The two tools that read have no [try]: an error of the store leaves
    them as an exception, with the text of [turnos.ts]; after an answer
    without error they return. *)
Theorem las_lecturas_propagan_el_error (zona ahora : Z) (a : ArgsDisponibilidad)
    (l : ArgsListado) (r : Respuesta) :
  (terminado (toolVerificarDisponibilidad zona ahora a) = false ->
   match error r with
   | Some e =>
       respondido (toolVerificarDisponibilidad zona ahora a) r
       = Throw ("Error al verificar disponibilidad: " ++ message e)
   | None => exists d, respondido (toolVerificarDisponibilidad zona ahora a) r = Ret d
   end)
  /\ (terminado (toolListarTurnos zona ahora l) = false ->
      match error r with
      | Some e =>
          respondido (toolListarTurnos zona ahora l) r
          = Throw ("Error al listar turnos: " ++ message e)
      | None => exists d, respondido (toolListarTurnos zona ahora l) r = Ret d
      end).
Proof.
  split.
  - unfold toolVerificarDisponibilidad.
    destruct (negb (validarFormatoFecha zona (ad_fecha a))); [discriminate |].
    destruct (negb (validarFormatoHora (ad_hora a))); [discriminate |].
    destruct (negb (validarFechaFutura zona ahora (ad_fecha a))); [discriminate |].
    intros _. cbn. destruct (error r); [reflexivity | eexists; reflexivity].
  - unfold toolListarTurnos. cbv zeta.
    destruct (truthy (fechaDesde l)
              && negb (validarFormatoFecha zona (o_bien (fechaDesde l) "")));
      [discriminate |].
    destruct (truthy (fechaHasta l)
              && negb (validarFormatoFecha zona (o_bien (fechaHasta l) "")));
      [discriminate |].
    intros _. unfold listarTurnos. cbv zeta.
    cbn [bind Monad_Prog bind_prog await respondido].
    destruct (error r); [reflexivity |].
    cbn [bind_prog ret Monad_Prog].
    match goal with
    | |- context [Nat.eqb ?n 0] => destruct (Nat.eqb n 0)
    end; eexists; reflexivity.
Qed.

End Invariantes.


(* ===================================================================== *)
(** ** What the tools answer on the table                                 *)
(* ===================================================================== *)

Module Recorridos.
Import Async Turnos Validaciones Tools Postgres Ejecucion.
Import StoreFacts TurnosFacts ToolsFacts Invariantes.
Import MonadNotation.
Local Open Scope monad_scope.

(** The answers of [toolVerificarDisponibilidad] after the store was asked. *)
Definition disponibilidad (args : ArgsDisponibilidad) (libre : bool) : Disponibilidad :=
  {| disponible := libre;
     d_mensaje :=
       if libre
       then "Sí, hay disponibilidad el " ++ ad_fecha args ++ " a las " ++ ad_hora args
       else "No, no hay disponibilidad el " ++ ad_fecha args ++ " a las "
            ++ ad_hora args ++ ". Ya hay un turno reservado." |}.

Section Servidor.

Variable pg : Tipos.

Lemma toolVerificarDisponibilidad_corre (zona ahora : Z) (args : ArgsDisponibilidad)
    (x : Exterior) (d h : Z) (t : list Fila) :
  validarFormatoFecha zona (ad_fecha args) = true ->
  validarFormatoHora (ad_hora args) = true ->
  validarFechaFutura zona ahora (ad_fecha args) = true ->
  date_in pg (ad_fecha args) = inr d -> time_in pg (ad_hora args) = inr h ->
  ejecuta pg x (toolVerificarDisponibilidad zona ahora args) t
  = (Devuelve (disponibilidad args (negb (existsb (ocupa d h) t))), t,
     [ev_consulta (consulta_disponibilidad (ad_fecha args) (ad_hora args))]).
Proof.
  intros V1 V2 V3 Hd Hh. unfold toolVerificarDisponibilidad.
  rewrite V1, V2, V3. cbn [negb]. cbn [bind Monad_Prog].
  rewrite ejecuta_bind, (verificarDisponibilidad_corre pg x _ _ _ _ t Hd Hh).
  reflexivity.
Qed.

(** X13: On an input that passes its three checks and that the store can read,
    [toolVerificarDisponibilidad] makes one request, leaves the table as it
    is, and answers that the slot is free exactly when the table has no
    confirmed row at that date and time: cancelled rows do not count. *)
Theorem verificar_disponibilidad_de_un_hueco (zona ahora : Z)
    (args : ArgsDisponibilidad) (x : Exterior) (d h : Z) (t : list Fila) :
  validarFormatoFecha zona (ad_fecha args) = true ->
  validarFormatoHora (ad_hora args) = true ->
  validarFechaFutura zona ahora (ad_fecha args) = true ->
  date_in pg (ad_fecha args) = inr d -> time_in pg (ad_hora args) = inr h ->
  exists r,
    ejecuta pg x (toolVerificarDisponibilidad zona ahora args) t
    = (Devuelve r, t,
       [ev_consulta (consulta_disponibilidad (ad_fecha args) (ad_hora args))])
    /\ r = disponibilidad args (disponible r)
    /\ (disponible r = true <->
        forall f, In f t -> f_fecha f = d -> f_hora f = h -> f_estado f = cancelado).
Proof.
  intros V1 V2 V3 Hd Hh.
  exists (disponibilidad args (negb (existsb (ocupa d h) t))).
  split; [now apply toolVerificarDisponibilidad_corre |].
  split; [reflexivity |]. cbn [disponible disponibilidad].
  rewrite negb_true_iff. split.
  - intros E f Hf Ed Eh.
    destruct (f_estado f) eqn:Ee; [| reflexivity].
    assert (existsb (ocupa d h) t = true); [| congruence].
    apply existsb_exists. exists f. split; [exact Hf |].
    unfold ocupa. now rewrite Ed, Eh, Ee, !Z.eqb_refl.
  - intros H. destruct (existsb (ocupa d h) t) eqn:E; [| reflexivity].
    apply existsb_exists in E. destruct E as (f & Hf & O).
    apply ocupa_inv in O. destruct O as (Ed & Eh & Ec).
    rewrite (H f Hf Ed Eh) in Ec. discriminate.
Qed.

End Servidor.

Lemma verificar_disponibilidad_de_un_hueco_witness :
  exists r,
    ejecuta PostgresISO.postgres (Ejemplos.con_correo Ejemplos.id_2)
      (toolVerificarDisponibilidad 0 Ejemplos.un_lunes
         {| ad_fecha := "2099-06-01"; ad_hora := "14:00" |})
      [Ejemplos.fila_ana cancelado]
    = (Devuelve r, [Ejemplos.fila_ana cancelado],
       [ev_consulta (consulta_disponibilidad "2099-06-01" "14:00")])
    /\ r = disponibilidad {| ad_fecha := "2099-06-01"; ad_hora := "14:00" |} (disponible r)
    /\ (disponible r = true <->
        forall f, In f [Ejemplos.fila_ana cancelado] ->
          f_fecha f = 47268%Z -> f_hora f = 50400%Z -> f_estado f = cancelado).
Proof.
  apply (verificar_disponibilidad_de_un_hueco PostgresISO.postgres 0 Ejemplos.un_lunes
           {| ad_fecha := "2099-06-01"; ad_hora := "14:00" |}
           (Ejemplos.con_correo Ejemplos.id_2) 47268 50400 [Ejemplos.fila_ana cancelado]);
    vm_compute; reflexivity.
Defined.

(** *** The two tools on one slot *)

(** X14: [toolVerificarDisponibilidad] does not make the fourth check of
    [toolReservarTurno] (date and time together): for a time of today that
    has passed, or a time with a one-digit hour, on a free slot, the first
    tool answers that the slot is available and the second refuses it
    without asking the store. *)
Theorem disponible_pero_no_reservable (pg : Tipos) (zona ahora : Z) (args : ArgsReserva)
    (x : Exterior) (d h : Z) (t : list Fila) :
  validarFormatoFecha zona (ar_fecha args) = true ->
  validarFormatoHora (ar_hora args) = true ->
  validarFechaFutura zona ahora (ar_fecha args) = true ->
  validarFechaHoraFutura zona ahora (ar_fecha args) (ar_hora args) = false ->
  date_in pg (ar_fecha args) = inr d -> time_in pg (ar_hora args) = inr h ->
  existsb (ocupa d h) t = false ->
  let slot := {| ad_fecha := ar_fecha args; ad_hora := ar_hora args |} in
  ejecuta pg x (toolVerificarDisponibilidad zona ahora slot) t
  = (Devuelve (disponibilidad slot true), t,
     [ev_consulta (consulta_disponibilidad (ar_fecha args) (ar_hora args))])
  /\ ejecuta pg x (toolReservarTurno zona ahora args) t
     = (Devuelve {| exito := false;
                    mensaje := mensaje_fecha_hora_pasada (ar_fecha args) (ar_hora args);
                    turno := None |}, t, []).
Proof.
  intros V1 V2 V3 V4 Hd Hh Hlibre slot. split.
  - rewrite (toolVerificarDisponibilidad_corre pg zona ahora slot x d h t)
      by assumption.
    rewrite Hlibre. reflexivity.
  - unfold toolReservarTurno. rewrite V1, V2, V3, V4. reflexivity.
Qed.

(** Today at 09:00, asked at 10:30 (UTC), and any future day at 9:30. *)
Definition esta_manana : ArgsReserva :=
  {| ar_fecha := "2026-11-02"; ar_hora := "09:00";
     ar_nombre_cliente := "Ana Gomez"; ar_email := "ana@example.com" |}.

Definition hora_sin_cero : ArgsReserva :=
  {| ar_fecha := "2099-06-01"; ar_hora := "9:30";
     ar_nombre_cliente := "Ana Gomez"; ar_email := "ana@example.com" |}.

Lemma disponible_pero_no_reservable_witness :
  (validarFechaFutura 0 Ejemplos.un_lunes "2026-11-02" = true
   /\ validarFechaHoraFutura 0 Ejemplos.un_lunes "2026-11-02" "09:00" = false
   /\ validarFormatoHora "9:30" = true)
  /\ (ejecuta PostgresISO.postgres (Ejemplos.con_correo Ejemplos.id_1)
        (toolVerificarDisponibilidad 0 Ejemplos.un_lunes
           {| ad_fecha := "2026-11-02"; ad_hora := "09:00" |}) []
      = (Devuelve (disponibilidad {| ad_fecha := "2026-11-02"; ad_hora := "09:00" |} true),
         [], [ev_consulta (consulta_disponibilidad "2026-11-02" "09:00")])
      /\ ejecuta PostgresISO.postgres (Ejemplos.con_correo Ejemplos.id_1)
           (toolReservarTurno 0 Ejemplos.un_lunes esta_manana) []
         = (Devuelve {| exito := false;
                        mensaje := mensaje_fecha_hora_pasada "2026-11-02" "09:00";
                        turno := None |}, [], []))
  /\ (ejecuta PostgresISO.postgres (Ejemplos.con_correo Ejemplos.id_1)
        (toolVerificarDisponibilidad 0 Ejemplos.un_lunes
           {| ad_fecha := "2099-06-01"; ad_hora := "9:30" |}) []
      = (Devuelve (disponibilidad {| ad_fecha := "2099-06-01"; ad_hora := "9:30" |} true),
         [], [ev_consulta (consulta_disponibilidad "2099-06-01" "9:30")])
      /\ ejecuta PostgresISO.postgres (Ejemplos.con_correo Ejemplos.id_1)
           (toolReservarTurno 0 Ejemplos.un_lunes hora_sin_cero) []
         = (Devuelve {| exito := false;
                        mensaje := mensaje_fecha_hora_pasada "2099-06-01" "9:30";
                        turno := None |}, [], [])).
Proof.
  split; [repeat split; vm_compute; reflexivity |]. split.
  - apply (disponible_pero_no_reservable PostgresISO.postgres 0 Ejemplos.un_lunes
             esta_manana (Ejemplos.con_correo Ejemplos.id_1) 20759 32400 []);
      vm_compute; reflexivity.
  - apply (disponible_pero_no_reservable PostgresISO.postgres 0 Ejemplos.un_lunes
             hora_sin_cero (Ejemplos.con_correo Ejemplos.id_1) 47268 34200 []);
      vm_compute; reflexivity.
Defined.

(** *** A date the validators take and the store does not *)

Lemma ejecutar_fecha_rechazada (pg : Tipos) (df : Defaults) (fecha hora : string)
    (e : PostgrestError) (t : list Fila) :
  date_in pg fecha = inl e ->
  ejecutar pg df (consulta_disponibilidad fecha hora) t = (fallida e, t).
Proof.
  intros Hd. unfold ejecutar, consulta_disponibilidad. cbn -[firstn ordena filter].
  rewrite Hd. reflexivity.
Qed.

(** X15: When the store cannot read the date of a reservation that passed the
    four checks (a 30th of February does), [toolReservarTurno] does not
    return a failure: it throws, with the error of the store, after its one
    request, and the table is as it was. *)
Theorem reserva_de_fecha_que_la_base_rechaza (pg : Tipos) (zona ahora : Z)
    (args : ArgsReserva) (x : Exterior) (e : PostgrestError) (t : list Fila) :
  pasa_validacion zona ahora args = true ->
  date_in pg (ar_fecha args) = inl e ->
  ejecuta pg x (toolReservarTurno zona ahora args) t
  = (Lanza ("Error al verificar disponibilidad: " ++ message e), t,
     [ev_consulta (consulta_disponibilidad (ar_fecha args) (ar_hora args))]).
Proof.
  intros V Hd. apply pasa_validacion_true in V. destruct V as (V1 & V2 & V3 & V4).
  unfold toolReservarTurno. rewrite V1, V2, V3, V4. cbn [negb].
  cbn [bind Monad_Prog]. rewrite ejecuta_bind.
  unfold verificarDisponibilidad. cbn [bind Monad_Prog bind_prog await ejecuta].
  fold (consulta_disponibilidad (ar_fecha args) (ar_hora args)).
  rewrite (ejecutar_fecha_rechazada pg (defaults x) _ _ e t Hd). reflexivity.
Qed.

Definition treinta_de_febrero : ArgsReserva :=
  {| ar_fecha := "2099-02-30"; ar_hora := "14:00";
     ar_nombre_cliente := "Ana Gomez"; ar_email := "ana@example.com" |}.

Lemma reserva_de_fecha_que_la_base_rechaza_witness :
  (pasa_validacion 0 Ejemplos.un_lunes treinta_de_febrero = true
   /\ date_in PostgresISO.postgres "2099-02-30"
      = inl (PostgresISO.e_fuera_de_rango "2099-02-30"))
  /\ ejecuta PostgresISO.postgres (Ejemplos.con_correo Ejemplos.id_1)
       (toolReservarTurno 0 Ejemplos.un_lunes treinta_de_febrero) []
     = (Lanza ("Error al verificar disponibilidad: date/time field value out of range: "
               ++ comillas ++ "2099-02-30" ++ comillas), [],
        [ev_consulta (consulta_disponibilidad "2099-02-30" "14:00")]).
Proof.
  split; [split; vm_compute; reflexivity |].
  apply (reserva_de_fecha_que_la_base_rechaza PostgresISO.postgres 0 Ejemplos.un_lunes
           treinta_de_febrero (Ejemplos.con_correo Ejemplos.id_1)
           (PostgresISO.e_fuera_de_rango "2099-02-30") []);
    vm_compute; reflexivity.
Defined.

(** *** Listing *)

(** The bound a date argument of [listarTurnos] puts on [fecha]: none for an
    absent or empty text, else the date the store reads in it. *)
Definition cota (pg : Tipos) (o : option string) : PostgrestError + option Z :=
  match o with
  | None => inr None
  | Some s =>
      if s =? "" then inr None
      else match date_in pg s with
           | inl e => inl e
           | inr d => inr (Some d)
           end
  end.

Definition en_rango (d1 d2 : option Z) (soloConfirmados : bool) (f : Fila) : bool :=
  match d1 with Some d => (d <=? f_fecha f)%Z | None => true end
  && match d2 with Some d => (f_fecha f <=? d)%Z | None => true end
  && (if soloConfirmados then es_confirmado (f_estado f) else true).

Lemma ordena_In (l : list Fila) (f : Fila) :
  In f (ordena [col_fecha; col_hora] l) <-> In f l.
Proof.
  split; apply Permutation_in; [| symmetry]; apply ordena_perm.
Qed.

Section Listar.

Variable pg : Tipos.

Lemma ejecutar_listar (df : Defaults) (desde hasta : option string) (solo : bool)
    (d1 d2 : option Z) (t : list Fila) :
  cota pg desde = inr d1 -> cota pg hasta = inr d2 ->
  exists q,
    peticion (listarTurnos desde hasta solo) = Some q
    /\ ejecutar pg df q t
       = (resuelta (d_filas (map (a_json pg)
            (ordena [col_fecha; col_hora] (filter (en_rango d1 d2 solo) t)))), t).
Proof.
  intros H1 H2. unfold listarTurnos. cbv zeta. cbn [bind Monad_Prog bind_prog await peticion].
  eexists. split; [reflexivity |].
  unfold cota in H1, H2.
  destruct desde as [s1 |]; [destruct (s1 =? "") |];
    (destruct hasta as [s2 |]; [destruct (s2 =? "") |]);
    try (destruct (date_in pg s1) as [e1 | z1] eqn:E1; [discriminate |]);
    try (destruct (date_in pg s2) as [e2 | z2] eqn:E2; [discriminate |]);
    injection H1 as <-; injection H2 as <-;
    destruct solo;
    unfold ejecutar; cbn -[filter ordena];
    rewrite ?E1, ?E2; cbn -[filter ordena];
    match goal with
    | |- context [filter ?F t] =>
        match goal with
        | |- _ = (resuelta (d_filas (map _ (ordena _ (filter ?G t)))), t) =>
            rewrite (@filter_ext _ F G); [reflexivity |]
        end
    end;
    intros f; unfold en_rango;
    rewrite ?mayor_igual_num, ?menor_igual_num, ?igual_estado, ?andb_true_r;
    cbn [andb]; rewrite ?andb_true_r, ?andb_assoc; reflexivity.
Qed.

(** X16: [listarTurnos], for every choice of its three arguments the store can
    read: one request; the rows within the bounds that were given (an empty
    text is no bound), confirmed or not as asked; sorted by date then time;
    the table as it was.  With no bound and [soloConfirmados] false it is the
    whole table, cancelled rows included. *)
Theorem listarTurnos_filtra_y_ordena (x : Exterior) (desde hasta : option string)
    (solo : bool) (d1 d2 : option Z) (t : list Fila) :
  cota pg desde = inr d1 -> cota pg hasta = inr d2 ->
  let filas := ordena [col_fecha; col_hora] (filter (en_rango d1 d2 solo) t) in
  (exists q,
     ejecuta pg x (listarTurnos desde hasta solo) t
     = (Devuelve (map (a_json pg) filas), t, [ev_consulta q]))
  /\ (forall f, In f filas <-> In f t /\ en_rango d1 d2 solo f = true)
  /\ StronglySorted no_despues filas
  /\ List.length filas <= List.length t.
Proof.
  intros H1 H2 filas. split; [| split; [| split]].
  - destruct (ejecutar_listar (defaults x) desde hasta solo d1 d2 t H1 H2) as (q & Hq & E).
    exists q. unfold listarTurnos in *. cbv zeta in *.
    cbn [bind Monad_Prog bind_prog await peticion ejecuta] in *.
    injection Hq as Hq. rewrite Hq, E. reflexivity.
  - intros f. unfold filas. rewrite ordena_In. apply filter_In.
  - apply ordena_ordenada.
  - unfold filas. rewrite (Permutation_length (ordena_perm _ _)). apply filter_length_le.
Qed.

End Listar.

Lemma listarTurnos_filtra_y_ordena_witness :
  exists q,
    ejecuta PostgresISO.postgres (Ejemplos.con_correo Ejemplos.id_2)
      (listarTurnos (Some "") None false) [Ejemplos.fila_ana cancelado]
    = (Devuelve (map (a_json PostgresISO.postgres) [Ejemplos.fila_ana cancelado]),
       [Ejemplos.fila_ana cancelado], [ev_consulta q]).
Proof.
  apply (listarTurnos_filtra_y_ordena PostgresISO.postgres (Ejemplos.con_correo Ejemplos.id_2)
           (Some "") None false None None [Ejemplos.fila_ana cancelado]);
    reflexivity.
Defined.

Lemma o_bien_no_vacio (o : option string) (d : string) : d <> "" -> o_bien o d <> "".
Proof.
  intros Hd. destruct o as [s |]; cbn; [| exact Hd].
  destruct (String.eqb_spec s ""); assumption.
Qed.

Lemma o_bien_truthy (o : option string) (d : string) :
  truthy o = true -> o_bien o "" = o_bien o d.
Proof.
  destruct o as [s |]; cbn; [| discriminate]. now destruct (s =? "").
Qed.

Section Rango.

Variable pg : Tipos.

(** X17: [toolListarTurnos] with its arguments: the range runs from [fechaDesde]
    (today in UTC when absent or empty) to [fechaHasta] (the start of the
    range when absent or empty).  When the dates that were given are well
    formed and the store reads both ends, the tool makes one request, leaves
    the table as it is, and returns the confirmed rows of the range, both
    ends included, sorted by date then time; a range whose end comes before
    its start is empty, not an error. *)
Theorem listar_un_rango (zona ahora : Z) (args : ArgsListado) (x : Exterior)
    (d1 d2 : Z) (t : list Fila) :
  let desde := o_bien (fechaDesde args) (JSDate.toISODate ahora) in
  let hasta := o_bien (fechaHasta args) desde in
  (truthy (fechaDesde args) = true -> validarFormatoFecha zona desde = true) ->
  (truthy (fechaHasta args) = true -> validarFormatoFecha zona hasta = true) ->
  date_in pg desde = inr d1 -> date_in pg hasta = inr d2 ->
  let filas := ordena [col_fecha; col_hora] (filter (en_rango (Some d1) (Some d2) true) t) in
  (exists l q,
     ejecuta pg x (toolListarTurnos zona ahora args) t = (Devuelve l, t, [ev_consulta q])
     /\ cantidad l = List.length filas
     /\ turnos l = map resumen (map (a_json pg) filas))
  /\ (forall f, In f filas <->
        In f t /\ (d1 <= f_fecha f <= d2)%Z /\ f_estado f = confirmado)
  /\ StronglySorted no_despues filas
  /\ ((d2 < d1)%Z -> filas = []).
Proof.
  intros desde hasta V1 V2 H1 H2 filas.
  assert (N1 : desde <> "") by (apply o_bien_no_vacio, toISODate_no_vacia).
  assert (N2 : hasta <> "") by (apply o_bien_no_vacio, N1).
  assert (HIn : forall f, In f filas <->
                  In f t /\ (d1 <= f_fecha f <= d2)%Z /\ f_estado f = confirmado).
  { intros f. unfold filas. rewrite ordena_In, filter_In. unfold en_rango.
    rewrite !andb_true_iff, !Z.leb_le.
    destruct (f_estado f); cbn [es_confirmado]; intuition congruence. }
  assert (HS : StronglySorted no_despues filas) by apply ordena_ordenada.
  assert (E : exists q,
             ejecuta pg x (listarTurnos (Some desde) (Some hasta) true) t
             = (Devuelve (map (a_json pg) filas), t, [ev_consulta q])).
  { eexists. exact (listarTurnos_corre pg x desde hasta d1 d2 t N1 N2 H1 H2). }
  destruct E as (q & E). clearbody filas.
  split; [| split; [exact HIn | split; [exact HS |]]].
  - unfold toolListarTurnos. cbv zeta. fold desde. fold hasta.
    replace (truthy (fechaDesde args)
             && negb (validarFormatoFecha zona (o_bien (fechaDesde args) ""))) with false.
    2:{ destruct (truthy (fechaDesde args)) eqn:T; [| reflexivity].
        rewrite (o_bien_truthy _ (JSDate.toISODate ahora) T). fold desde.
        now rewrite (V1 eq_refl). }
    replace (truthy (fechaHasta args)
             && negb (validarFormatoFecha zona (o_bien (fechaHasta args) ""))) with false.
    2:{ destruct (truthy (fechaHasta args)) eqn:T; [| reflexivity].
        rewrite (o_bien_truthy _ desde T). fold hasta. now rewrite (V2 eq_refl). }
    cbn [bind Monad_Prog]. rewrite ejecuta_bind, E. rewrite !length_map.
    destruct filas as [| f filas']; do 2 eexists; repeat split; reflexivity.
  - intros Hlt. destruct filas as [| f filas']; [reflexivity |].
    assert (In f (f :: filas')) as Hf by now left.
    apply HIn in Hf. lia.
Qed.

End Rango.

Lemma listar_un_rango_witness :
  (validarFormatoFecha 0 "2099-06-01" = true
   /\ date_in PostgresISO.postgres "2099-06-01" = inr 47268%Z)
  /\ exists l q,
       ejecuta PostgresISO.postgres (Ejemplos.con_correo Ejemplos.id_2)
         (toolListarTurnos 0 Ejemplos.un_lunes
            {| fechaDesde := Some "2099-06-01"; fechaHasta := None |})
         [Ejemplos.fila_ana confirmado]
       = (Devuelve l, [Ejemplos.fila_ana confirmado], [ev_consulta q])
       /\ cantidad l = 1
       /\ turnos l = map resumen (map (a_json PostgresISO.postgres)
                                    [Ejemplos.fila_ana confirmado]).
Proof.
  split; [split; vm_compute; reflexivity |].
  apply (listar_un_rango PostgresISO.postgres 0 Ejemplos.un_lunes
           {| fechaDesde := Some "2099-06-01"; fechaHasta := None |}
           (Ejemplos.con_correo Ejemplos.id_2) 47268 47268 [Ejemplos.fila_ana confirmado]).
  - intros _. vm_compute. reflexivity.
  - intros H. vm_compute in H. discriminate.
  - vm_compute. reflexivity.
  - vm_compute. reflexivity.
Defined.

(** *** Rejected input of the tools that read *)

(** The first date of [args] that was given and is malformed. *)
Definition fecha_mal_formada (zona : Z) (args : ArgsListado) : option string :=
  if truthy (fechaDesde args)
     && negb (validarFormatoFecha zona (o_bien (fechaDesde args) ""))
  then fechaDesde args
  else if truthy (fechaHasta args)
          && negb (validarFormatoFecha zona (o_bien (fechaHasta args) ""))
  then fechaHasta args
  else None.

(** X18: [toolListarTurnos] answers a malformed date with an empty list that
    names it, [fechaDesde] first, and makes no request; so does
    [toolVerificarDisponibilidad] with an answer of no availability when one
    of its three checks fails.  Neither touches the table. *)
Theorem lectura_rechazada_sin_consulta (pg : Tipos) (zona ahora : Z) (x : Exterior)
    (t : list Fila) :
  (forall (args : ArgsListado) (mala : string),
     fecha_mal_formada zona args = Some mala ->
     ejecuta pg x (toolListarTurnos zona ahora args) t
     = (Devuelve {| cantidad := 0;
                    l_mensaje := mensaje_lista_fecha_invalida mala;
                    turnos := [] |}, t, []))
  /\ (forall args : ArgsDisponibilidad,
        validarFormatoFecha zona (ad_fecha args)
        && validarFormatoHora (ad_hora args)
        && validarFechaFutura zona ahora (ad_fecha args) = false ->
        exists r,
          ejecuta pg x (toolVerificarDisponibilidad zona ahora args) t = (Devuelve r, t, [])
          /\ disponible r = false).
Proof.
  split.
  - intros args mala H. unfold fecha_mal_formada in H. unfold toolListarTurnos. cbv zeta.
    destruct (truthy (fechaDesde args)
              && negb (validarFormatoFecha zona (o_bien (fechaDesde args) ""))) eqn:E1.
    + rewrite H. apply andb_true_iff in E1. destruct E1 as [T _].
      destruct mala; [rewrite H in T; discriminate |]. reflexivity.
    + destruct (truthy (fechaHasta args)
                && negb (validarFormatoFecha zona (o_bien (fechaHasta args) ""))) eqn:E2;
        [| discriminate].
      rewrite H. apply andb_true_iff in E2. destruct E2 as [T _].
      destruct mala; [rewrite H in T; discriminate |]. reflexivity.
  - intros args H. unfold toolVerificarDisponibilidad.
    destruct (validarFormatoFecha zona (ad_fecha args)); cbn [negb];
      [| eexists; split; reflexivity].
    destruct (validarFormatoHora (ad_hora args)); cbn [negb];
      [| eexists; split; reflexivity].
    destruct (validarFechaFutura zona ahora (ad_fecha args)); cbn [negb];
      [discriminate | eexists; split; reflexivity].
Qed.

(** *** Writing a row and reading it back *)

Lemma NoDup_ids_insertar (f : Fila) (t : list Fila) :
  NoDup (map f_id t) -> existsb (fun g => f_id g =? f_id f) t = false ->
  NoDup (map f_id (t ++ [f])).
Proof.
  intros N H. rewrite map_app. cbn [map].
  apply (Permutation_NoDup (l := f_id f :: map f_id t)).
  - change (f_id f :: map f_id t) with ([f_id f] ++ map f_id t)%list.
    apply Permutation_app_comm.
  - constructor; [apply existsb_id; assumption | assumption].
Qed.

(** X19: What [crearTurno] returns is what [obtenerTurnoPorId] finds under the
    returned id, and the row is the last of the table.  The id the default
    of the column gives is new and in its canonical text. *)
Theorem crear_y_obtener (pg : Tipos) (x x' : Exterior) (turno : NuevoTurno) (f : Fila)
    (t : list Fila) :
  fila_nueva pg (defaults x) (valores_de turno) = inr f ->
  NoDup (map f_id t) ->
  existsb (fun g => f_id g =? f_id f) t = false ->
  es_confirmado (f_estado f) && existsb (ocupa (f_fecha f) (f_hora f)) t = false ->
  uuid_in pg (f_id f) = inr (f_id f) ->
  exists creado,
    fst (ejecuta pg x (crearTurno turno) t) = (Devuelve (Some creado), (t ++ [f])%list)
    /\ id creado = f_id f
    /\ estado creado = match n_estado turno with Some e => e | None => confirmado end
    /\ fst (ejecuta pg x' (obtenerTurnoPorId (id creado)) (t ++ [f]))
       = (Devuelve (Some creado), (t ++ [f])%list).
Proof.
  intros Hf N Hid Hs Hu. exists (a_json pg f).
  destruct (fila_nueva_inv _ _ _ _ Hf) as (_ & _ & Ef).
  split; [| split; [reflexivity | split]].
  - rewrite (crearTurno_corre pg x turno f t Hf). rewrite Hid, Hs. reflexivity.
  - rewrite Ef. reflexivity.
  - cbn [id a_json].
    rewrite (obtenerTurnoPorId_corre pg x' (f_id f) (f_id f) (t ++ [f]) Hu).
    rewrite (filter_id_unico f (t ++ [f])).
    + reflexivity.
    + apply NoDup_ids_insertar; assumption.
    + apply in_or_app. right. now left.
Qed.

Lemma crear_y_obtener_witness :
  exists creado,
    fst (ejecuta PostgresISO.postgres (Ejemplos.con_correo Ejemplos.id_1)
           (crearTurno {| n_fecha := "2099-06-01"; n_hora := "14:00";
                          n_nombre_cliente := "Ana Gomez"; n_email := "ana@example.com";
                          n_estado := None |}) [])
    = (Devuelve (Some creado), ([] ++ [Ejemplos.fila_ana confirmado])%list)
    /\ id creado = f_id (Ejemplos.fila_ana confirmado)
    /\ estado creado = confirmado
    /\ fst (ejecuta PostgresISO.postgres (Ejemplos.con_correo Ejemplos.id_2)
              (obtenerTurnoPorId (id creado)) ([] ++ [Ejemplos.fila_ana confirmado]))
       = (Devuelve (Some creado), ([] ++ [Ejemplos.fila_ana confirmado])%list).
Proof.
  apply (crear_y_obtener PostgresISO.postgres (Ejemplos.con_correo Ejemplos.id_1)
           (Ejemplos.con_correo Ejemplos.id_2)
           {| n_fecha := "2099-06-01"; n_hora := "14:00";
              n_nombre_cliente := "Ana Gomez"; n_email := "ana@example.com";
              n_estado := None |} (Ejemplos.fila_ana confirmado) []).
  - vm_compute. reflexivity.
  - constructor.
  - reflexivity.
  - reflexivity.
  - vm_compute. reflexivity.
Defined.

(** *** Cancelling frees the slot *)

Lemma activos_sin_la_fila (f : Fila) (t : list Fila) :
  NoDup (map f_id t) -> In f t -> f_estado f = confirmado ->
  List.length (activos (f_fecha f) (f_hora f) t) <= 1 ->
  activos (f_fecha f) (f_hora f)
    (map (fun g => if f_id g =? f_id f then con_estado cancelado g else g) t) = [].
Proof.
  intros N Hin Hc U.
  set (d := f_fecha f) in *. set (h := f_hora f) in *.
  assert (A : activos d h t = [f]).
  { assert (Hf : In f (activos d h t)).
    { apply filter_In. split; [exact Hin |]. unfold d, h. now rewrite ocupa_propia, Hc. }
    destruct (activos d h t) as [| a [| b l]].
    - destruct Hf.
    - destruct Hf as [-> | []]. reflexivity.
    - cbn in U. lia. }
  destruct (activos d h (map (fun g => if f_id g =? f_id f then con_estado cancelado g else g) t))
    as [| g' l] eqn:E; [reflexivity |].
  assert (Hg' : In g' (g' :: l)) by now left.
  rewrite <- E in Hg'. apply filter_In in Hg'. destruct Hg' as [Hm O].
  apply in_map_iff in Hm. destruct Hm as (g & Eg & Hg).
  destruct (String.eqb_spec (f_id g) (f_id f)) as [Eid | Nid].
  - subst g'. unfold ocupa in O. cbn [con_estado f_estado es_confirmado] in O.
    rewrite andb_false_r in O. discriminate.
  - subst g'. assert (In g (activos d h t)) as Hga by (apply filter_In; auto).
    rewrite A in Hga. destruct Hga as [-> | []]. contradiction.
Qed.

(** X20: Cancelling a confirmed reservation leaves no confirmed row at its slot,
    so that the slot can be reserved again; this rests on the unique index,
    by which the cancelled row was the only confirmed one there.  The table
    keeps its rows. *)
Theorem cancelar_libera_el_hueco (pg : Tipos) (x : Exterior) (turnoId : string) (f : Fila)
    (t : list Fila) :
  integra t -> In f t -> f_estado f = confirmado ->
  uuid_in pg turnoId = inr (f_id f) ->
  exists t',
    ejecuta pg x (toolCancelarTurno {| turnoId := turnoId |}) t
    = (Devuelve (cancelacion_hecha pg f), t', [ev_consulta (consulta_cancelacion turnoId)])
    /\ existsb (ocupa (f_fecha f) (f_hora f)) t = true
    /\ existsb (ocupa (f_fecha f) (f_hora f)) t' = false
    /\ List.length t' = List.length t
    /\ In (con_estado cancelado f) t'.
Proof.
  intros [N U] Hin Hc Hu.
  exists (map (fun g => if f_id g =? f_id f then con_estado cancelado g else g) t).
  split; [| split; [| split; [| split]]].
  - apply cancelar_corre; assumption.
  - apply existsb_exists. exists f. split; [exact Hin |]. now rewrite ocupa_propia, Hc.
  - rewrite activos_existsb, (activos_sin_la_fila f t N Hin Hc (U _ _)). reflexivity.
  - apply length_map.
  - apply in_map_iff. exists f. split; [| exact Hin]. now rewrite String.eqb_refl.
Qed.

Lemma cancelar_libera_el_hueco_witness :
  exists t',
    ejecuta PostgresISO.postgres (Ejemplos.con_correo Ejemplos.id_2)
      (toolCancelarTurno {| turnoId := Ejemplos.id_1 |}) [Ejemplos.fila_ana confirmado]
    = (Devuelve (cancelacion_hecha PostgresISO.postgres (Ejemplos.fila_ana confirmado)), t',
       [ev_consulta (consulta_cancelacion Ejemplos.id_1)])
    /\ existsb (ocupa 47268 50400) [Ejemplos.fila_ana confirmado] = true
    /\ existsb (ocupa 47268 50400) t' = false
    /\ List.length t' = 1
    /\ In (con_estado cancelado (Ejemplos.fila_ana confirmado)) t'.
Proof.
  apply (cancelar_libera_el_hueco PostgresISO.postgres (Ejemplos.con_correo Ejemplos.id_2)
           Ejemplos.id_1 (Ejemplos.fila_ana confirmado) [Ejemplos.fila_ana confirmado]).
  - apply integra_una_fila.
  - now left.
  - reflexivity.
  - vm_compute. reflexivity.
Defined.

(** *** Reserve, ask, cancel, ask *)

Lemma ocupa_tras_cancelar (d h : Z) (u : string) (t : list Fila) :
  existsb (ocupa d h) t = false ->
  existsb (ocupa d h)
    (map (fun g => if f_id g =? u then con_estado cancelado g else g) t) = false.
Proof.
  intros H. rewrite activos_existsb, negb_false_iff, Nat.eqb_eq in *.
  pose proof (activos_cancelar (fun g => f_id g =? u) d h t) as P.
  cbv beta in P. rewrite H in P. apply Nat.le_0_r. exact P.
Qed.

(** X21: The tools agree on the table between calls: on a free slot a
    reservation that passes the checks succeeds and hands out the id of its
    row; asked then, [toolVerificarDisponibilidad] says the slot is taken;
    [toolCancelarTurno] with the id that was handed out succeeds; asked
    again, the slot is free. *)
Theorem reservar_preguntar_cancelar_preguntar (pg : Tipos) (zona ahora : Z)
    (args : ArgsReserva) (x x1 x2 x3 : Exterior) (f : Fila) (t : list Fila) :
  pasa_validacion zona ahora args = true ->
  fila_nueva pg (defaults x) (valores_reserva args) = inr f ->
  existsb (ocupa (f_fecha f) (f_hora f)) t = false ->
  NoDup (map f_id t) ->
  existsb (fun g => f_id g =? f_id f) t = false ->
  uuid_in pg (f_id f) = inr (f_id f) ->
  let slot := {| ad_fecha := ar_fecha args; ad_hora := ar_hora args |} in
  exists r t1 t2,
    fst (ejecuta pg x (toolReservarTurno zona ahora args) t) = (Devuelve r, t1)
    /\ exito r = true
    /\ option_map tr_id (turno r) = Some (f_id f)
    /\ fst (ejecuta pg x1 (toolVerificarDisponibilidad zona ahora slot) t1)
       = (Devuelve (disponibilidad slot false), t1)
    /\ fst (ejecuta pg x2 (toolCancelarTurno {| turnoId := f_id f |}) t1)
       = (Devuelve (cancelacion_hecha pg f), t2)
    /\ fst (ejecuta pg x3 (toolVerificarDisponibilidad zona ahora slot) t2)
       = (Devuelve (disponibilidad slot true), t2).
Proof.
  intros V Hf Hlibre N Hid Hu slot.
  destruct (reserva_corre pg zona ahora args x t f V Hf Hlibre Hid) as (m & E & _).
  destruct (fila_nueva_inv _ _ _ _ Hf) as (Hd & Hh & Ef). cbn in Hd, Hh.
  apply pasa_validacion_true in V. destruct V as (V1 & V2 & V3 & V4).
  assert (Ec : f_estado f = confirmado) by (rewrite Ef; reflexivity).
  set (t1 := (t ++ [f])%list).
  set (t2 := map (fun g => if f_id g =? f_id f then con_estado cancelado g else g) t1).
  eexists. exists t1, t2.
  split; [rewrite E; reflexivity |]. split; [reflexivity |]. split; [reflexivity |].
  split; [| split].
  - rewrite (toolVerificarDisponibilidad_corre pg zona ahora slot x1
               (f_fecha f) (f_hora f) t1) by assumption.
    unfold t1. rewrite existsb_app. cbn [existsb]. rewrite ocupa_propia, Ec.
    cbn [es_confirmado]. rewrite orb_true_r. reflexivity.
  - rewrite (cancelar_corre pg x2 (f_id f) f t1 Hu).
    + reflexivity.
    + apply in_or_app. right. now left.
    + apply NoDup_ids_insertar; assumption.
  - rewrite (toolVerificarDisponibilidad_corre pg zona ahora slot x3
               (f_fecha f) (f_hora f) t2) by assumption.
    unfold t2, t1. rewrite map_app, existsb_app.
    rewrite (ocupa_tras_cancelar _ _ (f_id f) t Hlibre).
    cbn [map existsb]. rewrite String.eqb_refl.
    unfold ocupa. cbn [con_estado f_estado es_confirmado].
    rewrite andb_false_r. reflexivity.
Qed.

Lemma reservar_preguntar_cancelar_preguntar_witness :
  pasa_validacion 0 Ejemplos.un_lunes Ejemplos.ana = true
  /\ exists r t1 t2,
       fst (ejecuta PostgresISO.postgres (Ejemplos.con_correo Ejemplos.id_1)
              (toolReservarTurno 0 Ejemplos.un_lunes Ejemplos.ana) [])
       = (Devuelve r, t1)
       /\ exito r = true
       /\ option_map tr_id (turno r) = Some Ejemplos.id_1
       /\ fst (ejecuta PostgresISO.postgres (Ejemplos.con_correo Ejemplos.id_2)
                 (toolVerificarDisponibilidad 0 Ejemplos.un_lunes
                    {| ad_fecha := "2099-06-01"; ad_hora := "14:00" |}) t1)
          = (Devuelve (disponibilidad {| ad_fecha := "2099-06-01"; ad_hora := "14:00" |}
                         false), t1)
       /\ fst (ejecuta PostgresISO.postgres (Ejemplos.con_correo Ejemplos.id_3)
                 (toolCancelarTurno {| turnoId := Ejemplos.id_1 |}) t1)
          = (Devuelve (cancelacion_hecha PostgresISO.postgres (Ejemplos.fila_ana confirmado)),
             t2)
       /\ fst (ejecuta PostgresISO.postgres (Ejemplos.con_correo Ejemplos.id_4)
                 (toolVerificarDisponibilidad 0 Ejemplos.un_lunes
                    {| ad_fecha := "2099-06-01"; ad_hora := "14:00" |}) t2)
          = (Devuelve (disponibilidad {| ad_fecha := "2099-06-01"; ad_hora := "14:00" |}
                         true), t2).
Proof.
  split; [vm_compute; reflexivity |].
  apply (reservar_preguntar_cancelar_preguntar PostgresISO.postgres 0 Ejemplos.un_lunes
           Ejemplos.ana (Ejemplos.con_correo Ejemplos.id_1)
           (Ejemplos.con_correo Ejemplos.id_2) (Ejemplos.con_correo Ejemplos.id_3)
           (Ejemplos.con_correo Ejemplos.id_4) (Ejemplos.fila_ana confirmado) []).
  - vm_compute. reflexivity.
  - vm_compute. reflexivity.
  - reflexivity.
  - constructor.
  - reflexivity.
  - vm_compute. reflexivity.
Defined.

(** *** The confirmation mail *)

(** X22: [enviarEmailConfirmacion] hands one mail to the transport, addressed to
    the client and with the date and time in its subject; it makes no
    request to the store, tells whether the mail went out, and throws
    nothing when the transport fails. *)
Theorem enviarEmailConfirmacion_un_correo (pg : Tipos) (x : Exterior) (datos : DatosEmail)
    (t : list Fila) :
  nunca_lanza (enviarEmailConfirmacion datos)
  /\ exists m,
       ejecuta pg x (enviarEmailConfirmacion datos) t
       = (Devuelve (match envio x with None => true | Some _ => false end), t,
          [ev_correo m])
       /\ to m = de_email datos
       /\ subject m = "✅ Turno confirmado - " ++ de_fecha datos ++ " a las "
                      ++ de_hora datos
       /\ html_datos m = datos.
Proof.
  split; [apply enviarEmailConfirmacion_nunca_lanza |].
  eexists. split.
  - unfold enviarEmailConfirmacion, sendMail. cbn. destruct (envio x); reflexivity.
  - repeat split.
Qed.

(** *** An id the store cannot read *)

Lemma ejecutar_id_rechazado (pg : Tipos) (df : Defaults) (q : Consulta) (turnoId : string)
    (e : PostgrestError) (t : list Fila) :
  uuid_in pg turnoId = inl e ->
  c_tabla q = "turnos" ->
  c_filtros q = [{| f_op := op_eq; f_columna := "id"; f_valor := turnoId |}] ->
  ejecutar pg df q t = (fallida e, t).
Proof.
  intros Hu Ht Hf. unfold ejecutar. rewrite Ht, Hf. cbn. rewrite Hu. reflexivity.
Qed.

(** X23: An id that is not a UUID (the tool takes any text) is an error of the
    store, not an absent row.  [toolCancelarTurno] turns it into a failure
    that carries the message of the store; [obtenerTurnoPorId], which only
    takes PGRST116 for an absent row, throws.  The table is as it was. *)
Theorem id_que_no_es_uuid (pg : Tipos) (x : Exterior) (turnoId : string)
    (e : PostgrestError) (t : list Fila) :
  uuid_in pg turnoId = inl e ->
  code e <> "PGRST116" ->
  ejecuta pg x (toolCancelarTurno {| turnoId := turnoId |}) t
  = (Devuelve {| exito := false;
                 mensaje := mensaje_error_cancelacion
                              ("Error al cancelar turno: " ++ message e);
                 turno := None |},
     t, [ev_consulta (consulta_cancelacion turnoId)])
  /\ ejecuta pg x (obtenerTurnoPorId turnoId) t
     = (Lanza ("Error al obtener turno: " ++ message e), t,
        [ev_consulta (consulta_por_id turnoId)]).
Proof.
  intros Hu Hc. split.
  - unfold toolCancelarTurno, cancelarTurno.
    cbn [bind Monad_Prog catch Exception_Prog Tools.turnoId bind_prog catch_prog await
         ejecuta].
    fold (consulta_cancelacion turnoId).
    rewrite (ejecutar_id_rechazado pg (defaults x) (consulta_cancelacion turnoId)
               turnoId e t Hu eq_refl eq_refl).
    reflexivity.
  - unfold obtenerTurnoPorId.
    cbn [bind Monad_Prog bind_prog await ejecuta].
    fold (consulta_por_id turnoId).
    rewrite (ejecutar_id_rechazado pg (defaults x) (consulta_por_id turnoId)
               turnoId e t Hu eq_refl eq_refl).
    cbn [error fallida]. destruct (String.eqb_spec (code e) "PGRST116"); [contradiction |].
    reflexivity.
Qed.

Lemma id_que_no_es_uuid_witness :
  uuid_in PostgresISO.postgres "42" = inl (PostgresISO.e_sintaxis "22P02" "uuid" "42")
  /\ ejecuta PostgresISO.postgres (Ejemplos.con_correo Ejemplos.id_2)
       (toolCancelarTurno {| turnoId := "42" |}) [Ejemplos.fila_ana confirmado]
     = (Devuelve {| exito := false;
                    mensaje := mensaje_error_cancelacion
                                 ("Error al cancelar turno: invalid input syntax for type uuid: "
                                  ++ comillas ++ "42" ++ comillas);
                    turno := None |},
        [Ejemplos.fila_ana confirmado], [ev_consulta (consulta_cancelacion "42")]).
Proof.
  split; [vm_compute; reflexivity |].
  apply (id_que_no_es_uuid PostgresISO.postgres (Ejemplos.con_correo Ejemplos.id_2) "42"
           (PostgresISO.e_sintaxis "22P02" "uuid" "42") [Ejemplos.fila_ana confirmado]).
  - vm_compute. reflexivity.
  - cbn. discriminate.
Defined.

End Recorridos.


(* ===================================================================== *)
(** ** The migration script                                               *)
(* ===================================================================== *)

Module SetupDbFacts.
Import SetupDb.

(** A byte of an ASCII character that is no white space: it is part of no
    white space of [trim]. *)
Definition ajeno (a : ascii) : bool := (cod a <? 128)%N && negb (blanco1 a).

Lemma blanco2_altos (a b : ascii) :
  blanco2 a b = true -> (128 <= cod a)%N /\ (128 <= cod b)%N.
Proof.
  unfold blanco2. rewrite andb_true_iff, !N.eqb_eq. lia.
Qed.

Lemma blanco3_altos (a b c : ascii) :
  blanco3 a b c = true -> (128 <= cod a)%N /\ (128 <= cod b)%N /\ (128 <= cod c)%N.
Proof.
  unfold blanco3.
  rewrite !orb_true_iff, !andb_true_iff, !orb_true_iff, !andb_true_iff, !N.eqb_eq, !N.leb_le.
  lia.
Qed.

Lemma ajeno_bajo (a : ascii) : ajeno a = true -> (cod a < 128)%N /\ blanco1 a = false.
Proof.
  unfold ajeno. rewrite andb_true_iff, N.ltb_lt, negb_true_iff. tauto.
Qed.

Lemma blanco2_ajeno (al_reves : bool) (a b : ascii) :
  ajeno a = true \/ ajeno b = true ->
  (if al_reves then blanco2 b a else blanco2 a b) = false.
Proof.
  intros H. destruct al_reves.
  - destruct (blanco2 b a) eqn:E; [| reflexivity].
    apply blanco2_altos in E. destruct H as [H | H]; apply ajeno_bajo in H; lia.
  - destruct (blanco2 a b) eqn:E; [| reflexivity].
    apply blanco2_altos in E. destruct H as [H | H]; apply ajeno_bajo in H; lia.
Qed.

Lemma blanco3_ajeno (al_reves : bool) (a b c : ascii) :
  ajeno a = true \/ ajeno b = true \/ ajeno c = true ->
  (if al_reves then blanco3 c b a else blanco3 a b c) = false.
Proof.
  intros H. destruct al_reves.
  - destruct (blanco3 c b a) eqn:E; [| reflexivity].
    apply blanco3_altos in E. destruct H as [H | [H | H]]; apply ajeno_bajo in H; lia.
  - destruct (blanco3 a b c) eqn:E; [| reflexivity].
    apply blanco3_altos in E. destruct H as [H | [H | H]]; apply ajeno_bajo in H; lia.
Qed.

(** Removing white space stops at such a byte, at the latest. *)
Lemma quita_blancos_ajeno (al_reves : bool) (a : ascii) (y : Texto) :
  ajeno a = true ->
  forall (n : nat) (w : Texto),
    List.length w <= n ->
    exists z, quita_blancos al_reves (w ++ a :: y)%list = (z ++ a :: y)%list.
Proof.
  intros Ha.
  assert (B1 : blanco1 a = false) by (apply ajeno_bajo in Ha; tauto).
  assert (Base : quita_blancos al_reves (a :: y) = a :: y).
  { cbn [quita_blancos]. rewrite B1. destruct y as [| b [| c y']]; [reflexivity | |].
    - rewrite (blanco2_ajeno al_reves a b) by auto. reflexivity.
    - rewrite (blanco2_ajeno al_reves a b) by auto.
      rewrite (blanco3_ajeno al_reves a b c) by auto. reflexivity. }
  induction n as [| n IH]; intros w Hw.
  - destruct w; [| cbn in Hw; lia]. exists []. exact Base.
  - destruct w as [| a0 w]; [exists []; exact Base |].
    cbn [app quita_blancos]. cbn [List.length] in Hw.
    destruct (blanco1 a0); [apply IH; lia |].
    destruct w as [| b w].
    + cbn [app]. rewrite (blanco2_ajeno al_reves a0 a) by auto.
      destruct y as [| c y'].
      * exists [a0]. reflexivity.
      * rewrite (blanco3_ajeno al_reves a0 a c) by auto. exists [a0]. reflexivity.
    + cbn [app]. cbn [List.length] in Hw.
      destruct (if al_reves then blanco2 b a0 else blanco2 a0 b); [apply IH; lia |].
      destruct w as [| c w].
      * cbn [app]. rewrite (blanco3_ajeno al_reves a0 b a) by auto.
        exists [a0; b]. reflexivity.
      * cbn [app]. cbn [List.length] in Hw.
        destruct (if al_reves then blanco3 c b a0 else blanco3 a0 b c); [apply IH; lia |].
        exists (a0 :: b :: c :: w). reflexivity.
Qed.

Lemma quita_blancos_largo (al_reves : bool) (s : Texto) :
  List.length (quita_blancos al_reves s) <= List.length s.
Proof.
  remember (List.length s) as n eqn:En.
  assert (Hn : List.length s <= n) by lia. rewrite En. clear En. revert s Hn.
  induction n as [| n IH]; intros s Hn.
  - destruct s; [cbn; lia | cbn in Hn; lia].
  - destruct s as [| a s1]; [cbn; lia |]. cbn [quita_blancos]. cbn [List.length] in *.
    destruct (blanco1 a); [specialize (IH s1 ltac:(lia)); lia |].
    destruct s1 as [| b s2]; [cbn; lia |]. cbn [List.length] in *.
    destruct (if al_reves then blanco2 b a else blanco2 a b);
      [specialize (IH s2 ltac:(lia)); lia |].
    destruct s2 as [| c s3]; [cbn; lia |]. cbn [List.length] in *.
    destruct (if al_reves then blanco3 c b a else blanco3 a b c);
      [specialize (IH s3 ltac:(lia)); lia |].
    cbn; lia.
Qed.

Lemma startsWith_app (p x : Texto) : startsWith p (p ++ x)%list = true.
Proof.
  induction p as [| a p IH]; [reflexivity |]. cbn. now rewrite Ascii.eqb_refl.
Qed.

Lemma startsWith_inv (p s : Texto) :
  startsWith p s = true -> exists x, s = (p ++ x)%list.
Proof.
  revert s. induction p as [| a p IH]; intros s H.
  - exists s. reflexivity.
  - destruct s as [| b s]; [discriminate |]. cbn in H.
    apply andb_true_iff in H. destruct H as [E H]. apply Ascii.eqb_eq in E. subst b.
    destruct (IH s H) as [x ->]. exists x. reflexivity.
Qed.

(** A text that starts and ends its first part [p ++ [a]] with such bytes
    keeps that part when trimmed. *)
Lemma trim_conserva_el_inicio (a0 a : ascii) (p x : Texto) :
  ajeno a0 = true -> ajeno a = true ->
  exists z, trim (a0 :: p ++ a :: x)%list = (a0 :: p ++ a :: z)%list.
Proof.
  intros H0 Ha. unfold trim.
  destruct (quita_blancos_ajeno false a0 (p ++ a :: x)%list H0 0 [] (Nat.le_refl 0))
    as [z0 E0].
  cbn [app] in E0. rewrite E0.
  assert (Z0 : z0 = []).
  { apply (f_equal (@List.length ascii)) in E0.
    pose proof (quita_blancos_largo false (a0 :: p ++ a :: x)%list) as L.
    rewrite E0 in L. rewrite length_app in L. cbn [List.length] in L.
    destruct z0; [reflexivity | cbn in L; lia]. }
  subst z0. cbn [app].
  replace (rev (a0 :: p ++ a :: x)%list) with (rev x ++ a :: rev (a0 :: p))%list.
  2:{ change (a0 :: p ++ a :: x)%list with ((a0 :: p) ++ a :: x)%list.
      rewrite rev_app_distr. cbn [rev]. rewrite <- app_assoc. reflexivity. }
  destruct (quita_blancos_ajeno true a (rev (a0 :: p)) Ha (List.length (rev x)) (rev x)
              (Nat.le_refl _)) as [z E].
  rewrite E. exists (rev z).
  rewrite rev_app_distr. cbn [rev]. rewrite rev_app_distr, rev_involutive.
  cbn [rev app]. rewrite <- !app_assoc. reflexivity.
Qed.

(** A part of the file between two semicolons that the script drops: after
    the ASCII white space it starts with, it is empty, or a line comment
    comes first, or the word COMMENT. *)
Fixpoint sin_blancos_ascii (s : Texto) : Texto :=
  match s with
  | a :: s' => if blanco1 a then sin_blancos_ascii s' else s
  | [] => []
  end.

Definition descartable (c : Texto) : bool :=
  match sin_blancos_ascii c with
  | [] => true
  | r => startsWith (texto "--") r || startsWith (texto "COMMENT") r
  end.

Lemma quita_blancos_ascii (s : Texto) :
  quita_blancos false s = quita_blancos false (sin_blancos_ascii s).
Proof.
  induction s as [| a s IH]; [reflexivity |].
  cbn [sin_blancos_ascii]. destruct (blanco1 a) eqn:B; [| reflexivity].
  cbn [quita_blancos]. rewrite B. exact IH.
Qed.

Lemma trim_ascii (s : Texto) : trim s = trim (sin_blancos_ascii s).
Proof. unfold trim. now rewrite quita_blancos_ascii. Qed.

Lemma descartable_trim (c : Texto) :
  descartable c = true ->
  negb (Nat.eqb (List.length (trim c)) 0)
  && negb (startsWith (texto "--") (trim c))
  && negb (startsWith (texto "COMMENT") (trim c)) = false.
Proof.
  unfold descartable. rewrite (trim_ascii c).
  destruct (sin_blancos_ascii c) as [| a r] eqn:E; [reflexivity |].
  rewrite orb_true_iff. intros [H | H]; apply startsWith_inv in H; destruct H as [x ->].
  - destruct (trim_conserva_el_inicio "-" "-" [] x eq_refl eq_refl) as [z Ez].
    cbn [app texto list_ascii_of_string] in *. rewrite Ez. reflexivity.
  - destruct (trim_conserva_el_inicio "C" "T" (texto "OMMEN") x eq_refl eq_refl) as [z Ez].
    cbn [app texto list_ascii_of_string] in *. rewrite Ez. reflexivity.
Qed.

(** X24: A statement that comes after a comment line, with no semicolon between
    them, is dropped together with the comment: the script filters the parts
    of the file between semicolons by how they start.  When every part
    starts with a line comment or with COMMENT, or is blank, the script
    hands no statement to the server, whatever the server would answer; the
    file of the repository, where a comment line precedes CREATE TABLE and
    every CREATE INDEX, is such a file. *)
Theorem comentario_arrastra_la_sentencia (sql : Texto)
    (rpc : nat -> Texto -> option string) :
  forallb descartable (split ";" [] sql) = true ->
  statements sql = [] /\ setupDatabase sql rpc = [].
Proof.
  intros H. assert (E : statements sql = []).
  { unfold statements. induction (split ";" [] sql) as [| c l IH]; [reflexivity |].
    cbn [forallb] in H. apply andb_true_iff in H. destruct H as [Hc Hl].
    cbn [map filter]. rewrite (descartable_trim c Hc). apply IH, Hl. }
  split; [exact E |]. unfold setupDatabase. rewrite E. reflexivity.
Qed.

Lemma comentario_arrastra_la_sentencia_witness :
  (includes (texto "CREATE TABLE IF NOT EXISTS turnos") setup_db_sql = true
   /\ includes (texto "CREATE UNIQUE INDEX IF NOT EXISTS unique_turno_activo") setup_db_sql
      = true
   /\ List.length (split ";" [] setup_db_sql) = 14)
  /\ statements setup_db_sql = []
  /\ setupDatabase setup_db_sql (fun _ _ => None) = [].
Proof.
  split; [repeat split; vm_compute; reflexivity |].
  apply (comentario_arrastra_la_sentencia setup_db_sql (fun _ _ => None)).
  vm_compute. reflexivity.
Defined.

(** *** The loop *)

Definition es_indice (s : Texto) : bool :=
  includes (texto "CREATE INDEX IF NOT EXISTS") s.

Lemma bucle_prefijo (rpc : nat -> Texto -> option string) (pendientes : list Texto) :
  forall k : nat,
    let enviados := bucle rpc k pendientes in
    (exists resto,
       filter (fun s => negb (es_indice s)) pendientes = (enviados ++ resto)%list
       /\ (resto <> [] ->
           exists s e, nth_error enviados (List.length enviados - 1) = Some s
                       /\ rpc (k + (List.length enviados - 1)) s = Some e))
    /\ (forall i s, nth_error enviados i = Some s -> S i < List.length enviados ->
          rpc (k + i) s = None).
Proof.
  induction pendientes as [| s0 resto0 IH]; intros k enviados.
  - split; [exists []; split; [reflexivity | intros H; now destruct H] |].
    intros i s H. destruct i; discriminate.
  - subst enviados. cbn [bucle filter]. fold (es_indice s0).
    destruct (es_indice s0); cbn [negb]; [apply IH |].
    destruct (rpc k s0) as [e |] eqn:R.
    + split.
      * exists (filter (fun s => negb (es_indice s)) resto0). split; [reflexivity |].
        intros _. exists s0, e. cbn. rewrite Nat.add_0_r. auto.
      * intros i s H Hi. cbn in Hi. lia.
    + destruct (IH (S k)) as [(resto & E & Hr) Hok]. split.
      * exists resto. split; [cbn [app]; now rewrite E |].
        intros Hne. destruct (Hr Hne) as (s & e & Hn & He).
        exists s, e. cbn [List.length].
        destruct (bucle rpc (S k) resto0) as [| s1 l] eqn:B.
        -- cbn in Hn. discriminate.
        -- cbn [List.length] in *.
           replace (S (List.length l) - 1) with (List.length l) in Hn, He by lia.
           replace (S (S (List.length l)) - 1) with (S (List.length l)) by lia.
           cbn [nth_error]. split; [exact Hn |].
           replace (k + S (List.length l)) with (S k + List.length l) by lia. exact He.
      * intros i s H Hi. destruct i as [| i].
        -- cbn in H. injection H as <-. now rewrite Nat.add_0_r.
        -- cbn [nth_error] in H. cbn [List.length] in Hi.
           replace (k + S i) with (S k + i) by lia. apply Hok; [exact H | lia].
Qed.

(** X25: The loop of the script hands the statements to the server in the order
    of the file, leaving out those that contain CREATE INDEX IF NOT EXISTS,
    and stops at the first one the server answers with an error: every
    statement it sent but the last was accepted, and when a statement was
    left unsent the last one sent had failed.  A CREATE UNIQUE INDEX
    statement is not left out for its own first words: the phrase has no
    UNIQUE in it. *)
Theorem bucle_hasta_el_primer_error (rpc : nat -> Texto -> option string)
    (pendientes : list Texto) :
  let enviados := bucle rpc 0 pendientes in
  (exists resto,
     filter (fun s => negb (es_indice s)) pendientes = (enviados ++ resto)%list
     /\ (resto <> [] ->
         exists s e, nth_error enviados (List.length enviados - 1) = Some s
                     /\ rpc (List.length enviados - 1) s = Some e))
  /\ (forall i s, nth_error enviados i = Some s -> S i < List.length enviados ->
        rpc i s = None)
  /\ (forall x, es_indice (texto "CREATE UNIQUE INDEX IF NOT EXISTS " ++ x)%list
                = es_indice x).
Proof.
  intros enviados. destruct (bucle_prefijo rpc pendientes 0) as [H1 H2].
  split; [exact H1 | split; [exact H2 |]].
  intros x. unfold es_indice. reflexivity.
Qed.

End SetupDbFacts.
